(** * matplotlib-ruler: the interactive ruler and the text mover

    A shallow embedding of the two [Ruler] widgets
    (matplotlib_ruler/ruler.py and matplotlib_tools/tools.py) and of
    [TextMover] (matplotlib_tools/tools.py), with the properties of their
    measurements and of their mouse and keyboard handlers.

    Modelling conventions.
    - Coordinates are double-precision floats in the source.  They are
      idealised here as real numbers: rounding, overflow, infinities and
      nan are not modelled.  The constructors draw their placeholder line
      at nan, which has no real counterpart, so the constructors are not
      embedded and every statement ranges over all widget states.
      Statements name the values the handlers compute, operation by
      operation; where the handlers add one offset to several
      coordinates (the midpoint drag) the arithmetic is given a second
      time for any numbers and run on doubles ([arithmetic],
      [float64]), to show what rounding does to it.
    - A Python attribute that may hold [None] is an [option]; a handler
      returns [None] where the source raises (arithmetic on [None], a
      failed unpacking, an index out of range) or would hand [None] to
      the toolkit as a coordinate.
    - Rendering (draw, blit, restore_region) changes nothing the widgets
      read back and is left out; the flags the widgets keep about it
      (animated, the saved background) are kept. *)

From Stdlib Require Import Reals Lra Ascii.
From Stdlib Require PrimFloat.
From stdpp Require Import gmap strings list.

Open Scope R_scope.

(** ** Python built-ins *)

Module py.

(** [s.split(sep)] for a one-character separator: the pieces between the
    occurrences of [sep], empty pieces included. *)
Fixpoint split (sep : Ascii.ascii) (s : string) : list string :=
  match s with
  | EmptyString => [EmptyString]
  | String c rest =>
      match split sep rest with
      | [] => [EmptyString]
      | piece :: pieces =>
          if Ascii.eqb c sep then EmptyString :: piece :: pieces
          else String c piece :: pieces
      end
  end.

(** [sep.join(pieces)] *)
Fixpoint join (sep : string) (pieces : list string) : string :=
  match pieces with
  | [] => EmptyString
  | [p] => p
  | p :: rest => p +:+ sep +:+ join sep rest
  end.

(** [x in l] for a list of strings *)
Definition contains (x : string) (l : list string) : bool :=
  existsb (String.eqb x) l.

(** [l.remove(x)]: drops the first occurrence ([ValueError] when there is
    none; the one call in the source is guarded by [x in l]). *)
Fixpoint remove (x : string) (l : list string) : list string :=
  match l with
  | [] => []
  | y :: rest => if String.eqb y x then rest else y :: remove x rest
  end.

(** Truth value of [event.key]: [None] and the empty string are false. *)
Definition truthy (k : option string) : bool :=
  match k with
  | Some EmptyString | None => false
  | Some _ => true
  end.

(** [a, b = seq]: unpacking into exactly two names ([ValueError]
    otherwise). *)
Definition unpack2 {A} (l : list A) : option (A * A) :=
  match l with
  | [a; b] => Some (a, b)
  | _ => None
  end.

End py.

(** ** numpy, on real numbers *)

Module np.

Definition pi : R := PI.

Definition sqrt (x : R) : R := R_sqrt.sqrt x.

Definition abs (x : R) : R := Rabs x.

(** [np.hypot(x1, x2)]: the hypotenuse of the right triangle with legs
    [x1] and [x2]. *)
Definition hypot (x1 x2 : R) : R := R_sqrt.sqrt (x1 * x1 + x2 * x2).

(** [np.arctan2(x1, x2)]: the angle of the point with ordinate [x1] and
    abscissa [x2], in (-pi, pi]; [x1] is the y-coordinate and [x2] the
    x-coordinate. *)
Definition arctan2 (x1 x2 : R) : R :=
  if Rlt_dec 0 x2 then atan (x1 / x2)
  else if Rlt_dec x2 0 then
    if Rle_dec 0 x1 then atan (x1 / x2) + PI else atan (x1 / x2) - PI
  else if Rlt_dec 0 x1 then PI / 2
  else if Rlt_dec x1 0 then - (PI / 2)
  else 0.

End np.

(** ** The toolkit: artists and events *)

Definition Point : Type := R * R.

(** An axes object, by identity. *)
Definition Axes : Type := nat.

(** [matplotlib.lines.Line2D]: the data points and the two flags the
    widgets set. *)
Record Line2D := {
  vertices : list Point;
  line_visible : bool;
  line_animated : bool;
}.

(** [line.set_data(xs, ys)].  Sequences of different lengths are an error
    (matplotlib reports it when the path is next rebuilt). *)
Definition set_data (xs ys : list R) (l : Line2D) : option Line2D :=
  if Nat.eqb (length xs) (length ys) then
    Some {| vertices := combine xs ys;
            line_visible := line_visible l;
            line_animated := line_animated l |}
  else None.

Definition line_set_visible (v : bool) (l : Line2D) : Line2D :=
  {| vertices := vertices l; line_visible := v;
     line_animated := line_animated l |}.

Definition line_set_animated (v : bool) (l : Line2D) : Line2D :=
  {| vertices := vertices l; line_visible := line_visible l;
     line_animated := v |}.

(** [matplotlib.text.Text] (and [Annotation]): text, position, flags. *)
Record Text := {
  text : string;
  position : Point;
  text_visible : bool;
  text_animated : bool;
}.

Definition set_text (s : string) (t : Text) : Text :=
  {| text := s; position := position t;
     text_visible := text_visible t; text_animated := text_animated t |}.

Definition set_position (p : Point) (t : Text) : Text :=
  {| text := text t; position := p;
     text_visible := text_visible t; text_animated := text_animated t |}.

Definition text_set_visible (v : bool) (t : Text) : Text :=
  {| text := text t; position := position t;
     text_visible := v; text_animated := text_animated t |}.

Definition text_set_animated (v : bool) (t : Text) : Text :=
  {| text := text t; position := position t;
     text_visible := text_visible t; text_animated := v |}.

(** What a handler reads from the canvas when an event is dispatched:
    the toolbar's mode (pan, zoom or empty) and whether the widget lock
    is available to this widget. *)
Record Canvas := {
  toolbar_mode : string;
  widgetlock_available : bool;
}.

(** A mouse or key event.  [xdata] and [ydata] are [None] in matplotlib
    exactly when [inaxes] is; every read of them in the source follows a
    check of [inaxes], so they are carried as numbers. *)
Record Event := {
  button : nat;
  key : option string;
  inaxes : option Axes;
  xdata : R;
  ydata : R;
  canvas : Canvas;
}.

(** [event.inaxes != self.ax.axes] *)
Definition not_in_axes (e : Event) (ax : Axes) : bool :=
  match inaxes e with
  | Some a => negb (Nat.eqb a ax)
  | None => true
  end.

(** [event.key.split("+") if event.key else []] *)
Definition event_keys (e : Event) : list string :=
  match key e with
  | Some k => if py.truthy (Some k) then py.split "+"%char k else []
  | None => []
  end.

(** [event.key == s] *)
Definition key_is (e : Event) (s : string) : bool :=
  match key e with
  | Some k => String.eqb k s
  | None => false
  end.

Inductive Cursors := POINTER | SELECT_REGION | MOVE
                   | RESIZE_HORIZONTAL | RESIZE_VERTICAL.

(** A region of the canvas saved by [copy_from_bbox]; its pixels are the
    toolkit's business. *)
Definition Region : Type := unit.

(** * matplotlib_ruler/ruler.py *)

Module matplotlib_ruler.

(** The state of a [Ruler].  [_artists] is the list of the five artist
    objects [_axes_text], [_ruler], [_marker_a], [_marker_b], [_marker_c]
    themselves, so a loop over it updates these five fields.
    [_line_start_coords], [_line_end_coords] and [_ruler_marker] are
    assigned [None] by the constructor and never used again; they are
    left out.  [cursor] is the cursor last set on the canvas and [stdout]
    what [print] has written. *)
Record Ruler := {
  ax : Axes;
  _print_text : bool;
  _visible : bool;
  active : bool;
  length_fmt : string;
  angle_fmt : string;
  angle_in_degrees : bool;
  useblit : bool;
  _ruler_drawing : bool;
  _pressed_keys : list string;
  _mouse_buttons : gset nat;
  _x0 : option R;
  _y0 : option R;
  _x1 : option R;
  _y1 : option R;
  _background : option Region;
  _ruler_moving : bool;
  _end_a_lock : bool;
  _end_b_lock : bool;
  _end_c_lock : bool;
  _old_marker_a_coords : option (list Point);
  _old_marker_c_coords : option (list Point);
  _old_mid_coords : option Point;
  _ruler : Line2D;
  _axes_text : Text;
  _marker_a : Line2D;
  _marker_b : Line2D;
  _marker_c : Line2D;
  cursor : Cursors;
  stdout : list string;
}.

Definition set__visible (v : bool) (w : Ruler) : Ruler :=
  {| ax := ax w; _print_text := _print_text w; _visible := v;
     active := active w; length_fmt := length_fmt w;
     angle_fmt := angle_fmt w; angle_in_degrees := angle_in_degrees w;
     useblit := useblit w; _ruler_drawing := _ruler_drawing w;
     _pressed_keys := _pressed_keys w; _mouse_buttons := _mouse_buttons w;
     _x0 := _x0 w; _y0 := _y0 w; _x1 := _x1 w; _y1 := _y1 w;
     _background := _background w; _ruler_moving := _ruler_moving w;
     _end_a_lock := _end_a_lock w; _end_b_lock := _end_b_lock w;
     _end_c_lock := _end_c_lock w;
     _old_marker_a_coords := _old_marker_a_coords w;
     _old_marker_c_coords := _old_marker_c_coords w;
     _old_mid_coords := _old_mid_coords w; _ruler := _ruler w;
     _axes_text := _axes_text w; _marker_a := _marker_a w;
     _marker_b := _marker_b w; _marker_c := _marker_c w; cursor := cursor w;
     stdout := stdout w |}.

Definition set_active (v : bool) (w : Ruler) : Ruler :=
  {| ax := ax w; _print_text := _print_text w; _visible := _visible w;
     active := v; length_fmt := length_fmt w; angle_fmt := angle_fmt w;
     angle_in_degrees := angle_in_degrees w; useblit := useblit w;
     _ruler_drawing := _ruler_drawing w; _pressed_keys := _pressed_keys w;
     _mouse_buttons := _mouse_buttons w; _x0 := _x0 w; _y0 := _y0 w;
     _x1 := _x1 w; _y1 := _y1 w; _background := _background w;
     _ruler_moving := _ruler_moving w; _end_a_lock := _end_a_lock w;
     _end_b_lock := _end_b_lock w; _end_c_lock := _end_c_lock w;
     _old_marker_a_coords := _old_marker_a_coords w;
     _old_marker_c_coords := _old_marker_c_coords w;
     _old_mid_coords := _old_mid_coords w; _ruler := _ruler w;
     _axes_text := _axes_text w; _marker_a := _marker_a w;
     _marker_b := _marker_b w; _marker_c := _marker_c w; cursor := cursor w;
     stdout := stdout w |}.

Definition set__ruler_drawing (v : bool) (w : Ruler) : Ruler :=
  {| ax := ax w; _print_text := _print_text w; _visible := _visible w;
     active := active w; length_fmt := length_fmt w;
     angle_fmt := angle_fmt w; angle_in_degrees := angle_in_degrees w;
     useblit := useblit w; _ruler_drawing := v;
     _pressed_keys := _pressed_keys w; _mouse_buttons := _mouse_buttons w;
     _x0 := _x0 w; _y0 := _y0 w; _x1 := _x1 w; _y1 := _y1 w;
     _background := _background w; _ruler_moving := _ruler_moving w;
     _end_a_lock := _end_a_lock w; _end_b_lock := _end_b_lock w;
     _end_c_lock := _end_c_lock w;
     _old_marker_a_coords := _old_marker_a_coords w;
     _old_marker_c_coords := _old_marker_c_coords w;
     _old_mid_coords := _old_mid_coords w; _ruler := _ruler w;
     _axes_text := _axes_text w; _marker_a := _marker_a w;
     _marker_b := _marker_b w; _marker_c := _marker_c w; cursor := cursor w;
     stdout := stdout w |}.

Definition set__pressed_keys (v : list string) (w : Ruler) : Ruler :=
  {| ax := ax w; _print_text := _print_text w; _visible := _visible w;
     active := active w; length_fmt := length_fmt w;
     angle_fmt := angle_fmt w; angle_in_degrees := angle_in_degrees w;
     useblit := useblit w; _ruler_drawing := _ruler_drawing w;
     _pressed_keys := v; _mouse_buttons := _mouse_buttons w; _x0 := _x0 w;
     _y0 := _y0 w; _x1 := _x1 w; _y1 := _y1 w; _background := _background w;
     _ruler_moving := _ruler_moving w; _end_a_lock := _end_a_lock w;
     _end_b_lock := _end_b_lock w; _end_c_lock := _end_c_lock w;
     _old_marker_a_coords := _old_marker_a_coords w;
     _old_marker_c_coords := _old_marker_c_coords w;
     _old_mid_coords := _old_mid_coords w; _ruler := _ruler w;
     _axes_text := _axes_text w; _marker_a := _marker_a w;
     _marker_b := _marker_b w; _marker_c := _marker_c w; cursor := cursor w;
     stdout := stdout w |}.

Definition set__mouse_buttons (v : gset nat) (w : Ruler) : Ruler :=
  {| ax := ax w; _print_text := _print_text w; _visible := _visible w;
     active := active w; length_fmt := length_fmt w;
     angle_fmt := angle_fmt w; angle_in_degrees := angle_in_degrees w;
     useblit := useblit w; _ruler_drawing := _ruler_drawing w;
     _pressed_keys := _pressed_keys w; _mouse_buttons := v; _x0 := _x0 w;
     _y0 := _y0 w; _x1 := _x1 w; _y1 := _y1 w; _background := _background w;
     _ruler_moving := _ruler_moving w; _end_a_lock := _end_a_lock w;
     _end_b_lock := _end_b_lock w; _end_c_lock := _end_c_lock w;
     _old_marker_a_coords := _old_marker_a_coords w;
     _old_marker_c_coords := _old_marker_c_coords w;
     _old_mid_coords := _old_mid_coords w; _ruler := _ruler w;
     _axes_text := _axes_text w; _marker_a := _marker_a w;
     _marker_b := _marker_b w; _marker_c := _marker_c w; cursor := cursor w;
     stdout := stdout w |}.

Definition set__x0 (v : option R) (w : Ruler) : Ruler :=
  {| ax := ax w; _print_text := _print_text w; _visible := _visible w;
     active := active w; length_fmt := length_fmt w;
     angle_fmt := angle_fmt w; angle_in_degrees := angle_in_degrees w;
     useblit := useblit w; _ruler_drawing := _ruler_drawing w;
     _pressed_keys := _pressed_keys w; _mouse_buttons := _mouse_buttons w;
     _x0 := v; _y0 := _y0 w; _x1 := _x1 w; _y1 := _y1 w;
     _background := _background w; _ruler_moving := _ruler_moving w;
     _end_a_lock := _end_a_lock w; _end_b_lock := _end_b_lock w;
     _end_c_lock := _end_c_lock w;
     _old_marker_a_coords := _old_marker_a_coords w;
     _old_marker_c_coords := _old_marker_c_coords w;
     _old_mid_coords := _old_mid_coords w; _ruler := _ruler w;
     _axes_text := _axes_text w; _marker_a := _marker_a w;
     _marker_b := _marker_b w; _marker_c := _marker_c w; cursor := cursor w;
     stdout := stdout w |}.

Definition set__y0 (v : option R) (w : Ruler) : Ruler :=
  {| ax := ax w; _print_text := _print_text w; _visible := _visible w;
     active := active w; length_fmt := length_fmt w;
     angle_fmt := angle_fmt w; angle_in_degrees := angle_in_degrees w;
     useblit := useblit w; _ruler_drawing := _ruler_drawing w;
     _pressed_keys := _pressed_keys w; _mouse_buttons := _mouse_buttons w;
     _x0 := _x0 w; _y0 := v; _x1 := _x1 w; _y1 := _y1 w;
     _background := _background w; _ruler_moving := _ruler_moving w;
     _end_a_lock := _end_a_lock w; _end_b_lock := _end_b_lock w;
     _end_c_lock := _end_c_lock w;
     _old_marker_a_coords := _old_marker_a_coords w;
     _old_marker_c_coords := _old_marker_c_coords w;
     _old_mid_coords := _old_mid_coords w; _ruler := _ruler w;
     _axes_text := _axes_text w; _marker_a := _marker_a w;
     _marker_b := _marker_b w; _marker_c := _marker_c w; cursor := cursor w;
     stdout := stdout w |}.

Definition set__x1 (v : option R) (w : Ruler) : Ruler :=
  {| ax := ax w; _print_text := _print_text w; _visible := _visible w;
     active := active w; length_fmt := length_fmt w;
     angle_fmt := angle_fmt w; angle_in_degrees := angle_in_degrees w;
     useblit := useblit w; _ruler_drawing := _ruler_drawing w;
     _pressed_keys := _pressed_keys w; _mouse_buttons := _mouse_buttons w;
     _x0 := _x0 w; _y0 := _y0 w; _x1 := v; _y1 := _y1 w;
     _background := _background w; _ruler_moving := _ruler_moving w;
     _end_a_lock := _end_a_lock w; _end_b_lock := _end_b_lock w;
     _end_c_lock := _end_c_lock w;
     _old_marker_a_coords := _old_marker_a_coords w;
     _old_marker_c_coords := _old_marker_c_coords w;
     _old_mid_coords := _old_mid_coords w; _ruler := _ruler w;
     _axes_text := _axes_text w; _marker_a := _marker_a w;
     _marker_b := _marker_b w; _marker_c := _marker_c w; cursor := cursor w;
     stdout := stdout w |}.

Definition set__y1 (v : option R) (w : Ruler) : Ruler :=
  {| ax := ax w; _print_text := _print_text w; _visible := _visible w;
     active := active w; length_fmt := length_fmt w;
     angle_fmt := angle_fmt w; angle_in_degrees := angle_in_degrees w;
     useblit := useblit w; _ruler_drawing := _ruler_drawing w;
     _pressed_keys := _pressed_keys w; _mouse_buttons := _mouse_buttons w;
     _x0 := _x0 w; _y0 := _y0 w; _x1 := _x1 w; _y1 := v;
     _background := _background w; _ruler_moving := _ruler_moving w;
     _end_a_lock := _end_a_lock w; _end_b_lock := _end_b_lock w;
     _end_c_lock := _end_c_lock w;
     _old_marker_a_coords := _old_marker_a_coords w;
     _old_marker_c_coords := _old_marker_c_coords w;
     _old_mid_coords := _old_mid_coords w; _ruler := _ruler w;
     _axes_text := _axes_text w; _marker_a := _marker_a w;
     _marker_b := _marker_b w; _marker_c := _marker_c w; cursor := cursor w;
     stdout := stdout w |}.

Definition set__background (v : option Region) (w : Ruler) : Ruler :=
  {| ax := ax w; _print_text := _print_text w; _visible := _visible w;
     active := active w; length_fmt := length_fmt w;
     angle_fmt := angle_fmt w; angle_in_degrees := angle_in_degrees w;
     useblit := useblit w; _ruler_drawing := _ruler_drawing w;
     _pressed_keys := _pressed_keys w; _mouse_buttons := _mouse_buttons w;
     _x0 := _x0 w; _y0 := _y0 w; _x1 := _x1 w; _y1 := _y1 w;
     _background := v; _ruler_moving := _ruler_moving w;
     _end_a_lock := _end_a_lock w; _end_b_lock := _end_b_lock w;
     _end_c_lock := _end_c_lock w;
     _old_marker_a_coords := _old_marker_a_coords w;
     _old_marker_c_coords := _old_marker_c_coords w;
     _old_mid_coords := _old_mid_coords w; _ruler := _ruler w;
     _axes_text := _axes_text w; _marker_a := _marker_a w;
     _marker_b := _marker_b w; _marker_c := _marker_c w; cursor := cursor w;
     stdout := stdout w |}.

Definition set__ruler_moving (v : bool) (w : Ruler) : Ruler :=
  {| ax := ax w; _print_text := _print_text w; _visible := _visible w;
     active := active w; length_fmt := length_fmt w;
     angle_fmt := angle_fmt w; angle_in_degrees := angle_in_degrees w;
     useblit := useblit w; _ruler_drawing := _ruler_drawing w;
     _pressed_keys := _pressed_keys w; _mouse_buttons := _mouse_buttons w;
     _x0 := _x0 w; _y0 := _y0 w; _x1 := _x1 w; _y1 := _y1 w;
     _background := _background w; _ruler_moving := v;
     _end_a_lock := _end_a_lock w; _end_b_lock := _end_b_lock w;
     _end_c_lock := _end_c_lock w;
     _old_marker_a_coords := _old_marker_a_coords w;
     _old_marker_c_coords := _old_marker_c_coords w;
     _old_mid_coords := _old_mid_coords w; _ruler := _ruler w;
     _axes_text := _axes_text w; _marker_a := _marker_a w;
     _marker_b := _marker_b w; _marker_c := _marker_c w; cursor := cursor w;
     stdout := stdout w |}.

Definition set__end_a_lock (v : bool) (w : Ruler) : Ruler :=
  {| ax := ax w; _print_text := _print_text w; _visible := _visible w;
     active := active w; length_fmt := length_fmt w;
     angle_fmt := angle_fmt w; angle_in_degrees := angle_in_degrees w;
     useblit := useblit w; _ruler_drawing := _ruler_drawing w;
     _pressed_keys := _pressed_keys w; _mouse_buttons := _mouse_buttons w;
     _x0 := _x0 w; _y0 := _y0 w; _x1 := _x1 w; _y1 := _y1 w;
     _background := _background w; _ruler_moving := _ruler_moving w;
     _end_a_lock := v; _end_b_lock := _end_b_lock w;
     _end_c_lock := _end_c_lock w;
     _old_marker_a_coords := _old_marker_a_coords w;
     _old_marker_c_coords := _old_marker_c_coords w;
     _old_mid_coords := _old_mid_coords w; _ruler := _ruler w;
     _axes_text := _axes_text w; _marker_a := _marker_a w;
     _marker_b := _marker_b w; _marker_c := _marker_c w; cursor := cursor w;
     stdout := stdout w |}.

Definition set__end_b_lock (v : bool) (w : Ruler) : Ruler :=
  {| ax := ax w; _print_text := _print_text w; _visible := _visible w;
     active := active w; length_fmt := length_fmt w;
     angle_fmt := angle_fmt w; angle_in_degrees := angle_in_degrees w;
     useblit := useblit w; _ruler_drawing := _ruler_drawing w;
     _pressed_keys := _pressed_keys w; _mouse_buttons := _mouse_buttons w;
     _x0 := _x0 w; _y0 := _y0 w; _x1 := _x1 w; _y1 := _y1 w;
     _background := _background w; _ruler_moving := _ruler_moving w;
     _end_a_lock := _end_a_lock w; _end_b_lock := v;
     _end_c_lock := _end_c_lock w;
     _old_marker_a_coords := _old_marker_a_coords w;
     _old_marker_c_coords := _old_marker_c_coords w;
     _old_mid_coords := _old_mid_coords w; _ruler := _ruler w;
     _axes_text := _axes_text w; _marker_a := _marker_a w;
     _marker_b := _marker_b w; _marker_c := _marker_c w; cursor := cursor w;
     stdout := stdout w |}.

Definition set__end_c_lock (v : bool) (w : Ruler) : Ruler :=
  {| ax := ax w; _print_text := _print_text w; _visible := _visible w;
     active := active w; length_fmt := length_fmt w;
     angle_fmt := angle_fmt w; angle_in_degrees := angle_in_degrees w;
     useblit := useblit w; _ruler_drawing := _ruler_drawing w;
     _pressed_keys := _pressed_keys w; _mouse_buttons := _mouse_buttons w;
     _x0 := _x0 w; _y0 := _y0 w; _x1 := _x1 w; _y1 := _y1 w;
     _background := _background w; _ruler_moving := _ruler_moving w;
     _end_a_lock := _end_a_lock w; _end_b_lock := _end_b_lock w;
     _end_c_lock := v; _old_marker_a_coords := _old_marker_a_coords w;
     _old_marker_c_coords := _old_marker_c_coords w;
     _old_mid_coords := _old_mid_coords w; _ruler := _ruler w;
     _axes_text := _axes_text w; _marker_a := _marker_a w;
     _marker_b := _marker_b w; _marker_c := _marker_c w; cursor := cursor w;
     stdout := stdout w |}.

Definition set__old_marker_a_coords (v : option (list Point)) (w : Ruler) : Ruler :=
  {| ax := ax w; _print_text := _print_text w; _visible := _visible w;
     active := active w; length_fmt := length_fmt w;
     angle_fmt := angle_fmt w; angle_in_degrees := angle_in_degrees w;
     useblit := useblit w; _ruler_drawing := _ruler_drawing w;
     _pressed_keys := _pressed_keys w; _mouse_buttons := _mouse_buttons w;
     _x0 := _x0 w; _y0 := _y0 w; _x1 := _x1 w; _y1 := _y1 w;
     _background := _background w; _ruler_moving := _ruler_moving w;
     _end_a_lock := _end_a_lock w; _end_b_lock := _end_b_lock w;
     _end_c_lock := _end_c_lock w; _old_marker_a_coords := v;
     _old_marker_c_coords := _old_marker_c_coords w;
     _old_mid_coords := _old_mid_coords w; _ruler := _ruler w;
     _axes_text := _axes_text w; _marker_a := _marker_a w;
     _marker_b := _marker_b w; _marker_c := _marker_c w; cursor := cursor w;
     stdout := stdout w |}.

Definition set__old_marker_c_coords (v : option (list Point)) (w : Ruler) : Ruler :=
  {| ax := ax w; _print_text := _print_text w; _visible := _visible w;
     active := active w; length_fmt := length_fmt w;
     angle_fmt := angle_fmt w; angle_in_degrees := angle_in_degrees w;
     useblit := useblit w; _ruler_drawing := _ruler_drawing w;
     _pressed_keys := _pressed_keys w; _mouse_buttons := _mouse_buttons w;
     _x0 := _x0 w; _y0 := _y0 w; _x1 := _x1 w; _y1 := _y1 w;
     _background := _background w; _ruler_moving := _ruler_moving w;
     _end_a_lock := _end_a_lock w; _end_b_lock := _end_b_lock w;
     _end_c_lock := _end_c_lock w;
     _old_marker_a_coords := _old_marker_a_coords w;
     _old_marker_c_coords := v; _old_mid_coords := _old_mid_coords w;
     _ruler := _ruler w; _axes_text := _axes_text w;
     _marker_a := _marker_a w; _marker_b := _marker_b w;
     _marker_c := _marker_c w; cursor := cursor w; stdout := stdout w |}.

Definition set__old_mid_coords (v : option Point) (w : Ruler) : Ruler :=
  {| ax := ax w; _print_text := _print_text w; _visible := _visible w;
     active := active w; length_fmt := length_fmt w;
     angle_fmt := angle_fmt w; angle_in_degrees := angle_in_degrees w;
     useblit := useblit w; _ruler_drawing := _ruler_drawing w;
     _pressed_keys := _pressed_keys w; _mouse_buttons := _mouse_buttons w;
     _x0 := _x0 w; _y0 := _y0 w; _x1 := _x1 w; _y1 := _y1 w;
     _background := _background w; _ruler_moving := _ruler_moving w;
     _end_a_lock := _end_a_lock w; _end_b_lock := _end_b_lock w;
     _end_c_lock := _end_c_lock w;
     _old_marker_a_coords := _old_marker_a_coords w;
     _old_marker_c_coords := _old_marker_c_coords w; _old_mid_coords := v;
     _ruler := _ruler w; _axes_text := _axes_text w;
     _marker_a := _marker_a w; _marker_b := _marker_b w;
     _marker_c := _marker_c w; cursor := cursor w; stdout := stdout w |}.

Definition set__ruler (v : Line2D) (w : Ruler) : Ruler :=
  {| ax := ax w; _print_text := _print_text w; _visible := _visible w;
     active := active w; length_fmt := length_fmt w;
     angle_fmt := angle_fmt w; angle_in_degrees := angle_in_degrees w;
     useblit := useblit w; _ruler_drawing := _ruler_drawing w;
     _pressed_keys := _pressed_keys w; _mouse_buttons := _mouse_buttons w;
     _x0 := _x0 w; _y0 := _y0 w; _x1 := _x1 w; _y1 := _y1 w;
     _background := _background w; _ruler_moving := _ruler_moving w;
     _end_a_lock := _end_a_lock w; _end_b_lock := _end_b_lock w;
     _end_c_lock := _end_c_lock w;
     _old_marker_a_coords := _old_marker_a_coords w;
     _old_marker_c_coords := _old_marker_c_coords w;
     _old_mid_coords := _old_mid_coords w; _ruler := v;
     _axes_text := _axes_text w; _marker_a := _marker_a w;
     _marker_b := _marker_b w; _marker_c := _marker_c w; cursor := cursor w;
     stdout := stdout w |}.

Definition set__axes_text (v : Text) (w : Ruler) : Ruler :=
  {| ax := ax w; _print_text := _print_text w; _visible := _visible w;
     active := active w; length_fmt := length_fmt w;
     angle_fmt := angle_fmt w; angle_in_degrees := angle_in_degrees w;
     useblit := useblit w; _ruler_drawing := _ruler_drawing w;
     _pressed_keys := _pressed_keys w; _mouse_buttons := _mouse_buttons w;
     _x0 := _x0 w; _y0 := _y0 w; _x1 := _x1 w; _y1 := _y1 w;
     _background := _background w; _ruler_moving := _ruler_moving w;
     _end_a_lock := _end_a_lock w; _end_b_lock := _end_b_lock w;
     _end_c_lock := _end_c_lock w;
     _old_marker_a_coords := _old_marker_a_coords w;
     _old_marker_c_coords := _old_marker_c_coords w;
     _old_mid_coords := _old_mid_coords w; _ruler := _ruler w;
     _axes_text := v; _marker_a := _marker_a w; _marker_b := _marker_b w;
     _marker_c := _marker_c w; cursor := cursor w; stdout := stdout w |}.

Definition set__marker_a (v : Line2D) (w : Ruler) : Ruler :=
  {| ax := ax w; _print_text := _print_text w; _visible := _visible w;
     active := active w; length_fmt := length_fmt w;
     angle_fmt := angle_fmt w; angle_in_degrees := angle_in_degrees w;
     useblit := useblit w; _ruler_drawing := _ruler_drawing w;
     _pressed_keys := _pressed_keys w; _mouse_buttons := _mouse_buttons w;
     _x0 := _x0 w; _y0 := _y0 w; _x1 := _x1 w; _y1 := _y1 w;
     _background := _background w; _ruler_moving := _ruler_moving w;
     _end_a_lock := _end_a_lock w; _end_b_lock := _end_b_lock w;
     _end_c_lock := _end_c_lock w;
     _old_marker_a_coords := _old_marker_a_coords w;
     _old_marker_c_coords := _old_marker_c_coords w;
     _old_mid_coords := _old_mid_coords w; _ruler := _ruler w;
     _axes_text := _axes_text w; _marker_a := v; _marker_b := _marker_b w;
     _marker_c := _marker_c w; cursor := cursor w; stdout := stdout w |}.

Definition set__marker_b (v : Line2D) (w : Ruler) : Ruler :=
  {| ax := ax w; _print_text := _print_text w; _visible := _visible w;
     active := active w; length_fmt := length_fmt w;
     angle_fmt := angle_fmt w; angle_in_degrees := angle_in_degrees w;
     useblit := useblit w; _ruler_drawing := _ruler_drawing w;
     _pressed_keys := _pressed_keys w; _mouse_buttons := _mouse_buttons w;
     _x0 := _x0 w; _y0 := _y0 w; _x1 := _x1 w; _y1 := _y1 w;
     _background := _background w; _ruler_moving := _ruler_moving w;
     _end_a_lock := _end_a_lock w; _end_b_lock := _end_b_lock w;
     _end_c_lock := _end_c_lock w;
     _old_marker_a_coords := _old_marker_a_coords w;
     _old_marker_c_coords := _old_marker_c_coords w;
     _old_mid_coords := _old_mid_coords w; _ruler := _ruler w;
     _axes_text := _axes_text w; _marker_a := _marker_a w; _marker_b := v;
     _marker_c := _marker_c w; cursor := cursor w; stdout := stdout w |}.

Definition set__marker_c (v : Line2D) (w : Ruler) : Ruler :=
  {| ax := ax w; _print_text := _print_text w; _visible := _visible w;
     active := active w; length_fmt := length_fmt w;
     angle_fmt := angle_fmt w; angle_in_degrees := angle_in_degrees w;
     useblit := useblit w; _ruler_drawing := _ruler_drawing w;
     _pressed_keys := _pressed_keys w; _mouse_buttons := _mouse_buttons w;
     _x0 := _x0 w; _y0 := _y0 w; _x1 := _x1 w; _y1 := _y1 w;
     _background := _background w; _ruler_moving := _ruler_moving w;
     _end_a_lock := _end_a_lock w; _end_b_lock := _end_b_lock w;
     _end_c_lock := _end_c_lock w;
     _old_marker_a_coords := _old_marker_a_coords w;
     _old_marker_c_coords := _old_marker_c_coords w;
     _old_mid_coords := _old_mid_coords w; _ruler := _ruler w;
     _axes_text := _axes_text w; _marker_a := _marker_a w;
     _marker_b := _marker_b w; _marker_c := v; cursor := cursor w;
     stdout := stdout w |}.

Definition set_cursor (v : Cursors) (w : Ruler) : Ruler :=
  {| ax := ax w; _print_text := _print_text w; _visible := _visible w;
     active := active w; length_fmt := length_fmt w;
     angle_fmt := angle_fmt w; angle_in_degrees := angle_in_degrees w;
     useblit := useblit w; _ruler_drawing := _ruler_drawing w;
     _pressed_keys := _pressed_keys w; _mouse_buttons := _mouse_buttons w;
     _x0 := _x0 w; _y0 := _y0 w; _x1 := _x1 w; _y1 := _y1 w;
     _background := _background w; _ruler_moving := _ruler_moving w;
     _end_a_lock := _end_a_lock w; _end_b_lock := _end_b_lock w;
     _end_c_lock := _end_c_lock w;
     _old_marker_a_coords := _old_marker_a_coords w;
     _old_marker_c_coords := _old_marker_c_coords w;
     _old_mid_coords := _old_mid_coords w; _ruler := _ruler w;
     _axes_text := _axes_text w; _marker_a := _marker_a w;
     _marker_b := _marker_b w; _marker_c := _marker_c w; cursor := v;
     stdout := stdout w |}.

Definition set_stdout (v : list string) (w : Ruler) : Ruler :=
  {| ax := ax w; _print_text := _print_text w; _visible := _visible w;
     active := active w; length_fmt := length_fmt w;
     angle_fmt := angle_fmt w; angle_in_degrees := angle_in_degrees w;
     useblit := useblit w; _ruler_drawing := _ruler_drawing w;
     _pressed_keys := _pressed_keys w; _mouse_buttons := _mouse_buttons w;
     _x0 := _x0 w; _y0 := _y0 w; _x1 := _x1 w; _y1 := _y1 w;
     _background := _background w; _ruler_moving := _ruler_moving w;
     _end_a_lock := _end_a_lock w; _end_b_lock := _end_b_lock w;
     _end_c_lock := _end_c_lock w;
     _old_marker_a_coords := _old_marker_a_coords w;
     _old_marker_c_coords := _old_marker_c_coords w;
     _old_mid_coords := _old_mid_coords w; _ruler := _ruler w;
     _axes_text := _axes_text w; _marker_a := _marker_a w;
     _marker_b := _marker_b w; _marker_c := _marker_c w; cursor := cursor w;
     stdout := v |}.

(** [for artist in self._artists: artist.set_visible(v)] *)
Definition artists_set_visible (v : bool) (w : Ruler) : Ruler :=
  let w := set__axes_text (text_set_visible v (_axes_text w)) w in
  let w := set__ruler (line_set_visible v (_ruler w)) w in
  let w := set__marker_a (line_set_visible v (_marker_a w)) w in
  let w := set__marker_b (line_set_visible v (_marker_b w)) w in
  set__marker_c (line_set_visible v (_marker_c w)) w.

(** [for artist in self._artists: artist.set_animated(v)] *)
Definition artists_set_animated (v : bool) (w : Ruler) : Ruler :=
  let w := set__axes_text (text_set_animated v (_axes_text w)) w in
  let w := set__ruler (line_set_animated v (_ruler w)) w in
  let w := set__marker_a (line_set_animated v (_marker_a w)) w in
  let w := set__marker_b (line_set_animated v (_marker_b w)) w in
  set__marker_c (line_set_animated v (_marker_c w)) w.

Definition _mouse1_pressed (w : Ruler) : bool :=
  bool_decide (1%nat ∈ _mouse_buttons w).

Definition _control_pressed (w : Ruler) : bool :=
  existsb (fun e => py.contains e (_pressed_keys w)) ["ctrl"; "control"].

Definition _shift_pressed (w : Ruler) : bool :=
  py.contains "shift" (_pressed_keys w).

(** Ignore events if the cursor is out of the axes or the widget is
    locked. *)
Definition ignore (w : Ruler) (event : Event) : bool :=
  if negb (String.eqb (toolbar_mode (canvas event)) "") then true
  else if negb (widgetlock_available (canvas event)) then true
  else if not_in_axes event (ax w) then true
  else if negb (active w) then true
  else if negb (_visible w) then true
  else false.

Definition toggle_ruler (w : Ruler) : Ruler :=
  set_active (negb (active w)) w.

Definition midline_coords (w : Ruler) : option Point :=
  '(pos0, pos1) ← py.unpack2 (vertices (_ruler w));
  Some ((fst pos0 + fst pos1) / 2, (snd pos0 + snd pos1) / 2).

Definition _set_midline_marker (w : Ruler) : option Ruler :=
  let w := set__marker_b (line_set_visible true (_marker_b w)) w in
  mid ← midline_coords w;
  mb ← set_data [fst mid] [snd mid] (_marker_b w);
  Some (set__marker_b mb w).

Definition _update_artists (w : Ruler) : Ruler :=
  if useblit w then
    match _background w with
    | Some _ => w
    | None => set__background (Some tt) w
    end
  else w.

Definition ruler_length (w : Ruler) : option R :=
  '(pos0, pos1) ← py.unpack2 (vertices (_ruler w));
  Some (np.hypot (fst pos1 - fst pos0) (snd pos0 - snd pos1)).

Definition ruler_dx (w : Ruler) : option R :=
  '(pos0, pos1) ← py.unpack2 (vertices (_ruler w));
  Some (fst pos1 - fst pos0).

Definition ruler_dy (w : Ruler) : option R :=
  '(pos0, pos1) ← py.unpack2 (vertices (_ruler w));
  Some (snd pos1 - snd pos0).

Definition ruler_angle (w : Ruler) : option R :=
  '(pos0, pos1) ← py.unpack2 (vertices (_ruler w));
  let angle := np.arctan2 (fst pos1 - fst pos0) (snd pos1 - snd pos0) in
  if angle_in_degrees w then Some (angle * 180 / np.pi) else Some angle.

Definition _on_release (w : Ruler) (event : Event) : Ruler :=
  let w := set__mouse_buttons ({[button event]} ∪ _mouse_buttons w) w in
  let w := set__ruler_drawing false w in
  let w := set__ruler_moving false w in
  let w := set__end_a_lock false w in
  let w := set__end_b_lock false w in
  set__end_c_lock false w.

Section Toolkit.

(** [marker.contains(event)]: the toolkit's hit test. *)
Variable contains : Line2D → Event → bool.

(** [fmt.format(x)] for a format string and one number. *)
Variable str_format : string → R → string.

Definition _over_marker (w : Ruler) (event : Event) : bool * bool * bool :=
  (contains (_marker_a w) event, contains (_marker_b w) event,
   contains (_marker_c w) event).

(** [any(self._over_marker(event))] *)
Definition any_over_marker (w : Ruler) (event : Event) : bool :=
  let '(contains_a, contains_b, contains_c) := _over_marker w event in
  contains_a || contains_b || contains_c.

Definition _get_cursor (w : Ruler) (event : Event) : Cursors :=
  if negb (active w) then POINTER
  else if any_over_marker w event || (_mouse1_pressed w && _ruler_moving w)
  then
    if _shift_pressed w then RESIZE_HORIZONTAL
    else if _control_pressed w then RESIZE_VERTICAL
    else MOVE
  else SELECT_REGION.

Definition _update_cursor (w : Ruler) (event : Event) : Ruler :=
  set_cursor (_get_cursor w event) w.

Definition detail_string (w : Ruler) : option string :=
  length ← ruler_length w;
  dx ← ruler_dx w;
  dy ← ruler_dy w;
  angle ← ruler_angle w;
  Some (py.join "; "
          ["L: " +:+ str_format (length_fmt w) length;
           "dx: " +:+ str_format (length_fmt w) dx;
           "dy: " +:+ str_format (length_fmt w) dy;
           "ang: " +:+ str_format (angle_fmt w) angle]).

Definition _update_text (w : Ruler) : option Ruler :=
  s ← detail_string w;
  let w := set__axes_text (set_text s (_axes_text w)) w in
  if _print_text w then Some (set_stdout (stdout w ++ [s]) w) else Some w.

Definition toggle_ruler_visibility (w : Ruler) : option Ruler :=
  let w :=
    if _visible w then
      let w := artists_set_visible false w in
      let w := set_active false w in
      set__visible false w
    else
      let w := artists_set_visible true w in
      set__visible true w in
  w ← _update_text w;
  Some (_update_artists w).

Definition _on_key_press (w : Ruler) (event : Event) : option Ruler :=
  let w := set__pressed_keys (event_keys event) w in
  let w := _update_cursor w event in
  if key_is event "m" then Some (toggle_ruler w)
  else if key_is event "ctrl+m" then toggle_ruler_visibility w
  else Some w.

Definition _on_key_release (w : Ruler) (event : Event) : option Ruler :=
  k ← key event;
  let keys :=
    foldl (fun keys key => if py.contains key keys then py.remove key keys
                           else keys)
          (_pressed_keys w) (py.split "+"%char k) in
  let w := set__pressed_keys keys w in
  Some (_update_cursor w event).

(** Record which markers are under the pointer and where the ruler is. *)
Definition _handle_ruler_move (w : Ruler) (event : Event) : option Ruler :=
  let '(contains_a, contains_b, contains_c) := _over_marker w event in
  if negb (contains_a || contains_b || contains_c) then Some w
  else
    let w := set__end_a_lock contains_a w in
    let w := set__end_b_lock contains_b w in
    let w := set__end_c_lock contains_c w in
    let line_coords := vertices (_ruler w) in
    p0 ← line_coords !! 0%nat;
    p1 ← line_coords !! 1%nat;
    let w := set__x0 (Some (fst p0)) w in
    let w := set__y0 (Some (snd p0)) w in
    let w := set__x1 (Some (fst p1)) w in
    let w := set__y1 (Some (snd p1)) w in
    let w := set__old_marker_a_coords (Some (vertices (_marker_a w))) w in
    let w := set__old_marker_c_coords (Some (vertices (_marker_c w))) w in
    mid ← midline_coords w;
    Some (set__old_mid_coords (Some mid) w).

(** On button 1 press start drawing the ruler line from the initial press
    position. *)
Definition _handle_ruler_draw (w : Ruler) (event : Event) : option Ruler :=
  let w := set__ruler_drawing true w in
  let w := set__x0 (Some (xdata event)) w in
  let w := set__y0 (Some (ydata event)) w in
  ma ← set_data [xdata event] [ydata event] (_marker_a w);
  let w := set__marker_a (line_set_visible true ma) w in
  if useblit w then
    x0 ← _x0 w;
    y0 ← _y0 w;
    ma ← set_data [x0] [y0] (_marker_a w);
    let w := set__marker_a ma w in
    let w := artists_set_animated true w in
    Some (set__background (Some tt) w)
  else Some w.

(** On mouse button press check which button has been pressed and
    handle. *)
Definition _on_press (w : Ruler) (event : Event) : option Ruler :=
  let w := set__pressed_keys (event_keys event) w in
  let w := set__mouse_buttons ({[button event]} ∪ _mouse_buttons w) w in
  if ignore w event then Some w
  else if Nat.eqb (button event) 1 then
    if any_over_marker w event then _handle_ruler_move w event
    else _handle_ruler_draw w event
  else Some w.

(** The branch of [_move_ruler] for a locked marker a: move end a. *)
Definition move_end_a (w : Ruler) (event : Event) : option Ruler :=
  '(pos_a, pos_b) ←
    (if py.contains "shift" (_pressed_keys w) then
       x1 ← _x1 w; y0 ← _y0 w; y1 ← _y1 w;
       Some ([xdata event; x1], [y0; y1])
     else if _control_pressed w then
       x0 ← _x0 w; x1 ← _x1 w; y1 ← _y1 w;
       Some ([x0; x1], [ydata event; y1])
     else
       x1 ← _x1 w; y1 ← _y1 w;
       Some ([xdata event; x1], [ydata event; y1]));
  ma ← set_data (take 1 pos_a) (take 1 pos_b) (_marker_a w);
  let w := set__marker_a ma w in
  r ← set_data pos_a pos_b (_ruler w);
  let w := set__ruler r w in
  _set_midline_marker w.

(** The branch of [_move_ruler] for a locked marker c: move end c. *)
Definition move_end_c (w : Ruler) (event : Event) : option Ruler :=
  '(pos_a, pos_b) ←
    (if _shift_pressed w then
       x0 ← _x0 w; y0 ← _y0 w; y1 ← _y1 w;
       Some ([x0; xdata event], [y0; y1])
     else if _control_pressed w then
       x0 ← _x0 w; x1 ← _x1 w; y0 ← _y0 w;
       Some ([x0; x1], [y0; ydata event])
     else
       x0 ← _x0 w; y0 ← _y0 w;
       Some ([x0; xdata event], [y0; ydata event]));
  mc ← set_data (take 1 (drop 1 pos_a)) (take 1 (drop 1 pos_b)) (_marker_c w);
  let w := set__marker_c mc w in
  r ← set_data pos_a pos_b (_ruler w);
  let w := set__ruler r w in
  _set_midline_marker w.

(** The offset [(b_dx, b_dy)] by which a locked marker b shifts the
    ruler. *)
Definition mid_offset (w : Ruler) (event : Event) (mid : Point) : R * R :=
  let b_dx := xdata event - fst mid in
  let b_dy := ydata event - snd mid in
  if _shift_pressed w then (b_dx, 0)
  else if _control_pressed w then (0, b_dy)
  else (b_dx, b_dy).

(** The branch of [_move_ruler] for a locked marker b: shift the whole
    ruler. *)
Definition move_mid (w : Ruler) (event : Event) : option Ruler :=
  mid ← _old_mid_coords w;
  let '(b_dx, b_dy) := mid_offset w event mid in
  x0 ← _x0 w; x1 ← _x1 w;
  let pos_a := [x0 + b_dx; x1 + b_dx] in
  y0 ← _y0 w; y1 ← _y1 w;
  let pos_b := [y0 + b_dy; y1 + b_dy] in
  let pos_c := (fst mid + b_dx, snd mid + b_dy) in
  r ← set_data pos_a pos_b (_ruler w);
  let w := set__ruler r w in
  old_a ← _old_marker_a_coords w;
  a0 ← old_a !! 0%nat;
  ma ← set_data [fst a0 + b_dx] [snd a0 + b_dy] (_marker_a w);
  let w := set__marker_a ma w in
  mb ← set_data [fst pos_c] [snd pos_c] (_marker_b w);
  let w := set__marker_b mb w in
  old_c ← _old_marker_c_coords w;
  c0 ← old_c !! 0%nat;
  mc ← set_data [fst c0 + b_dx] [snd c0 + b_dy] (_marker_c w);
  Some (set__marker_c mc w).

(** If one of the markers is locked move the ruler according to the
    selected marker. *)
Definition _move_ruler (w : Ruler) (event : Event) : option Ruler :=
  let w :=
    if negb (_ruler_moving w) then
      if useblit w then
        let w := artists_set_animated true w in
        let w := set__background (Some tt) w in
        set__ruler_moving true w
      else w
    else w in
  w ← (if _end_a_lock w then move_end_a w event else Some w);
  w ← (if _end_c_lock w then move_end_c w event else Some w);
  w ← (if _end_b_lock w then move_mid w event else Some w);
  w ← _update_text w;
  Some (_update_artists w).

(** If the left mouse button is pressed and held draw the ruler as the
    mouse is dragged. *)
Definition _draw_ruler (w : Ruler) (event : Event) : option Ruler :=
  let w := set__x1 (Some (xdata event)) w in
  let w := set__y1 (Some (ydata event)) w in
  '(pos_a, pos_b) ←
    (if _shift_pressed w then
       x0 ← _x0 w; x1 ← _x1 w; y0 ← _y0 w;
       Some ([x0; x1], [y0; y0])
     else if _control_pressed w then
       x0 ← _x0 w; y0 ← _y0 w; y1 ← _y1 w;
       Some ([x0; x0], [y0; y1])
     else
       x0 ← _x0 w; x1 ← _x1 w; y0 ← _y0 w; y1 ← _y1 w;
       Some ([x0; x1], [y0; y1]));
  r ← set_data (concat [pos_a]) (concat [pos_b]) (_ruler w);
  let w := set__ruler r w in
  v1 ← vertices (_ruler w) !! 1%nat;
  let x1 := fst v1 in
  let y1 := snd v1 in
  let w := set__marker_c (line_set_visible true (_marker_c w)) w in
  mc ← set_data [x1] [y1] (_marker_c w);
  let w := set__marker_c mc w in
  w ← _set_midline_marker w;
  w ← _update_text w;
  Some (_update_artists w).

(** On motion draw the ruler if button 1 is pressed.  If one of the
    markers is locked move the ruler according to the locked marker. *)
Definition _on_move (w : Ruler) (event : Event) : option Ruler :=
  let w := set__pressed_keys (event_keys event) w in
  let w := _update_cursor w event in
  if not_in_axes event (ax w) then Some w
  else if _end_a_lock w || _end_b_lock w || _end_c_lock w then
    _move_ruler w event
  else if _ruler_drawing w then _draw_ruler w event
  else Some w.

End Toolkit.

End matplotlib_ruler.

(** * matplotlib_tools/tools.py *)

Module matplotlib_tools.

(** The state of the older [Ruler].  [ruler_marker_drawn] tells whether
    the marker of a pending right-click measurement is among the axes'
    artists ([ruler_marker.remove()] takes it off, the attribute keeps the
    object); [stdout] is what [print] has written. *)
Record Ruler := {
  ax : Axes;
  visible : bool;
  active : bool;
  length_unit : option string;
  angle_unit : string;
  useblit : bool;
  mouse1_pressed : bool;
  mouse3_pressed : bool;
  shift_pressed : bool;
  control_pressed : bool;
  x0 : option R;
  y0 : option R;
  x1 : option R;
  y1 : option R;
  line_start_coords : option Point;
  line_end_coords : option Point;
  ruler_marker : option Line2D;
  ruler_marker_drawn : bool;
  background : option Region;
  line_text : Text;
  detail_text : Text;
  line : Line2D;
  stdout : list string;
}.

Definition set_visible (v : bool) (w : Ruler) : Ruler :=
  {| ax := ax w; visible := v; active := active w;
     length_unit := length_unit w; angle_unit := angle_unit w;
     useblit := useblit w; mouse1_pressed := mouse1_pressed w;
     mouse3_pressed := mouse3_pressed w; shift_pressed := shift_pressed w;
     control_pressed := control_pressed w; x0 := x0 w; y0 := y0 w;
     x1 := x1 w; y1 := y1 w; line_start_coords := line_start_coords w;
     line_end_coords := line_end_coords w; ruler_marker := ruler_marker w;
     ruler_marker_drawn := ruler_marker_drawn w; background := background w;
     line_text := line_text w; detail_text := detail_text w; line := line w;
     stdout := stdout w |}.

Definition set_active (v : bool) (w : Ruler) : Ruler :=
  {| ax := ax w; visible := visible w; active := v;
     length_unit := length_unit w; angle_unit := angle_unit w;
     useblit := useblit w; mouse1_pressed := mouse1_pressed w;
     mouse3_pressed := mouse3_pressed w; shift_pressed := shift_pressed w;
     control_pressed := control_pressed w; x0 := x0 w; y0 := y0 w;
     x1 := x1 w; y1 := y1 w; line_start_coords := line_start_coords w;
     line_end_coords := line_end_coords w; ruler_marker := ruler_marker w;
     ruler_marker_drawn := ruler_marker_drawn w; background := background w;
     line_text := line_text w; detail_text := detail_text w; line := line w;
     stdout := stdout w |}.

Definition set_mouse1_pressed (v : bool) (w : Ruler) : Ruler :=
  {| ax := ax w; visible := visible w; active := active w;
     length_unit := length_unit w; angle_unit := angle_unit w;
     useblit := useblit w; mouse1_pressed := v;
     mouse3_pressed := mouse3_pressed w; shift_pressed := shift_pressed w;
     control_pressed := control_pressed w; x0 := x0 w; y0 := y0 w;
     x1 := x1 w; y1 := y1 w; line_start_coords := line_start_coords w;
     line_end_coords := line_end_coords w; ruler_marker := ruler_marker w;
     ruler_marker_drawn := ruler_marker_drawn w; background := background w;
     line_text := line_text w; detail_text := detail_text w; line := line w;
     stdout := stdout w |}.

Definition set_mouse3_pressed (v : bool) (w : Ruler) : Ruler :=
  {| ax := ax w; visible := visible w; active := active w;
     length_unit := length_unit w; angle_unit := angle_unit w;
     useblit := useblit w; mouse1_pressed := mouse1_pressed w;
     mouse3_pressed := v; shift_pressed := shift_pressed w;
     control_pressed := control_pressed w; x0 := x0 w; y0 := y0 w;
     x1 := x1 w; y1 := y1 w; line_start_coords := line_start_coords w;
     line_end_coords := line_end_coords w; ruler_marker := ruler_marker w;
     ruler_marker_drawn := ruler_marker_drawn w; background := background w;
     line_text := line_text w; detail_text := detail_text w; line := line w;
     stdout := stdout w |}.

Definition set_shift_pressed (v : bool) (w : Ruler) : Ruler :=
  {| ax := ax w; visible := visible w; active := active w;
     length_unit := length_unit w; angle_unit := angle_unit w;
     useblit := useblit w; mouse1_pressed := mouse1_pressed w;
     mouse3_pressed := mouse3_pressed w; shift_pressed := v;
     control_pressed := control_pressed w; x0 := x0 w; y0 := y0 w;
     x1 := x1 w; y1 := y1 w; line_start_coords := line_start_coords w;
     line_end_coords := line_end_coords w; ruler_marker := ruler_marker w;
     ruler_marker_drawn := ruler_marker_drawn w; background := background w;
     line_text := line_text w; detail_text := detail_text w; line := line w;
     stdout := stdout w |}.

Definition set_control_pressed (v : bool) (w : Ruler) : Ruler :=
  {| ax := ax w; visible := visible w; active := active w;
     length_unit := length_unit w; angle_unit := angle_unit w;
     useblit := useblit w; mouse1_pressed := mouse1_pressed w;
     mouse3_pressed := mouse3_pressed w; shift_pressed := shift_pressed w;
     control_pressed := v; x0 := x0 w; y0 := y0 w; x1 := x1 w; y1 := y1 w;
     line_start_coords := line_start_coords w;
     line_end_coords := line_end_coords w; ruler_marker := ruler_marker w;
     ruler_marker_drawn := ruler_marker_drawn w; background := background w;
     line_text := line_text w; detail_text := detail_text w; line := line w;
     stdout := stdout w |}.

Definition set_x0 (v : option R) (w : Ruler) : Ruler :=
  {| ax := ax w; visible := visible w; active := active w;
     length_unit := length_unit w; angle_unit := angle_unit w;
     useblit := useblit w; mouse1_pressed := mouse1_pressed w;
     mouse3_pressed := mouse3_pressed w; shift_pressed := shift_pressed w;
     control_pressed := control_pressed w; x0 := v; y0 := y0 w; x1 := x1 w;
     y1 := y1 w; line_start_coords := line_start_coords w;
     line_end_coords := line_end_coords w; ruler_marker := ruler_marker w;
     ruler_marker_drawn := ruler_marker_drawn w; background := background w;
     line_text := line_text w; detail_text := detail_text w; line := line w;
     stdout := stdout w |}.

Definition set_y0 (v : option R) (w : Ruler) : Ruler :=
  {| ax := ax w; visible := visible w; active := active w;
     length_unit := length_unit w; angle_unit := angle_unit w;
     useblit := useblit w; mouse1_pressed := mouse1_pressed w;
     mouse3_pressed := mouse3_pressed w; shift_pressed := shift_pressed w;
     control_pressed := control_pressed w; x0 := x0 w; y0 := v; x1 := x1 w;
     y1 := y1 w; line_start_coords := line_start_coords w;
     line_end_coords := line_end_coords w; ruler_marker := ruler_marker w;
     ruler_marker_drawn := ruler_marker_drawn w; background := background w;
     line_text := line_text w; detail_text := detail_text w; line := line w;
     stdout := stdout w |}.

Definition set_x1 (v : option R) (w : Ruler) : Ruler :=
  {| ax := ax w; visible := visible w; active := active w;
     length_unit := length_unit w; angle_unit := angle_unit w;
     useblit := useblit w; mouse1_pressed := mouse1_pressed w;
     mouse3_pressed := mouse3_pressed w; shift_pressed := shift_pressed w;
     control_pressed := control_pressed w; x0 := x0 w; y0 := y0 w; x1 := v;
     y1 := y1 w; line_start_coords := line_start_coords w;
     line_end_coords := line_end_coords w; ruler_marker := ruler_marker w;
     ruler_marker_drawn := ruler_marker_drawn w; background := background w;
     line_text := line_text w; detail_text := detail_text w; line := line w;
     stdout := stdout w |}.

Definition set_y1 (v : option R) (w : Ruler) : Ruler :=
  {| ax := ax w; visible := visible w; active := active w;
     length_unit := length_unit w; angle_unit := angle_unit w;
     useblit := useblit w; mouse1_pressed := mouse1_pressed w;
     mouse3_pressed := mouse3_pressed w; shift_pressed := shift_pressed w;
     control_pressed := control_pressed w; x0 := x0 w; y0 := y0 w;
     x1 := x1 w; y1 := v; line_start_coords := line_start_coords w;
     line_end_coords := line_end_coords w; ruler_marker := ruler_marker w;
     ruler_marker_drawn := ruler_marker_drawn w; background := background w;
     line_text := line_text w; detail_text := detail_text w; line := line w;
     stdout := stdout w |}.

Definition set_line_start_coords (v : option Point) (w : Ruler) : Ruler :=
  {| ax := ax w; visible := visible w; active := active w;
     length_unit := length_unit w; angle_unit := angle_unit w;
     useblit := useblit w; mouse1_pressed := mouse1_pressed w;
     mouse3_pressed := mouse3_pressed w; shift_pressed := shift_pressed w;
     control_pressed := control_pressed w; x0 := x0 w; y0 := y0 w;
     x1 := x1 w; y1 := y1 w; line_start_coords := v;
     line_end_coords := line_end_coords w; ruler_marker := ruler_marker w;
     ruler_marker_drawn := ruler_marker_drawn w; background := background w;
     line_text := line_text w; detail_text := detail_text w; line := line w;
     stdout := stdout w |}.

Definition set_line_end_coords (v : option Point) (w : Ruler) : Ruler :=
  {| ax := ax w; visible := visible w; active := active w;
     length_unit := length_unit w; angle_unit := angle_unit w;
     useblit := useblit w; mouse1_pressed := mouse1_pressed w;
     mouse3_pressed := mouse3_pressed w; shift_pressed := shift_pressed w;
     control_pressed := control_pressed w; x0 := x0 w; y0 := y0 w;
     x1 := x1 w; y1 := y1 w; line_start_coords := line_start_coords w;
     line_end_coords := v; ruler_marker := ruler_marker w;
     ruler_marker_drawn := ruler_marker_drawn w; background := background w;
     line_text := line_text w; detail_text := detail_text w; line := line w;
     stdout := stdout w |}.

Definition set_ruler_marker (v : option Line2D) (w : Ruler) : Ruler :=
  {| ax := ax w; visible := visible w; active := active w;
     length_unit := length_unit w; angle_unit := angle_unit w;
     useblit := useblit w; mouse1_pressed := mouse1_pressed w;
     mouse3_pressed := mouse3_pressed w; shift_pressed := shift_pressed w;
     control_pressed := control_pressed w; x0 := x0 w; y0 := y0 w;
     x1 := x1 w; y1 := y1 w; line_start_coords := line_start_coords w;
     line_end_coords := line_end_coords w; ruler_marker := v;
     ruler_marker_drawn := ruler_marker_drawn w; background := background w;
     line_text := line_text w; detail_text := detail_text w; line := line w;
     stdout := stdout w |}.

Definition set_ruler_marker_drawn (v : bool) (w : Ruler) : Ruler :=
  {| ax := ax w; visible := visible w; active := active w;
     length_unit := length_unit w; angle_unit := angle_unit w;
     useblit := useblit w; mouse1_pressed := mouse1_pressed w;
     mouse3_pressed := mouse3_pressed w; shift_pressed := shift_pressed w;
     control_pressed := control_pressed w; x0 := x0 w; y0 := y0 w;
     x1 := x1 w; y1 := y1 w; line_start_coords := line_start_coords w;
     line_end_coords := line_end_coords w; ruler_marker := ruler_marker w;
     ruler_marker_drawn := v; background := background w;
     line_text := line_text w; detail_text := detail_text w; line := line w;
     stdout := stdout w |}.

Definition set_background (v : option Region) (w : Ruler) : Ruler :=
  {| ax := ax w; visible := visible w; active := active w;
     length_unit := length_unit w; angle_unit := angle_unit w;
     useblit := useblit w; mouse1_pressed := mouse1_pressed w;
     mouse3_pressed := mouse3_pressed w; shift_pressed := shift_pressed w;
     control_pressed := control_pressed w; x0 := x0 w; y0 := y0 w;
     x1 := x1 w; y1 := y1 w; line_start_coords := line_start_coords w;
     line_end_coords := line_end_coords w; ruler_marker := ruler_marker w;
     ruler_marker_drawn := ruler_marker_drawn w; background := v;
     line_text := line_text w; detail_text := detail_text w; line := line w;
     stdout := stdout w |}.

Definition set_line_text (v : Text) (w : Ruler) : Ruler :=
  {| ax := ax w; visible := visible w; active := active w;
     length_unit := length_unit w; angle_unit := angle_unit w;
     useblit := useblit w; mouse1_pressed := mouse1_pressed w;
     mouse3_pressed := mouse3_pressed w; shift_pressed := shift_pressed w;
     control_pressed := control_pressed w; x0 := x0 w; y0 := y0 w;
     x1 := x1 w; y1 := y1 w; line_start_coords := line_start_coords w;
     line_end_coords := line_end_coords w; ruler_marker := ruler_marker w;
     ruler_marker_drawn := ruler_marker_drawn w; background := background w;
     line_text := v; detail_text := detail_text w; line := line w;
     stdout := stdout w |}.

Definition set_detail_text (v : Text) (w : Ruler) : Ruler :=
  {| ax := ax w; visible := visible w; active := active w;
     length_unit := length_unit w; angle_unit := angle_unit w;
     useblit := useblit w; mouse1_pressed := mouse1_pressed w;
     mouse3_pressed := mouse3_pressed w; shift_pressed := shift_pressed w;
     control_pressed := control_pressed w; x0 := x0 w; y0 := y0 w;
     x1 := x1 w; y1 := y1 w; line_start_coords := line_start_coords w;
     line_end_coords := line_end_coords w; ruler_marker := ruler_marker w;
     ruler_marker_drawn := ruler_marker_drawn w; background := background w;
     line_text := line_text w; detail_text := v; line := line w;
     stdout := stdout w |}.

Definition set_line (v : Line2D) (w : Ruler) : Ruler :=
  {| ax := ax w; visible := visible w; active := active w;
     length_unit := length_unit w; angle_unit := angle_unit w;
     useblit := useblit w; mouse1_pressed := mouse1_pressed w;
     mouse3_pressed := mouse3_pressed w; shift_pressed := shift_pressed w;
     control_pressed := control_pressed w; x0 := x0 w; y0 := y0 w;
     x1 := x1 w; y1 := y1 w; line_start_coords := line_start_coords w;
     line_end_coords := line_end_coords w; ruler_marker := ruler_marker w;
     ruler_marker_drawn := ruler_marker_drawn w; background := background w;
     line_text := line_text w; detail_text := detail_text w; line := v;
     stdout := stdout w |}.

Definition set_stdout (v : list string) (w : Ruler) : Ruler :=
  {| ax := ax w; visible := visible w; active := active w;
     length_unit := length_unit w; angle_unit := angle_unit w;
     useblit := useblit w; mouse1_pressed := mouse1_pressed w;
     mouse3_pressed := mouse3_pressed w; shift_pressed := shift_pressed w;
     control_pressed := control_pressed w; x0 := x0 w; y0 := y0 w;
     x1 := x1 w; y1 := y1 w; line_start_coords := line_start_coords w;
     line_end_coords := line_end_coords w; ruler_marker := ruler_marker w;
     ruler_marker_drawn := ruler_marker_drawn w; background := background w;
     line_text := line_text w; detail_text := detail_text w; line := line w;
     stdout := v |}.

Definition ignore (w : Ruler) (event : Event) : bool :=
  if negb (widgetlock_available (canvas event)) then true
  else if not_in_axes event (ax w) then true
  else if negb (active w) then true
  else false.

Definition on_key_release (w : Ruler) (event : Event) : Ruler :=
  let w := if key_is event "shift" then set_shift_pressed false w else w in
  if key_is event "control" then set_control_pressed false w else w.

Definition toggle_ruler (w : Ruler) : Ruler :=
  if active w then
    set_active false (set_stdout (stdout w ++ ["Ruler: deactivated"]) w)
  else
    set_active true (set_stdout (stdout w ++ ["Ruler: activated"]) w).

Definition toggle_ruler_visibility (w : Ruler) : Ruler :=
  if visible w then
    let w := set_active false w in
    let w := set_visible false w in
    let w := set_line (line_set_visible false (line w)) w in
    let w := set_line_text (text_set_visible false (line_text w)) w in
    set_detail_text (text_set_visible false (detail_text w)) w
  else
    let w := set_visible true w in
    let w := set_line (line_set_visible true (line w)) w in
    let w := set_line_text (text_set_visible true (line_text w)) w in
    set_detail_text (text_set_visible true (detail_text w)) w.

Definition on_key_press (w : Ruler) (event : Event) : Ruler :=
  let w := if key_is event "shift" then set_shift_pressed true w else w in
  let w :=
    if key_is event "control" then set_control_pressed true w else w in
  let w := if key_is event "m" then toggle_ruler w else w in
  if key_is event "ctrl+m" then toggle_ruler_visibility w else w.

Definition get_line_coords (w : Ruler) : option (Point * Point) :=
  let line_coords := vertices (line w) in
  p0 ← line_coords !! 0%nat;
  p1 ← line_coords !! 1%nat;
  let pos_a := (fst p0, snd p0) in
  let pos_b := (fst p1, snd p1) in
  Some (pos_a, pos_b).

Definition ruler_length (w : Ruler) : option R :=
  '(pos0, pos1) ← get_line_coords w;
  Some (np.sqrt ((fst pos1 - fst pos0) ^ 2 + (snd pos0 - snd pos1) ^ 2)).

Definition ruler_dx (w : Ruler) : option R :=
  '(pos0, pos1) ← get_line_coords w;
  Some (np.abs (fst pos1 - fst pos0)).

Definition ruler_dy (w : Ruler) : option R :=
  '(pos0, pos1) ← get_line_coords w;
  Some (np.abs (snd pos1 - snd pos0)).

Definition ruler_angle (w : Ruler) : option R :=
  '(pos0, pos1) ← get_line_coords w;
  let dx := fst pos1 - fst pos0 in
  let dy := snd pos1 - snd pos0 in
  let angle := np.arctan2 dy dx in
  if String.eqb (angle_unit w) "degree" then Some (angle * 180 / np.pi)
  else Some angle.

(** Rendering only. *)
Definition _update (w : Ruler) : Ruler := w.

(** [for a in (line, line_text, detail_text): a.set_animated(v)] *)
Definition set_animated (v : bool) (w : Ruler) : Ruler :=
  let w := set_line (line_set_animated v (line w)) w in
  let w := set_line_text (text_set_animated v (line_text w)) w in
  set_detail_text (text_set_animated v (detail_text w)) w.

Definition on_release (w : Ruler) (event : Event) : Ruler :=
  let w := set_mouse1_pressed false w in
  if not_in_axes event (ax w) then w
  else if useblit w then set_animated false w
  else w.

Section Toolkit.

(** [fmt.format(x)] for a format string and one number. *)
Variable str_format : string → R → string.

Definition line_string (w : Ruler) : option string :=
  length ← ruler_length w;
  match length_unit w with
  | Some unit => Some (str_format "{:0.3f}" length +:+ " " +:+ unit)
  | None => Some (str_format "{:0.3f}" length)
  end.

Definition detail_string (w : Ruler) : option string :=
  length ← ruler_length w;
  dx ← ruler_dx w;
  dy ← ruler_dy w;
  angle ← ruler_angle w;
  match length_unit w with
  | Some unit =>
      Some ("L: " +:+ str_format "{:0.3f}" length +:+ " " +:+ unit
            +:+ "; dx: " +:+ str_format "{:0.3f}" dx +:+ " " +:+ unit
            +:+ "; dy: " +:+ str_format "{:0.3f}" dy +:+ " " +:+ unit
            +:+ "; angle: " +:+ str_format "{:0.3f}" angle +:+ " deg")
  | None =>
      Some ("Length: " +:+ str_format "{:0.3f}" length
            +:+ "; dx: " +:+ str_format "{:0.3f}" dx
            +:+ "; dy: " +:+ str_format "{:0.3f}" dy
            +:+ "; angle: " +:+ str_format "{:0.3f}" angle +:+ " deg")
  end.

(** Update the text on the line and the detailed text on the figure. *)
Definition update_text (w : Ruler) : option Ruler :=
  ls ← line_string w;
  ds ← detail_string w;
  let w := set_line_text (set_text ls (line_text w)) w in
  Some (set_detail_text (set_text ds (detail_text w)) w).

(** On button 1 press start drawing the ruler line from the initial press
    position. *)
Definition handle_button1_press (w : Ruler) (event : Event) : Ruler :=
  let w := set_mouse1_pressed true w in
  let w := set_x0 (Some (xdata event)) w in
  let w := set_y0 (Some (ydata event)) w in
  if useblit w then set_background (Some tt) (set_animated true w)
  else w.

(** On button 3 press draw an indicator at the first press and the line
    to the cursor on the second press. *)
Definition handle_button3_press (w : Ruler) (event : Event) : option Ruler :=
  let w := set_mouse3_pressed true w in
  match line_start_coords w with
  | None =>
      let w := set_x0 (Some (xdata event)) w in
      let w := set_y0 (Some (ydata event)) w in
      let marker := {| vertices := [(xdata event, ydata event)];
                       line_visible := true; line_animated := false |} in
      let w := set_ruler_marker (Some marker) w in
      let w := set_ruler_marker_drawn true w in
      Some (set_line_start_coords (Some (xdata event, ydata event)) w)
  | Some start =>
      let w := set_x1 (Some (xdata event)) w in
      let w := set_y1 (Some (ydata event)) w in
      let end_ := (xdata event, ydata event) in
      let w := set_line_end_coords (Some end_) w in
      let pos_a := [fst start; fst end_] in
      let pos_b := [snd start; snd end_] in
      l ← set_data pos_a pos_b (line w);
      let w := set_line l w in
      x0 ← x0 w; x1 ← x1 w; y0 ← y0 w; y1 ← y1 w;
      let mid_line_coords := ((x0 + x1) / 2, (y0 + y1) / 2) in
      let w := set_line_text (set_position mid_line_coords (line_text w)) w in
      _ ← ruler_marker w;
      let w := set_ruler_marker_drawn false w in
      w ← update_text w;
      let w := set_line_start_coords None w in
      Some (set_mouse3_pressed false w)
  end.

(** On mouse button press check if mouse is within the axes and then
    check which button has been pressed and handle the event. *)
Definition on_press (w : Ruler) (event : Event) : option Ruler :=
  if ignore w event then Some w
  else if Nat.eqb (button event) 1 && negb (mouse3_pressed w) then
    Some (handle_button1_press w event)
  else if Nat.eqb (button event) 3 then handle_button3_press w event
  else Some w.

(** On motion draw the ruler and update the text if button 1 is
    pressed. *)
Definition on_move (w : Ruler) (event : Event) : option Ruler :=
  if not_in_axes event (ax w) then Some w
  else if mouse1_pressed w then
    let w := set_x1 (Some (xdata event)) w in
    let w := set_y1 (Some (ydata event)) w in
    '(pos_a, pos_b) ←
      (if shift_pressed w then
         x0 ← x0 w; x1 ← x1 w; y0 ← y0 w;
         Some ([x0; x1], [y0; y0])
       else if control_pressed w then
         x0 ← x0 w; y0 ← y0 w; y1 ← y1 w;
         Some ([x0; x0], [y0; y1])
       else
         x0 ← x0 w; x1 ← x1 w; y0 ← y0 w; y1 ← y1 w;
         Some ([x0; x1], [y0; y1]));
    l ← set_data (concat [pos_a]) (concat [pos_b]) (line w);
    let w := set_line l w in
    '(pos0, pos1) ← get_line_coords w;
    let mid_line_coords :=
      ((fst pos0 + fst pos1) / 2, (snd pos0 + snd pos1) / 2) in
    let w := set_line_text (set_position mid_line_coords (line_text w)) w in
    w ← update_text w;
    Some (_update w)
  else Some w.

End Toolkit.

End matplotlib_tools.

(** * TextMover (matplotlib_tools/tools.py) *)

Module text_mover.

(** The artists on the canvas, by object identity: a pick event names one
    of them, and [selectedText] keeps a reference to it, not a copy. *)
Inductive Artist :=
| TextArtist (t : Text)
| OtherArtist.

(** [isinstance(artist, Text)] *)
Definition is_text (a : option Artist) : bool :=
  match a with
  | Some (TextArtist _) => true
  | _ => false
  end.

Definition on_text (f : Text → Text) (a : Artist) : Artist :=
  match a with
  | TextArtist t => TextArtist (f t)
  | OtherArtist => OtherArtist
  end.

(** The position of the text with identity [i], if it is a text. *)
Definition text_position (artists : gmap nat Artist) (i : nat)
  : option Point :=
  match artists !! i with
  | Some (TextArtist t) => Some (position t)
  | _ => None
  end.

(** A pick event: the mouse event that caused it and the picked artist. *)
Record PickEvent := {
  mouseevent : Event;
  artist : nat;
}.

(** The state of a [TextMover], with the artists it can reach.  [x1] and
    [y1] exist only once a motion has been handled. *)
Record TextMover := {
  ax : Axes;
  active : bool;
  selectedText : option nat;
  mousePressed : bool;
  background : option Region;
  x1 : option R;
  y1 : option R;
  artists : gmap nat Artist;
}.

Definition set_selectedText (v : option nat) (w : TextMover) : TextMover :=
  {| ax := ax w; active := active w; selectedText := v;
     mousePressed := mousePressed w; background := background w; x1 := x1 w;
     y1 := y1 w; artists := artists w |}.

Definition set_mousePressed (v : bool) (w : TextMover) : TextMover :=
  {| ax := ax w; active := active w; selectedText := selectedText w;
     mousePressed := v; background := background w; x1 := x1 w; y1 := y1 w;
     artists := artists w |}.

Definition set_background (v : option Region) (w : TextMover) : TextMover :=
  {| ax := ax w; active := active w; selectedText := selectedText w;
     mousePressed := mousePressed w; background := v; x1 := x1 w; y1 := y1 w;
     artists := artists w |}.

Definition set_x1 (v : option R) (w : TextMover) : TextMover :=
  {| ax := ax w; active := active w; selectedText := selectedText w;
     mousePressed := mousePressed w; background := background w; x1 := v;
     y1 := y1 w; artists := artists w |}.

Definition set_y1 (v : option R) (w : TextMover) : TextMover :=
  {| ax := ax w; active := active w; selectedText := selectedText w;
     mousePressed := mousePressed w; background := background w; x1 := x1 w;
     y1 := v; artists := artists w |}.

Definition set_artists (v : gmap nat Artist) (w : TextMover) : TextMover :=
  {| ax := ax w; active := active w; selectedText := selectedText w;
     mousePressed := mousePressed w; background := background w; x1 := x1 w;
     y1 := y1 w; artists := v |}.

Definition on_pick_event (m : TextMover) (event : PickEvent) : TextMover :=
  if negb (active m) then m
  else if negb (Nat.eqb (button (mouseevent event)) 1) then m
  else if is_text (artists m !! artist event) then
    let m := set_mousePressed true m in
    let m := set_selectedText (Some (artist event)) m in
    let m :=
      set_artists
        (alter (on_text (text_set_animated true)) (artist event) (artists m))
        m in
    set_background (Some tt) m
  else m.

Definition on_motion (m : TextMover) (event : Event) : TextMover :=
  if not_in_axes event (ax m) then m
  else
    match mousePressed m, selectedText m with
    | true, Some selected =>
        let m := set_x1 (Some (xdata event)) m in
        let m := set_y1 (Some (ydata event)) m in
        let coords := (xdata event, ydata event) in
        set_artists
          (alter (on_text (set_position coords)) selected (artists m)) m
    | _, _ => m
    end.

Definition on_release (m : TextMover) (event : Event) : TextMover :=
  match selectedText m with
  | None => m
  | Some selected =>
      let m := set_mousePressed false m in
      let m :=
        set_artists
          (alter (on_text (text_set_animated false)) selected (artists m))
          m in
      let m := set_background None m in
      set_selectedText None m
  end.

End text_mover.

(** * Example states

    Concrete widgets and events on which the statements below are
    exercised. *)

Definition plain_line (points : list Point) : Line2D :=
  {| vertices := points; line_visible := true; line_animated := false |}.

Definition plain_text (s : string) : Text :=
  {| text := s; position := (0, 0);
     text_visible := true; text_animated := false |}.

Definition free_canvas : Canvas :=
  {| toolbar_mode := ""; widgetlock_available := true |}.

(** A mouse event with button [b] and key [k] at [(x, y)] in axes 0. *)
Definition mouse_at (b : nat) (k : option string) (x y : R) : Event :=
  {| button := b; key := k; inaxes := Some 0%nat;
     xdata := x; ydata := y; canvas := free_canvas |}.

(** A mouse event outside every axes. *)
Definition mouse_outside (b : nat) : Event :=
  {| button := b; key := None; inaxes := None;
     xdata := 0; ydata := 0; canvas := free_canvas |}.

(** An active ruler on axes 0 with the constructor's default settings,
    after a measurement between the two given points. *)
Definition measured (p0 p1 : Point) : matplotlib_ruler.Ruler :=
  {| matplotlib_ruler.ax := 0%nat;
     matplotlib_ruler._print_text := false;
     matplotlib_ruler._visible := true;
     matplotlib_ruler.active := true;
     matplotlib_ruler.length_fmt := "{0:0.3f}";
     matplotlib_ruler.angle_fmt := "{0:0.2f}deg";
     matplotlib_ruler.angle_in_degrees := true;
     matplotlib_ruler.useblit := false;
     matplotlib_ruler._ruler_drawing := false;
     matplotlib_ruler._pressed_keys := [];
     matplotlib_ruler._mouse_buttons := ∅;
     matplotlib_ruler._x0 := Some (fst p0);
     matplotlib_ruler._y0 := Some (snd p0);
     matplotlib_ruler._x1 := Some (fst p1);
     matplotlib_ruler._y1 := Some (snd p1);
     matplotlib_ruler._background := None;
     matplotlib_ruler._ruler_moving := false;
     matplotlib_ruler._end_a_lock := false;
     matplotlib_ruler._end_b_lock := false;
     matplotlib_ruler._end_c_lock := false;
     matplotlib_ruler._old_marker_a_coords := None;
     matplotlib_ruler._old_marker_c_coords := None;
     matplotlib_ruler._old_mid_coords := None;
     matplotlib_ruler._ruler := plain_line [p0; p1];
     matplotlib_ruler._axes_text := plain_text "";
     matplotlib_ruler._marker_a := plain_line [p0];
     matplotlib_ruler._marker_b :=
       plain_line [((fst p0 + fst p1) / 2, (snd p0 + snd p1) / 2)];
     matplotlib_ruler._marker_c := plain_line [p1];
     matplotlib_ruler.cursor := POINTER;
     matplotlib_ruler.stdout := [] |}.

(** The same ruler while button 1 is drawing from [p0]. *)
Definition drawing (p0 p1 : Point) : matplotlib_ruler.Ruler :=
  matplotlib_ruler.set__ruler_drawing true (measured p0 p1).

(** The same ruler after button 1 went down on the markers named by the
    three flags. *)
Definition grabbed (a b c : bool) (p0 p1 : Point) : matplotlib_ruler.Ruler :=
  let w := measured p0 p1 in
  let w := matplotlib_ruler.set__end_a_lock a w in
  let w := matplotlib_ruler.set__end_b_lock b w in
  let w := matplotlib_ruler.set__end_c_lock c w in
  let w := matplotlib_ruler.set__old_marker_a_coords (Some [p0]) w in
  let w := matplotlib_ruler.set__old_marker_c_coords (Some [p1]) w in
  matplotlib_ruler.set__old_mid_coords
    (Some ((fst p0 + fst p1) / 2, (snd p0 + snd p1) / 2)) w.

(** An active older ruler on axes 0 with its line between the two given
    points. *)
Definition tools_measured (p0 p1 : Point) : matplotlib_tools.Ruler :=
  {| matplotlib_tools.ax := 0%nat;
     matplotlib_tools.visible := true;
     matplotlib_tools.active := true;
     matplotlib_tools.length_unit := None;
     matplotlib_tools.angle_unit := "degree";
     matplotlib_tools.useblit := false;
     matplotlib_tools.mouse1_pressed := false;
     matplotlib_tools.mouse3_pressed := false;
     matplotlib_tools.shift_pressed := false;
     matplotlib_tools.control_pressed := false;
     matplotlib_tools.x0 := Some (fst p0);
     matplotlib_tools.y0 := Some (snd p0);
     matplotlib_tools.x1 := Some (fst p1);
     matplotlib_tools.y1 := Some (snd p1);
     matplotlib_tools.line_start_coords := None;
     matplotlib_tools.line_end_coords := None;
     matplotlib_tools.ruler_marker := None;
     matplotlib_tools.ruler_marker_drawn := false;
     matplotlib_tools.background := None;
     matplotlib_tools.line_text := plain_text "";
     matplotlib_tools.detail_text := plain_text "";
     matplotlib_tools.line := plain_line [p0; p1];
     matplotlib_tools.stdout := [] |}.

(** A text mover on axes 0 over a canvas with one text (artist 0) and one
    other artist (artist 1). *)
Definition idle_mover : text_mover.TextMover :=
  {| text_mover.ax := 0%nat;
     text_mover.active := true;
     text_mover.selectedText := None;
     text_mover.mousePressed := false;
     text_mover.background := None;
     text_mover.x1 := None;
     text_mover.y1 := None;
     text_mover.artists :=
       {[ 0%nat := text_mover.TextArtist (plain_text "label");
          1%nat := text_mover.OtherArtist ]} |}.

(** The older ruler while button 1 is drawing from [p0]. *)
Definition tools_drawing (p0 p1 : Point) : matplotlib_tools.Ruler :=
  matplotlib_tools.set_mouse1_pressed true (tools_measured p0 p1).

(** A motion at (4, 3) with both control and shift held. *)
Definition shift_control_motion : Event :=
  mouse_at 1 (Some "ctrl+shift") 4 3.

(** Hit tests that never, respectively always, succeed, and a formatter
    that ignores the number. *)
Definition never : Line2D → Event → bool := fun _ _ => false.
Definition always : Line2D → Event → bool := fun _ _ => true.
Definition no_digits : string → R → string := fun fmt _ => fmt.

(** * Vocabulary of the statements *)

Definition translate (d : R * R) (p : Point) : Point :=
  (fst p + fst d, snd p + snd d).

Definition midpoint (p0 p1 : Point) : Point :=
  ((fst p0 + fst p1) / 2, (snd p0 + snd p1) / 2).

(** Whether shift, respectively control, is among the keys of an event,
    as [_shift_pressed] and [_control_pressed] read them once the handler
    has stored the event's keys. *)
Definition shift_held (event : Event) : bool :=
  py.contains "shift" (event_keys event).

Definition control_held (event : Event) : bool :=
  py.contains "ctrl" (event_keys event)
  || py.contains "control" (event_keys event).

(** Some marker of the ruler is locked. *)
Definition locked (w : matplotlib_ruler.Ruler) : bool :=
  matplotlib_ruler._end_a_lock w || matplotlib_ruler._end_b_lock w
  || matplotlib_ruler._end_c_lock w.

(** What a button-1 press on a marker leaves in the ruler when its line
    runs from [p0] to [p1]: the endpoints, their midpoint and the
    old positions of markers a and c. *)
Definition recorded (w : matplotlib_ruler.Ruler) (p0 p1 : Point) : Prop :=
  matplotlib_ruler._x0 w = Some (fst p0) ∧
  matplotlib_ruler._y0 w = Some (snd p0) ∧
  matplotlib_ruler._x1 w = Some (fst p1) ∧
  matplotlib_ruler._y1 w = Some (snd p1) ∧
  matplotlib_ruler._old_mid_coords w = Some (midpoint p0 p1) ∧
  (∃ a rest, matplotlib_ruler._old_marker_a_coords w = Some (a :: rest)) ∧
  (∃ c rest, matplotlib_ruler._old_marker_c_coords w = Some (c :: rest)).

(** The offset of a midpoint drag in the words of the specification: the
    event position minus the old midpoint, with the y component zeroed
    when shift is held and the x component zeroed when control is held. *)
Definition spec_mid_offset (shift control : bool) (event : Event)
    (mid : Point) : R * R :=
  ((if control then 0 else xdata event - fst mid),
   (if shift then 0 else ydata event - snd mid)).

(** The offset of a midpoint drag as [_move_ruler] computes it: control
    is looked at only when shift is not held. *)
Definition mid_drag_offset (shift control : bool) (event : Event)
    (mid : Point) : R * R :=
  if shift then (xdata event - fst mid, 0)
  else if control then (0, ydata event - snd mid)
  else (xdata event - fst mid, ydata event - snd mid).

(** The second endpoint of a ruler being drawn from [p0], in the words of
    the specification: the pointer position, its y fixed at y0 when shift
    is held, its x fixed at x0 when control is held. *)
Definition spec_drawn_end (shift control : bool) (p0 : Point)
    (event : Event) : Point :=
  ((if control then fst p0 else xdata event),
   (if shift then snd p0 else ydata event)).

(** The second endpoint as [_draw_ruler] and [on_move] set it: control is
    looked at only when shift is not held. *)
Definition drawn_end (shift control : bool) (p0 : Point) (event : Event)
    : Point :=
  if shift then (xdata event, snd p0)
  else if control then (fst p0, ydata event)
  else (xdata event, ydata event).

(** The visibility flags of the five artists of the ruler, in the order
    of [_artists], and of the three artists of the older ruler. *)
Definition artists_visible (w : matplotlib_ruler.Ruler) : list bool :=
  [text_visible (matplotlib_ruler._axes_text w);
   line_visible (matplotlib_ruler._ruler w);
   line_visible (matplotlib_ruler._marker_a w);
   line_visible (matplotlib_ruler._marker_b w);
   line_visible (matplotlib_ruler._marker_c w)].

Definition tools_artists_visible (t : matplotlib_tools.Ruler) : list bool :=
  [line_visible (matplotlib_tools.line t);
   text_visible (matplotlib_tools.line_text t);
   text_visible (matplotlib_tools.detail_text t)].

(** The mover holds the text with identity [i]: it was picked and the
    button has not been released. *)
Definition holding (m : text_mover.TextMover) (i : nat) : Prop :=
  text_mover.mousePressed m = true ∧
  text_mover.selectedText m = Some i ∧
  text_mover.is_text (text_mover.artists m !! i) = true.

(** * Keys, presses and sessions

    What the statements on keys, whole gestures and whole sessions
    need. *)

(** One turn of the loop of [_on_key_release]: a released key that is
    among the pressed keys is taken out once. *)
Definition release_one (keys : list string) (key : string) : list string :=
  if py.contains key keys then py.remove key keys else keys.

(** A widget after a press that was only tracked: the keys replaced and
    the button added, nothing else touched. *)
Definition tracked (w : matplotlib_ruler.Ruler) (event : Event)
  : matplotlib_ruler.Ruler :=
  matplotlib_ruler.set__mouse_buttons
    ({[button event]} ∪ matplotlib_ruler._mouse_buttons w)
    (matplotlib_ruler.set__pressed_keys (event_keys event) w).

(** * The widgets under the canvas's events *)

(** The five events the rulers subscribe to in [connect_events]. *)
Inductive CanvasEvent :=
| button_press_event (event : Event)
| button_release_event (event : Event)
| motion_notify_event (event : Event)
| key_press_event (event : Event)
| key_release_event (event : Event).

(** [connect_events] of ruler.py: the callback each event reaches. *)
Definition ruler_callback (contains : Line2D → Event → bool)
    (str_format : string → R → string) (w : matplotlib_ruler.Ruler)
    (ce : CanvasEvent) : option matplotlib_ruler.Ruler :=
  match ce with
  | button_press_event event => matplotlib_ruler._on_press contains w event
  | button_release_event event =>
      Some (matplotlib_ruler._on_release w event)
  | motion_notify_event event =>
      matplotlib_ruler._on_move contains str_format w event
  | key_press_event event =>
      matplotlib_ruler._on_key_press contains str_format w event
  | key_release_event event =>
      matplotlib_ruler._on_key_release contains w event
  end.

(** The events of a session, delivered one after the other; an error in
    a callback ends the run. *)
Fixpoint ruler_session (contains : Line2D → Event → bool)
    (str_format : string → R → string) (w : matplotlib_ruler.Ruler)
    (events : list CanvasEvent) : option matplotlib_ruler.Ruler :=
  match events with
  | [] => Some w
  | ce :: rest =>
      w' ← ruler_callback contains str_format w ce;
      ruler_session contains str_format w' rest
  end.

(** [connect_events] of tools.py. *)
Definition tools_callback (str_format : string → R → string)
    (t : matplotlib_tools.Ruler) (ce : CanvasEvent)
  : option matplotlib_tools.Ruler :=
  match ce with
  | button_press_event event => matplotlib_tools.on_press str_format t event
  | button_release_event event => Some (matplotlib_tools.on_release t event)
  | motion_notify_event event => matplotlib_tools.on_move str_format t event
  | key_press_event event => Some (matplotlib_tools.on_key_press t event)
  | key_release_event event => Some (matplotlib_tools.on_key_release t event)
  end.

Fixpoint tools_session (str_format : string → R → string)
    (t : matplotlib_tools.Ruler) (events : list CanvasEvent)
  : option matplotlib_tools.Ruler :=
  match events with
  | [] => Some t
  | ce :: rest =>
      t' ← tools_callback str_format t ce;
      tools_session str_format t' rest
  end.

(** A key release event names a key; other events need not. *)
Definition names_key (ce : CanvasEvent) : bool :=
  match ce with
  | key_release_event event =>
      match key event with Some _ => true | None => false end
  | _ => true
  end.

Definition is_some {A} (o : option A) : bool :=
  match o with Some _ => true | None => false end.

Definition has_first {A} (o : option (list A)) : bool :=
  match o with Some (_ :: _) => true | _ => false end.

(** What the constructor sets up and every callback keeps: the line has
    two points and markers a and c have one at least; while a marker is
    locked the endpoints, the midpoint and the marker positions of the
    press are there; while a drawing is on its start point is there. *)
Definition ready (w : matplotlib_ruler.Ruler) : bool :=
  Nat.eqb (length (vertices (matplotlib_ruler._ruler w))) 2
  && negb (Nat.eqb (length (vertices (matplotlib_ruler._marker_a w))) 0)
  && negb (Nat.eqb (length (vertices (matplotlib_ruler._marker_c w))) 0)
  && implb (locked w)
       (is_some (matplotlib_ruler._x0 w) && is_some (matplotlib_ruler._y0 w)
        && is_some (matplotlib_ruler._x1 w)
        && is_some (matplotlib_ruler._y1 w)
        && is_some (matplotlib_ruler._old_mid_coords w)
        && has_first (matplotlib_ruler._old_marker_a_coords w)
        && has_first (matplotlib_ruler._old_marker_c_coords w))
  && implb (matplotlib_ruler._ruler_drawing w)
       (is_some (matplotlib_ruler._x0 w) && is_some (matplotlib_ruler._y0 w)).

(** The settings a ruler is constructed with. *)
Definition settings (w : matplotlib_ruler.Ruler)
  : Axes * bool * string * string * bool * bool :=
  (matplotlib_ruler.ax w, matplotlib_ruler._print_text w,
   matplotlib_ruler.length_fmt w, matplotlib_ruler.angle_fmt w,
   matplotlib_ruler.angle_in_degrees w, matplotlib_ruler.useblit w).

(** The same for the older ruler: the line has two points at least; a
    drawing has its start point; a pending right-click measurement has
    its start point and its marker. *)
Definition tools_ready (t : matplotlib_tools.Ruler) : bool :=
  Nat.leb 2 (length (vertices (matplotlib_tools.line t)))
  && implb (matplotlib_tools.mouse1_pressed t)
       (is_some (matplotlib_tools.x0 t) && is_some (matplotlib_tools.y0 t))
  && implb (is_some (matplotlib_tools.line_start_coords t))
       (is_some (matplotlib_tools.x0 t) && is_some (matplotlib_tools.y0 t)
        && is_some (matplotlib_tools.ruler_marker t)).

Definition tools_settings (t : matplotlib_tools.Ruler)
  : Axes * option string * string * bool :=
  (matplotlib_tools.ax t, matplotlib_tools.length_unit t,
   matplotlib_tools.angle_unit t, matplotlib_tools.useblit t).

(** The mover of the examples after its text was picked with button 1. *)
Definition holding_mover : text_mover.TextMover :=
  text_mover.on_pick_event idle_mover
    {| text_mover.mouseevent := mouse_at 1 None 0 0;
       text_mover.artist := 0%nat |}.

(** * The arithmetic of a midpoint drag, on any numbers

    The handlers compute with IEEE doubles, the widgets above with real
    numbers.  The one place where the handlers add the same offset to
    several coordinates, the branch of [_move_ruler] for a locked marker
    b, is given here once more for any numbers, so that it runs on the
    reals and on doubles alike. *)

Module arithmetic.

Section Numbers.

Variable N : Type.
Variables add sub div : N → N → N.
Variables zero two : N.

(** [midline_coords] of the line from [pos0] to [pos1]. *)
Definition midline_coords (pos0 pos1 : N * N) : N * N :=
  (div (add (fst pos0) (fst pos1)) two, div (add (snd pos0) (snd pos1)) two).

(** [ruler_dx] and [ruler_dy] of ruler.py on the line from [pos0] to
    [pos1]. *)
Definition ruler_dx (pos0 pos1 : N * N) : N := sub (fst pos1) (fst pos0).
Definition ruler_dy (pos0 pos1 : N * N) : N := sub (snd pos1) (snd pos0).

(** The branch of [_move_ruler] for a locked marker b: the two endpoints
    the line gets and the position marker b gets. *)
Definition move_mid (shift control : bool) (x0 y0 x1 y1 : N)
    (old_mid : N * N) (xdata ydata : N) : (N * N) * (N * N) * (N * N) :=
  let b_dx := sub xdata (fst old_mid) in
  let b_dy := sub ydata (snd old_mid) in
  let '(b_dx, b_dy) :=
    if shift then (b_dx, zero)
    else if control then (zero, b_dy)
    else (b_dx, b_dy) in
  let pos_a := (add x0 b_dx, add x1 b_dx) in
  let pos_b := (add y0 b_dy, add y1 b_dy) in
  let pos_c := (add (fst old_mid) b_dx, add (snd old_mid) b_dy) in
  ((fst pos_a, fst pos_b), (snd pos_a, snd pos_b), pos_c).

(** A press on marker b of a line from [pos0] to [pos1], which records
    the endpoints and [midline_coords] as [_handle_ruler_move] does,
    followed by a motion to [(xdata, ydata)]. *)
Definition mid_drag (shift control : bool) (pos0 pos1 : N * N)
    (xdata ydata : N) : (N * N) * (N * N) * (N * N) :=
  move_mid shift control (fst pos0) (snd pos0) (fst pos1) (snd pos1)
    (midline_coords pos0 pos1) xdata ydata.

End Numbers.

End arithmetic.

(** The midpoint drag on the reals, as the widgets above compute it. *)
Definition real_mid_drag (shift control : bool) (pos0 pos1 : Point)
    (xdata ydata : R) : Point * Point * Point :=
  arithmetic.mid_drag R Rplus Rminus Rdiv 0 2 shift control pos0 pos1
    xdata ydata.

(** The same on IEEE doubles, the numbers of the program. *)
Module float64.

Import PrimFloat.

Definition midline_coords : float * float → float * float → float * float :=
  arithmetic.midline_coords float PrimFloat.add PrimFloat.div 2%float.

Definition ruler_dx : float * float → float * float → float :=
  arithmetic.ruler_dx float PrimFloat.sub.

Definition mid_drag (shift control : bool) (pos0 pos1 : float * float)
    (xdata ydata : float)
  : (float * float) * (float * float) * (float * float) :=
  arithmetic.mid_drag float PrimFloat.add PrimFloat.sub PrimFloat.div
    0%float 2%float shift control pos0 pos1 xdata ydata.

(** The double nearest to the fraction [n / d] of two whole numbers, as
    Python reads a decimal literal such as 0.1 (1 over 10). *)
Definition decimal (n d : float) : float := PrimFloat.div n d.

End float64.

(** * The text mover under the canvas's events *)

(** The three events the mover subscribes to in [connect_events]. *)
Inductive MoverEvent :=
| pick_event (event : text_mover.PickEvent)
| mover_motion_notify_event (event : Event)
| mover_button_release_event (event : Event).

Definition mover_callback (m : text_mover.TextMover) (e : MoverEvent)
  : text_mover.TextMover :=
  match e with
  | pick_event event => text_mover.on_pick_event m event
  | mover_motion_notify_event event => text_mover.on_motion m event
  | mover_button_release_event event => text_mover.on_release m event
  end.

Definition mover_session (m : text_mover.TextMover)
    (events : list MoverEvent) : text_mover.TextMover :=
  foldl mover_callback m events.

(** An event that leaves the text with identity [i] in the hand of the
    mover: a motion, or a pick that is not one of another text of the
    canvas of [m] with button 1.  No release is such an event. *)
Definition keeps_text (m : text_mover.TextMover) (i : nat) (e : MoverEvent)
  : bool :=
  match e with
  | pick_event event =>
      negb (Nat.eqb (button (text_mover.mouseevent event)) 1)
      || Nat.eqb (text_mover.artist event) i
      || negb (text_mover.is_text
                 (text_mover.artists m !! text_mover.artist event))
  | mover_motion_notify_event _ => true
  | mover_button_release_event _ => false
  end.

(** A mover on axes 0 over a canvas with two texts (artists 0 and 1). *)
Definition two_text_mover : text_mover.TextMover :=
  text_mover.set_artists
    {[ 0%nat := text_mover.TextArtist (plain_text "label");
       1%nat := text_mover.TextArtist (plain_text "other") ]}
    idle_mover.

(** * Symbolic execution

    [run_ruler] and [run_tools] run a handler on a widget given field by
    field: they unfold the handlers, the setters and the list and option
    plumbing, and leave numbers, strings, sets and the cursor alone.
    [run_gesture] is [run_ruler] without the text and background updates,
    which have lemmas of their own.  [evaluate] runs a handler on a
    concrete widget and event, leaving only the arithmetic. *)

Declare Reduction run_ruler_steps :=
  cbv beta iota zeta delta
   [
    mbind option_bind lookup list_lookup length combine Nat.eqb negb orb andb
    fst snd firstn skipn concat app py.unpack2 py.join String.append
    translate midpoint locked artists_visible tools_artists_visible
    mid_drag_offset spec_mid_offset drawn_end spec_drawn_end plain_line
    plain_text set_data line_set_visible line_set_animated set_text
    set_position text_set_visible text_set_animated vertices line_visible
    line_animated text position text_visible text_animated
    matplotlib_ruler.set__visible matplotlib_ruler.set_active
    matplotlib_ruler.set__ruler_drawing matplotlib_ruler.set__pressed_keys
    matplotlib_ruler.set__mouse_buttons matplotlib_ruler.set__x0
    matplotlib_ruler.set__y0 matplotlib_ruler.set__x1
    matplotlib_ruler.set__y1 matplotlib_ruler.set__background
    matplotlib_ruler.set__ruler_moving matplotlib_ruler.set__end_a_lock
    matplotlib_ruler.set__end_b_lock matplotlib_ruler.set__end_c_lock
    matplotlib_ruler.set__old_marker_a_coords
    matplotlib_ruler.set__old_marker_c_coords
    matplotlib_ruler.set__old_mid_coords matplotlib_ruler.set__ruler
    matplotlib_ruler.set__axes_text matplotlib_ruler.set__marker_a
    matplotlib_ruler.set__marker_b matplotlib_ruler.set__marker_c
    matplotlib_ruler.set_cursor matplotlib_ruler.set_stdout
    matplotlib_ruler.artists_set_visible
    matplotlib_ruler.artists_set_animated matplotlib_ruler._control_pressed
    matplotlib_ruler._shift_pressed matplotlib_ruler.ignore
    matplotlib_ruler.toggle_ruler matplotlib_ruler.midline_coords
    matplotlib_ruler._set_midline_marker matplotlib_ruler._update_artists
    matplotlib_ruler.ruler_length matplotlib_ruler.ruler_dx
    matplotlib_ruler.ruler_dy matplotlib_ruler.ruler_angle
    matplotlib_ruler._on_release matplotlib_ruler._over_marker
    matplotlib_ruler.any_over_marker matplotlib_ruler._update_cursor
    matplotlib_ruler.detail_string matplotlib_ruler._update_text
    matplotlib_ruler.toggle_ruler_visibility matplotlib_ruler._on_key_press
    matplotlib_ruler._on_key_release matplotlib_ruler._handle_ruler_move
    matplotlib_ruler._handle_ruler_draw matplotlib_ruler._on_press
    matplotlib_ruler.move_end_a matplotlib_ruler.move_end_c
    matplotlib_ruler.mid_offset matplotlib_ruler.move_mid
    matplotlib_ruler._move_ruler matplotlib_ruler._draw_ruler
    matplotlib_ruler._on_move matplotlib_ruler.ax
    matplotlib_ruler._print_text matplotlib_ruler._visible
    matplotlib_ruler.active matplotlib_ruler.length_fmt
    matplotlib_ruler.angle_fmt matplotlib_ruler.angle_in_degrees
    matplotlib_ruler.useblit matplotlib_ruler._ruler_drawing
    matplotlib_ruler._pressed_keys matplotlib_ruler._mouse_buttons
    matplotlib_ruler._x0 matplotlib_ruler._y0 matplotlib_ruler._x1
    matplotlib_ruler._y1 matplotlib_ruler._background
    matplotlib_ruler._ruler_moving matplotlib_ruler._end_a_lock
    matplotlib_ruler._end_b_lock matplotlib_ruler._end_c_lock
    matplotlib_ruler._old_marker_a_coords
    matplotlib_ruler._old_marker_c_coords matplotlib_ruler._old_mid_coords
    matplotlib_ruler._ruler matplotlib_ruler._axes_text
    matplotlib_ruler._marker_a matplotlib_ruler._marker_b
    matplotlib_ruler._marker_c matplotlib_ruler.cursor
    matplotlib_ruler.stdout
   ].

Declare Reduction run_gesture_steps :=
  cbv beta iota zeta delta
   [
    mbind option_bind lookup list_lookup length combine Nat.eqb negb orb andb
    fst snd firstn skipn concat app py.unpack2 py.join String.append
    translate midpoint locked artists_visible tools_artists_visible
    mid_drag_offset spec_mid_offset drawn_end spec_drawn_end plain_line
    plain_text set_data line_set_visible line_set_animated set_text
    set_position text_set_visible text_set_animated vertices line_visible
    line_animated text position text_visible text_animated
    matplotlib_ruler.set__visible matplotlib_ruler.set_active
    matplotlib_ruler.set__ruler_drawing matplotlib_ruler.set__pressed_keys
    matplotlib_ruler.set__mouse_buttons matplotlib_ruler.set__x0
    matplotlib_ruler.set__y0 matplotlib_ruler.set__x1
    matplotlib_ruler.set__y1 matplotlib_ruler.set__background
    matplotlib_ruler.set__ruler_moving matplotlib_ruler.set__end_a_lock
    matplotlib_ruler.set__end_b_lock matplotlib_ruler.set__end_c_lock
    matplotlib_ruler.set__old_marker_a_coords
    matplotlib_ruler.set__old_marker_c_coords
    matplotlib_ruler.set__old_mid_coords matplotlib_ruler.set__ruler
    matplotlib_ruler.set__axes_text matplotlib_ruler.set__marker_a
    matplotlib_ruler.set__marker_b matplotlib_ruler.set__marker_c
    matplotlib_ruler.set_cursor matplotlib_ruler.set_stdout
    matplotlib_ruler.artists_set_visible
    matplotlib_ruler.artists_set_animated matplotlib_ruler._control_pressed
    matplotlib_ruler._shift_pressed matplotlib_ruler.ignore
    matplotlib_ruler.toggle_ruler matplotlib_ruler.midline_coords
    matplotlib_ruler._set_midline_marker matplotlib_ruler.ruler_length
    matplotlib_ruler.ruler_dx matplotlib_ruler.ruler_dy
    matplotlib_ruler.ruler_angle matplotlib_ruler._on_release
    matplotlib_ruler._over_marker matplotlib_ruler.any_over_marker
    matplotlib_ruler._update_cursor matplotlib_ruler.detail_string
    matplotlib_ruler._on_key_press matplotlib_ruler._on_key_release
    matplotlib_ruler._handle_ruler_move matplotlib_ruler._handle_ruler_draw
    matplotlib_ruler._on_press matplotlib_ruler.move_end_a
    matplotlib_ruler.move_end_c matplotlib_ruler.mid_offset
    matplotlib_ruler.move_mid matplotlib_ruler._move_ruler
    matplotlib_ruler._draw_ruler matplotlib_ruler._on_move
    matplotlib_ruler.ax matplotlib_ruler._print_text
    matplotlib_ruler._visible matplotlib_ruler.active
    matplotlib_ruler.length_fmt matplotlib_ruler.angle_fmt
    matplotlib_ruler.angle_in_degrees matplotlib_ruler.useblit
    matplotlib_ruler._ruler_drawing matplotlib_ruler._pressed_keys
    matplotlib_ruler._mouse_buttons matplotlib_ruler._x0 matplotlib_ruler._y0
    matplotlib_ruler._x1 matplotlib_ruler._y1 matplotlib_ruler._background
    matplotlib_ruler._ruler_moving matplotlib_ruler._end_a_lock
    matplotlib_ruler._end_b_lock matplotlib_ruler._end_c_lock
    matplotlib_ruler._old_marker_a_coords
    matplotlib_ruler._old_marker_c_coords matplotlib_ruler._old_mid_coords
    matplotlib_ruler._ruler matplotlib_ruler._axes_text
    matplotlib_ruler._marker_a matplotlib_ruler._marker_b
    matplotlib_ruler._marker_c matplotlib_ruler.cursor
    matplotlib_ruler.stdout
   ].

Declare Reduction run_tools_steps :=
  cbv beta iota zeta delta
   [
    mbind option_bind lookup list_lookup length combine Nat.eqb negb orb andb
    fst snd firstn skipn concat app py.unpack2 py.join String.append
    translate midpoint locked artists_visible tools_artists_visible
    mid_drag_offset spec_mid_offset drawn_end spec_drawn_end plain_line
    plain_text set_data line_set_visible line_set_animated set_text
    set_position text_set_visible text_set_animated vertices line_visible
    line_animated text position text_visible text_animated
    matplotlib_tools.set_visible matplotlib_tools.set_active
    matplotlib_tools.set_mouse1_pressed matplotlib_tools.set_mouse3_pressed
    matplotlib_tools.set_shift_pressed matplotlib_tools.set_control_pressed
    matplotlib_tools.set_x0 matplotlib_tools.set_y0 matplotlib_tools.set_x1
    matplotlib_tools.set_y1 matplotlib_tools.set_line_start_coords
    matplotlib_tools.set_line_end_coords matplotlib_tools.set_ruler_marker
    matplotlib_tools.set_ruler_marker_drawn matplotlib_tools.set_background
    matplotlib_tools.set_line_text matplotlib_tools.set_detail_text
    matplotlib_tools.set_line matplotlib_tools.set_stdout
    matplotlib_tools.ignore matplotlib_tools.on_key_release
    matplotlib_tools.toggle_ruler matplotlib_tools.toggle_ruler_visibility
    matplotlib_tools.on_key_press matplotlib_tools.get_line_coords
    matplotlib_tools.ruler_length matplotlib_tools.ruler_dx
    matplotlib_tools.ruler_dy matplotlib_tools.ruler_angle
    matplotlib_tools._update matplotlib_tools.set_animated
    matplotlib_tools.on_release matplotlib_tools.line_string
    matplotlib_tools.detail_string matplotlib_tools.update_text
    matplotlib_tools.handle_button1_press
    matplotlib_tools.handle_button3_press matplotlib_tools.on_press
    matplotlib_tools.on_move matplotlib_tools.ax matplotlib_tools.visible
    matplotlib_tools.active matplotlib_tools.length_unit
    matplotlib_tools.angle_unit matplotlib_tools.useblit
    matplotlib_tools.mouse1_pressed matplotlib_tools.mouse3_pressed
    matplotlib_tools.shift_pressed matplotlib_tools.control_pressed
    matplotlib_tools.x0 matplotlib_tools.y0 matplotlib_tools.x1
    matplotlib_tools.y1 matplotlib_tools.line_start_coords
    matplotlib_tools.line_end_coords matplotlib_tools.ruler_marker
    matplotlib_tools.ruler_marker_drawn matplotlib_tools.background
    matplotlib_tools.line_text matplotlib_tools.detail_text
    matplotlib_tools.line matplotlib_tools.stdout
   ].

Ltac run_ruler :=
  match goal with
  | |- ?G => let G' := eval run_ruler_steps in G in change G'
  end.

Tactic Notation "run_ruler" "in" hyp(H) :=
  let T := type of H in
  let T' := eval run_ruler_steps in T in
  change T' in H.

Ltac run_gesture :=
  match goal with
  | |- ?G => let G' := eval run_gesture_steps in G in change G'
  end.

Tactic Notation "run_gesture" "in" hyp(H) :=
  let T := type of H in
  let T' := eval run_gesture_steps in T in
  change T' in H.

Ltac run_tools :=
  match goal with
  | |- ?G => let G' := eval run_tools_steps in G in change G'
  end.

Tactic Notation "run_tools" "in" hyp(H) :=
  let T := type of H in
  let T' := eval run_tools_steps in T in
  change T' in H.

Ltac evaluate :=
  cbv -[Rplus Rminus Rmult Rdiv Rinv Ropp IZR
        np.hypot np.arctan2 np.sqrt np.abs np.pi].

(** [run_tools] without the text update, which has a lemma of its own. *)
Declare Reduction run_tools_core_steps :=
  cbv beta iota zeta delta
   [
    mbind option_bind lookup list_lookup length combine Nat.eqb negb orb andb
    fst snd firstn skipn concat app py.unpack2 py.join String.append
    translate midpoint locked artists_visible tools_artists_visible
    mid_drag_offset spec_mid_offset drawn_end spec_drawn_end plain_line
    plain_text set_data line_set_visible line_set_animated set_text
    set_position text_set_visible text_set_animated vertices line_visible
    line_animated text position text_visible text_animated
    matplotlib_tools.set_visible matplotlib_tools.set_active
    matplotlib_tools.set_mouse1_pressed matplotlib_tools.set_mouse3_pressed
    matplotlib_tools.set_shift_pressed matplotlib_tools.set_control_pressed
    matplotlib_tools.set_x0 matplotlib_tools.set_y0 matplotlib_tools.set_x1
    matplotlib_tools.set_y1 matplotlib_tools.set_line_start_coords
    matplotlib_tools.set_line_end_coords matplotlib_tools.set_ruler_marker
    matplotlib_tools.set_ruler_marker_drawn matplotlib_tools.set_background
    matplotlib_tools.set_line_text matplotlib_tools.set_detail_text
    matplotlib_tools.set_line matplotlib_tools.set_stdout
    matplotlib_tools.ignore matplotlib_tools.on_key_release
    matplotlib_tools.toggle_ruler matplotlib_tools.toggle_ruler_visibility
    matplotlib_tools.on_key_press matplotlib_tools.get_line_coords
    matplotlib_tools.ruler_length matplotlib_tools.ruler_dx
    matplotlib_tools.ruler_dy matplotlib_tools.ruler_angle
    matplotlib_tools._update matplotlib_tools.set_animated
    matplotlib_tools.on_release matplotlib_tools.handle_button1_press
    matplotlib_tools.handle_button3_press matplotlib_tools.on_press
    matplotlib_tools.on_move matplotlib_tools.ax matplotlib_tools.visible
    matplotlib_tools.active matplotlib_tools.length_unit
    matplotlib_tools.angle_unit matplotlib_tools.useblit
    matplotlib_tools.mouse1_pressed matplotlib_tools.mouse3_pressed
    matplotlib_tools.shift_pressed matplotlib_tools.control_pressed
    matplotlib_tools.x0 matplotlib_tools.y0 matplotlib_tools.x1
    matplotlib_tools.y1 matplotlib_tools.line_start_coords
    matplotlib_tools.line_end_coords matplotlib_tools.ruler_marker
    matplotlib_tools.ruler_marker_drawn matplotlib_tools.background
    matplotlib_tools.line_text matplotlib_tools.detail_text
    matplotlib_tools.line matplotlib_tools.stdout
   ].

Ltac run_tools_core :=
  match goal with
  | |- ?G => let G' := eval run_tools_core_steps in G in change G'
  end.

Tactic Notation "run_tools_core" "in" hyp(H) :=
  let T := type of H in
  let T' := eval run_tools_core_steps in T in
  change T' in H.

(** * The embedding at work

    The string helpers on the key names matplotlib produces, and two
    whole gestures run on a ruler measured from (0, 0) to (2, 0). *)

Example split_key_with_modifier :
  py.split "+" "ctrl+m" = ["ctrl"; "m"].
Proof. reflexivity. Qed.

Example split_plain_key : py.split "+" "shift" = ["shift"].
Proof. reflexivity. Qed.

Example split_keeps_empty_pieces :
  py.split "+" "ctrl++" = ["ctrl"; ""; ""].
Proof. reflexivity. Qed.

Example join_three : py.join "; " ["a"; "b"; "c"] = "a; b; c".
Proof. reflexivity. Qed.

Example remove_first_occurrence :
  py.remove "shift" ["ctrl"; "shift"; "shift"] = ["ctrl"; "shift"].
Proof. reflexivity. Qed.

Example keys_of_event_without_key :
  event_keys (mouse_at 1 None 0 0) = [].
Proof. reflexivity. Qed.

(** Button 1 goes down at (1, 1) off the markers and the pointer moves to
    (4, 5): the line runs from (1, 1) to (4, 5), marker b is at its
    midpoint and the annotation is rewritten. *)
Example drawing_gesture :
  (w1 ← matplotlib_ruler._on_press never (measured (0, 0) (2, 0))
          (mouse_at 1 None 1 1);
   w2 ← matplotlib_ruler._on_move never no_digits w1 (mouse_at 1 None 4 5);
   Some (vertices (matplotlib_ruler._ruler w2),
         vertices (matplotlib_ruler._marker_b w2),
         text (matplotlib_ruler._axes_text w2)))
  = Some ([(1, 1); (4, 5)],
          [((1 + 4) / 2, (1 + 5) / 2)],
          "L: {0:0.3f}; dx: {0:0.3f}; dy: {0:0.3f}; ang: {0:0.2f}deg").
Proof. evaluate. reflexivity. Qed.

(** Button 1 goes down where all three markers are hit and the pointer
    moves to (4, 3): the midpoint branch runs last and leaves the line
    shifted by the pointer's offset from the old midpoint. *)
Example dragging_gesture :
  (w1 ← matplotlib_ruler._on_press always (measured (0, 0) (2, 0))
          (mouse_at 1 None 1 0);
   w2 ← matplotlib_ruler._on_move always no_digits w1 (mouse_at 1 None 4 3);
   Some (matplotlib_ruler._end_b_lock w2,
         vertices (matplotlib_ruler._ruler w2)))
  = Some (true,
          [(0 + (4 - (0 + 2) / 2), 0 + (3 - (0 + 0) / 2));
           (2 + (4 - (0 + 2) / 2), 0 + (3 - (0 + 0) / 2))]).
Proof. evaluate. reflexivity. Qed.

(** The release that ends a gesture unlocks the markers; button 1 stays
    in the tracked set. *)
Example release_after_press :
  (w1 ← matplotlib_ruler._on_press always (measured (0, 0) (2, 0))
          (mouse_at 1 None 1 0);
   let w2 := matplotlib_ruler._on_release w1 (mouse_at 1 None 1 0) in
   Some (locked w2, matplotlib_ruler._ruler_drawing w2,
         matplotlib_ruler._mouse1_pressed w2))
  = Some (false, false, true).
Proof. vm_compute. reflexivity. Qed.

(** * Measurements *)

Section Measurements.

Import matplotlib_ruler.



(** What [ruler_angle] computes in ruler.py: the differences reach
    [np.arctan2] in the order (dx, dy). *)
Lemma ruler_angle_value (w : Ruler) (x0 y0 x1 y1 : R) :
  vertices (_ruler w) = [(x0, y0); (x1, y1)] →
  ruler_angle w
    = Some (if angle_in_degrees w
            then np.arctan2 (x1 - x0) (y1 - y0) * 180 / np.pi
            else np.arctan2 (x1 - x0) (y1 - y0)).
Proof.
  intros Hw. unfold ruler_angle. rewrite Hw. cbn.
  destruct (angle_in_degrees w); reflexivity.
Qed.

(** What [ruler_angle] computes in tools.py: arctan2(dy, dx), in degrees
    when [angle_unit] is "degree". *)
Lemma tools_ruler_angle_value
    (t : matplotlib_tools.Ruler) (x0 y0 x1 y1 : R) :
  vertices (matplotlib_tools.line t) = [(x0, y0); (x1, y1)] →
  matplotlib_tools.ruler_angle t
    = Some (if String.eqb (matplotlib_tools.angle_unit t) "degree"
            then np.arctan2 (y1 - y0) (x1 - x0) * 180 / np.pi
            else np.arctan2 (y1 - y0) (x1 - x0)).
Proof.
  intros Ht.
  unfold matplotlib_tools.ruler_angle, matplotlib_tools.get_line_coords.
  rewrite Ht. cbn.
  destruct (String.eqb _ _); reflexivity.
Qed.

Lemma arctan2_on_positive_ordinate_axis (y : R) :
  0 < y → np.arctan2 y 0 = PI / 2.
Proof.
  intros Hy. unfold np.arctan2.
  destruct (Rlt_dec 0 0) as [H|_]; [lra|].
  destruct (Rlt_dec 0 y) as [_|H]; [reflexivity|lra].
Qed.

Lemma arctan2_on_positive_abscissa_axis (x : R) :
  0 < x → np.arctan2 0 x = 0.
Proof.
  intros Hx. unfold np.arctan2.
  destruct (Rlt_dec 0 x) as [_|H]; [|lra].
  unfold Rdiv. rewrite Rmult_0_l. apply atan_0.
Qed.

(** C2. On the horizontal segment from (0, 0) to (1, 0) the ruler of
    ruler.py reports 90 degrees, while the angle from the positive
    horizontal axis, arctan2(y1 - y0, x1 - x0) in degrees, is 0, which is
    what the ruler of tools.py reports. *)
Theorem ruler_angle_of_horizontal_segment :
  ruler_angle (measured (0, 0) (1, 0)) = Some 90 ∧
  np.arctan2 (0 - 0) (1 - 0) * 180 / np.pi = 0 ∧
  matplotlib_tools.ruler_angle (tools_measured (0, 0) (1, 0)) = Some 0.
Proof.
  assert (Hpi : PI ≠ 0) by apply PI_neq0.
  assert (Hclaim : np.arctan2 (0 - 0) (1 - 0) * 180 / np.pi = 0).
  { replace (0 - 0) with 0 by ring.
    rewrite arctan2_on_positive_abscissa_axis by lra.
    unfold np.pi. field. exact Hpi. }
  split; [|split].
  - rewrite (ruler_angle_value _ 0 0 1 0) by reflexivity. cbn.
    f_equal. replace (0 - 0) with 0 by ring.
    rewrite arctan2_on_positive_ordinate_axis by lra.
    unfold np.pi. field. exact Hpi.
  - exact Hclaim.
  - rewrite (tools_ruler_angle_value _ 0 0 1 0) by reflexivity. cbn.
    f_equal. exact Hclaim.
Qed.

(** C3, as the claim states it, fails for tools.py: on the segment from
    (1, 0) to (0, 0) its [ruler_dx] is not the signed delta 0 - 1. *)
Lemma tools_ruler_dx_is_not_signed :
  matplotlib_tools.ruler_dx (tools_measured (1, 0) (0, 0)) ≠ Some (0 - 1).
Proof.
  unfold matplotlib_tools.ruler_dx, matplotlib_tools.get_line_coords. cbn.
  unfold np.abs. intros H. injection H as H.
  pose proof (Rabs_pos (0 - 1)). lra.
Qed.

(** C3, amended. [ruler_dx] and [ruler_dy] are the signed deltas x1 - x0
    and y1 - y0 in ruler.py and their absolute values in tools.py. *)
Theorem ruler_deltas
    (w : Ruler) (t : matplotlib_tools.Ruler) (x0 y0 x1 y1 : R) :
  vertices (_ruler w) = [(x0, y0); (x1, y1)] →
  vertices (matplotlib_tools.line t) = [(x0, y0); (x1, y1)] →
  ruler_dx w = Some (x1 - x0) ∧
  ruler_dy w = Some (y1 - y0) ∧
  matplotlib_tools.ruler_dx t = Some (Rabs (x1 - x0)) ∧
  matplotlib_tools.ruler_dy t = Some (Rabs (y1 - y0)).
Proof.
  intros Hw Ht.
  unfold ruler_dx, ruler_dy, matplotlib_tools.ruler_dx,
    matplotlib_tools.ruler_dy, matplotlib_tools.get_line_coords.
  rewrite Hw, Ht. cbn. repeat split; reflexivity.
Qed.

Lemma ruler_deltas_witness :
  ruler_dx (measured (1, 0) (0, 2)) = Some (0 - 1) ∧
  ruler_dy (measured (1, 0) (0, 2)) = Some (2 - 0) ∧
  matplotlib_tools.ruler_dx (tools_measured (1, 0) (0, 2))
    = Some (Rabs (0 - 1)) ∧
  matplotlib_tools.ruler_dy (tools_measured (1, 0) (0, 2))
    = Some (Rabs (2 - 0)).
Proof.
  apply (ruler_deltas (measured (1, 0) (0, 2))
           (tools_measured (1, 0) (0, 2)) 1 0 0 2); reflexivity.
Defined.

End Measurements.

(** * Button and key state *)

Section Buttons.

Import matplotlib_ruler.

Variable contains : Line2D → Event → bool.
Variable str_format : string → R → string.

Lemma _on_press_adds_button (w w' : Ruler) (event : Event) :
  _on_press contains w event = Some w' →
  _mouse_buttons w' = {[button event]} ∪ _mouse_buttons w.
Proof.
  unfold _on_press.
  destruct (ignore _ event); [intros [= <-]; reflexivity|].
  destruct (Nat.eqb (button event) 1); [|intros [= <-]; reflexivity].
  destruct (any_over_marker _ _ _).
  - unfold _handle_ruler_move, _over_marker.
    destruct (negb _); [intros [= <-]; reflexivity|].
    cbn. intros H.
    repeat (simplify_option_eq; try reflexivity).
  - unfold _handle_ruler_draw. cbn.
    destruct (useblit w); cbn; intros [= <-]; reflexivity.
Qed.

(** [ignore] reads neither the tracked keys nor the tracked buttons. *)
Lemma ignore_after_tracking (w : Ruler) (event : Event) keys buttons :
  ignore (set__mouse_buttons buttons (set__pressed_keys keys w)) event
  = ignore w event.
Proof. reflexivity. Qed.

(** C4. In ruler.py a press of button 1 followed by any release, the
    release of button 1 included, leaves button 1 recorded as pressed:
    [_on_release] adds the button to the tracked set where it should take
    it out. *)
Theorem button_still_pressed_after_release
    (w w1 : Ruler) (press release : Event) :
  button press = 1%nat →
  _on_press contains w press = Some w1 →
  _mouse1_pressed (_on_release w1 release) = true.
Proof.
  intros Hb Hpress.
  apply _on_press_adds_button in Hpress.
  unfold _mouse1_pressed, _on_release. cbn.
  rewrite Hpress. rewrite Hb. apply bool_decide_eq_true.
  apply elem_of_union_r, elem_of_union_l, elem_of_singleton. reflexivity.
Qed.

(** The release handler of tools.py does clear its button-1 flag. *)
Lemma tools_release_clears_button (t : matplotlib_tools.Ruler)
    (release : Event) :
  matplotlib_tools.mouse1_pressed (matplotlib_tools.on_release t release)
  = false.
Proof.
  unfold matplotlib_tools.on_release. cbn.
  destruct (not_in_axes _ _); [reflexivity|].
  destruct (matplotlib_tools.useblit t); reflexivity.
Qed.

(** C10. A button press stores the event's keys and adds the event's
    button to the tracked buttons whether or not [ignore] rejects the
    event.  A rejected press changes nothing else: the line, the markers
    and every other field stay as they were.  A press on a ruler whose
    line has its two points always returns. *)
Theorem press_tracks_keys_and_buttons (w : Ruler) (event : Event) :
  (ignore w event = true →
   _on_press contains w event
   = Some (set__mouse_buttons ({[button event]} ∪ _mouse_buttons w)
             (set__pressed_keys (event_keys event) w))) ∧
  (∀ w', _on_press contains w event = Some w' →
         _pressed_keys w' = event_keys event ∧
         _mouse_buttons w' = {[button event]} ∪ _mouse_buttons w) ∧
  (∀ p0 p1, vertices (_ruler w) = [p0; p1] →
            is_Some (_on_press contains w event)).
Proof.
  split; [|split].
  - intros Hign. unfold _on_press.
    rewrite ignore_after_tracking, Hign. reflexivity.
  - intros w' Hpress. split; [|eapply _on_press_adds_button; eauto].
    revert Hpress. unfold _on_press.
    destruct (ignore _ event); [intros [= <-]; reflexivity|].
    destruct (Nat.eqb (button event) 1); [|intros [= <-]; reflexivity].
    destruct (any_over_marker _ _ _).
    + unfold _handle_ruler_move, _over_marker.
      destruct (negb _); [intros [= <-]; reflexivity|].
      cbn. intros H.
      repeat (simplify_option_eq; try reflexivity).
    + unfold _handle_ruler_draw. cbn.
      destruct (useblit w); cbn; intros [= <-]; reflexivity.
  - intros p0 p1 Hline. unfold _on_press.
    destruct (ignore _ event); [eexists; reflexivity|].
    destruct (Nat.eqb (button event) 1); [|eexists; reflexivity].
    destruct (any_over_marker _ _ _).
    + unfold _handle_ruler_move, _over_marker, midline_coords.
      destruct (negb _); [eexists; reflexivity|].
      cbn. rewrite Hline. cbn. eexists; reflexivity.
    + unfold _handle_ruler_draw. cbn.
      destruct (useblit w); cbn; eexists; reflexivity.
Qed.

End Buttons.

Lemma button_still_pressed_after_release_witness :
  button (mouse_at 1 None 0 0) = 1%nat ∧
  matplotlib_ruler._on_press never (measured (0, 0) (1, 0))
    (mouse_at 1 None 0 0)
  = Some (matplotlib_ruler.set__marker_a (plain_line [(0, 0)])
            (matplotlib_ruler.set__ruler_drawing true
               (matplotlib_ruler.set__mouse_buttons ({[1%nat]} ∪ ∅)
                  (measured (0, 0) (1, 0))))) ∧
  matplotlib_ruler._mouse1_pressed
    (matplotlib_ruler._on_release
       (matplotlib_ruler.set__marker_a (plain_line [(0, 0)])
          (matplotlib_ruler.set__ruler_drawing true
             (matplotlib_ruler.set__mouse_buttons ({[1%nat]} ∪ ∅)
                (measured (0, 0) (1, 0)))))
       (mouse_at 1 None 0 0)) = true.
Proof.
  split; [reflexivity|]. split; [reflexivity|].
  apply (button_still_pressed_after_release never
           (measured (0, 0) (1, 0)) _ (mouse_at 1 None 0 0)
           (mouse_at 1 None 0 0)); reflexivity.
Defined.

Lemma press_tracks_keys_and_buttons_witness :
  matplotlib_ruler.ignore (measured (0, 0) (1, 0)) (mouse_outside 3) = true ∧
  matplotlib_ruler._on_press never (measured (0, 0) (1, 0)) (mouse_outside 3)
  = Some (matplotlib_ruler.set__mouse_buttons ({[3%nat]} ∪ ∅)
            (matplotlib_ruler.set__pressed_keys []
               (measured (0, 0) (1, 0)))).
Proof.
  split; [reflexivity|].
  apply (press_tracks_keys_and_buttons never (measured (0, 0) (1, 0))
           (mouse_outside 3)). reflexivity.
Defined.

(** * Visibility *)

Section Visibility.

Import matplotlib_ruler.

Variable str_format : string → R → string.

(** C9. Hiding a visible ruler hides all five artists and clears both the
    visible and the active flag; toggling again shows all five artists and
    sets the visible flag, and leaves the ruler inactive.  The older ruler
    does the same with its three artists. *)
Theorem hide_then_show_leaves_inactive
    (w : Ruler) (t : matplotlib_tools.Ruler) (p0 p1 : Point) :
  vertices (_ruler w) = [p0; p1] →
  _visible w = true →
  matplotlib_tools.visible t = true →
  (∃ w1 w2,
     toggle_ruler_visibility str_format w = Some w1 ∧
     artists_visible w1 = [false; false; false; false; false] ∧
     _visible w1 = false ∧ active w1 = false ∧
     toggle_ruler_visibility str_format w1 = Some w2 ∧
     artists_visible w2 = [true; true; true; true; true] ∧
     _visible w2 = true ∧ active w2 = false) ∧
  (let t1 := matplotlib_tools.toggle_ruler_visibility t in
   let t2 := matplotlib_tools.toggle_ruler_visibility t1 in
   tools_artists_visible t1 = [false; false; false] ∧
   matplotlib_tools.visible t1 = false ∧
   matplotlib_tools.active t1 = false ∧
   tools_artists_visible t2 = [true; true; true] ∧
   matplotlib_tools.visible t2 = true ∧
   matplotlib_tools.active t2 = false).
Proof.
  intros Hline Hvis Htvis. split.
  - destruct w as [? print vis ? ? ? degrees blit ? ? ? ? ? ? ? bg
                   ? ? ? ? ? ? ? [line ? ?] ? ? ? ? ? ?].
    cbn in Hline, Hvis. subst.
    destruct degrees, print, blit, bg; do 2 eexists;
      (split; [run_ruler; reflexivity|]);
      (split; [run_ruler; reflexivity|]);
      (split; [run_ruler; reflexivity|]);
      (split; [run_ruler; reflexivity|]);
      (split; [run_ruler; reflexivity|]);
      (split; [run_ruler; reflexivity|]);
      (split; run_ruler; reflexivity).
  - cbv zeta.
    destruct t. cbn in Htvis. subst.
    run_tools. repeat split.
Qed.

End Visibility.

Lemma hide_then_show_leaves_inactive_witness :
  vertices (matplotlib_ruler._ruler (measured (0, 0) (1, 0)))
    = [(0, 0); (1, 0)] ∧
  matplotlib_ruler._visible (measured (0, 0) (1, 0)) = true ∧
  matplotlib_tools.visible (tools_measured (0, 0) (1, 0)) = true ∧
  (∃ w1 w2,
     matplotlib_ruler.toggle_ruler_visibility no_digits
       (measured (0, 0) (1, 0)) = Some w1 ∧
     artists_visible w1 = [false; false; false; false; false] ∧
     matplotlib_ruler._visible w1 = false ∧
     matplotlib_ruler.active w1 = false ∧
     matplotlib_ruler.toggle_ruler_visibility no_digits w1 = Some w2 ∧
     artists_visible w2 = [true; true; true; true; true] ∧
     matplotlib_ruler._visible w2 = true ∧
     matplotlib_ruler.active w2 = false).
Proof.
  split; [reflexivity|]. split; [reflexivity|]. split; [reflexivity|].
  apply (hide_then_show_leaves_inactive no_digits (measured (0, 0) (1, 0))
           (tools_measured (0, 0) (1, 0)) (0, 0) (1, 0)); reflexivity.
Defined.

(** * Moving texts *)

Section TextMover.

Import text_mover.

Lemma on_motion_keeps_axes (m : TextMover) (event : Event) :
  ax (on_motion m event) = ax m.
Proof.
  unfold on_motion.
  destruct (not_in_axes event (ax m)); [reflexivity|].
  destruct (mousePressed m), (selectedText m); reflexivity.
Qed.

Lemma is_text_alter (f : Text → Text) (i j : nat)
    (store : gmap nat Artist) :
  is_text (alter (on_text f) i store !! j) = is_text (store !! j).
Proof.
  destruct (decide (i = j)) as [->|Hne].
  - rewrite lookup_alter_eq. destruct (store !! j) as [[t|]|]; reflexivity.
  - rewrite lookup_alter_ne by exact Hne. reflexivity.
Qed.

(** A motion, inside the axes or not, keeps the mover holding its text. *)
Lemma on_motion_keeps_holding (m : TextMover) (event : Event) (i : nat) :
  holding m i → holding (on_motion m event) i.
Proof.
  intros (Hpressed & Hselected & Htext). unfold on_motion.
  destruct (not_in_axes event (ax m)); [repeat split; assumption|].
  rewrite Hpressed, Hselected. unfold holding. cbn.
  rewrite is_text_alter. repeat split; assumption.
Qed.

Lemma motions_keep_holding (moves : list Event) (m : TextMover) (i : nat) :
  holding m i →
  holding (foldl on_motion m moves) i ∧
  ax (foldl on_motion m moves) = ax m.
Proof.
  revert m. induction moves as [|event moves IH]; intros m Hm.
  - split; [exact Hm|reflexivity].
  - cbn [foldl].
    destruct (IH (on_motion m event)) as [Hheld Hax].
    + apply on_motion_keeps_holding, Hm.
    + split; [exact Hheld|].
      rewrite Hax. apply on_motion_keeps_axes.
Qed.

(** Picking a text with button 1 makes an active mover hold it. *)
Lemma on_pick_event_holds (m : TextMover) (pick : PickEvent) :
  active m = true →
  button (mouseevent pick) = 1%nat →
  is_text (artists m !! artist pick) = true →
  holding (on_pick_event m pick) (artist pick) ∧
  ax (on_pick_event m pick) = ax m.
Proof.
  intros Hactive Hbutton Htext. unfold on_pick_event.
  rewrite Hactive, Hbutton, Htext. cbn.
  unfold holding. cbn. rewrite is_text_alter.
  repeat split; assumption.
Qed.

(** A motion inside the axes puts the held text at the pointer. *)
Lemma on_motion_moves_held_text (m : TextMover) (event : Event) (i : nat) :
  holding m i →
  not_in_axes event (ax m) = false →
  text_position (artists (on_motion m event)) i
  = Some (xdata event, ydata event).
Proof.
  intros (Hpressed & Hselected & Htext) Hin. unfold on_motion.
  rewrite Hin, Hpressed, Hselected. cbn.
  unfold text_position. rewrite lookup_alter_eq.
  destruct (artists m !! i) as [[t|]|]; [reflexivity|discriminate..].
Qed.

(** Picking again the text the mover holds, or an artist it rejects,
    keeps the mover holding its text. *)
Lemma on_pick_event_keeps_holding
    (m0 m : TextMover) (pick : PickEvent) (i : nat) :
  keeps_text m0 i (pick_event pick) = true →
  (∀ j, is_text (artists m !! j) = is_text (artists m0 !! j)) →
  holding m i →
  holding (on_pick_event m pick) i.
Proof.
  intros Hkeeps Hcanvas (Hpressed & Hselected & Htext).
  unfold on_pick_event.
  destruct (negb (active m)); [repeat split; assumption|].
  destruct (Nat.eqb (button (mouseevent pick)) 1) eqn:Hbutton;
    cbn [negb]; [|repeat split; assumption].
  destruct (is_text (artists m !! artist pick)) eqn:Hpicked;
    [|repeat split; assumption].
  cbn in Hkeeps. rewrite Hbutton, <- Hcanvas, Hpicked in Hkeeps.
  cbn in Hkeeps. rewrite orb_false_r in Hkeeps.
  apply Nat.eqb_eq in Hkeeps. rewrite Hkeeps.
  unfold holding. cbn. rewrite is_text_alter.
  repeat split. exact Htext.
Qed.

Lemma on_pick_event_keeps_canvas (m : TextMover) (pick : PickEvent) :
  ax (on_pick_event m pick) = ax m ∧
  ∀ j, is_text (artists (on_pick_event m pick) !! j)
       = is_text (artists m !! j).
Proof.
  unfold on_pick_event.
  destruct (negb (active m)); [split; reflexivity|].
  destruct (negb (Nat.eqb (button (mouseevent pick)) 1));
    [split; reflexivity|].
  destruct (is_text (artists m !! artist pick)); [|split; reflexivity].
  cbn. split; [reflexivity|]. intros j. apply is_text_alter.
Qed.

Lemma on_motion_keeps_canvas (m : TextMover) (event : Event) (j : nat) :
  is_text (artists (on_motion m event) !! j) = is_text (artists m !! j).
Proof.
  unfold on_motion.
  destruct (not_in_axes event (ax m)); [reflexivity|].
  destruct (mousePressed m), (selectedText m); try reflexivity.
  cbn. apply is_text_alter.
Qed.

(** As long as no button is released and no other text is picked, the
    mover holds its text, on the same axes and the same canvas. *)
Lemma session_keeps_holding
    (m0 : TextMover) (i : nat) (events : list MoverEvent) (m : TextMover) :
  forallb (keeps_text m0 i) events = true →
  ax m = ax m0 →
  (∀ j, is_text (artists m !! j) = is_text (artists m0 !! j)) →
  holding m i →
  holding (mover_session m events) i ∧ ax (mover_session m events) = ax m0.
Proof.
  revert m. induction events as [|e events IH]; intros m Hkeep Hax Hcanvas Hm.
  - split; assumption.
  - cbn in Hkeep. apply andb_prop in Hkeep as [Hkeeps Hkeep].
    unfold mover_session. cbn [foldl]. apply IH; [exact Hkeep|..].
    + destruct e as [pick|event|event]; cbn [mover_callback].
      * rewrite (proj1 (on_pick_event_keeps_canvas m pick)). exact Hax.
      * rewrite on_motion_keeps_axes. exact Hax.
      * discriminate Hkeeps.
    + intros j. destruct e as [pick|event|event]; cbn [mover_callback].
      * rewrite (proj2 (on_pick_event_keeps_canvas m pick)). apply Hcanvas.
      * rewrite on_motion_keeps_canvas. apply Hcanvas.
      * discriminate Hkeeps.
    + destruct e as [pick|event|event]; cbn [mover_callback].
      * apply (on_pick_event_keeps_holding m0); assumption.
      * apply on_motion_keeps_holding, Hm.
      * discriminate Hkeeps.
Qed.

(** C7, amended.  Once an active mover has seen a text picked with
    button 1, and until a button is released (whichever button) or
    another text is picked with button 1, every motion inside the axes
    puts that text at the pointer's data coordinates, whatever motions
    and other picks came in between.  A motion with no text selected, or
    outside the axes, changes no artist. *)
Theorem text_follows_pointer
    (m : TextMover) (pick : PickEvent) (events : list MoverEvent)
    (event : Event) :
  (active m = true →
   button (mouseevent pick) = 1%nat →
   is_text (artists m !! artist pick) = true →
   forallb (keeps_text m (artist pick)) events = true →
   not_in_axes event (ax m) = false →
   text_position
     (artists (on_motion (mover_session (on_pick_event m pick) events)
                 event))
     (artist pick)
   = Some (xdata event, ydata event)) ∧
  (selectedText m = None ∨ not_in_axes event (ax m) = true →
   artists (on_motion m event) = artists m).
Proof.
  split.
  - intros Hactive Hbutton Htext Hkeep Hin.
    destruct (on_pick_event_holds m pick Hactive Hbutton Htext)
      as [Hheld Hax].
    destruct (session_keeps_holding m (artist pick) events
                (on_pick_event m pick) Hkeep Hax
                (proj2 (on_pick_event_keeps_canvas m pick)) Hheld)
      as [Hheld' Hax'].
    apply on_motion_moves_held_text; [exact Hheld'|].
    rewrite Hax'. exact Hin.
  - intros [Hnone|Hout]; unfold on_motion.
    + destruct (not_in_axes event (ax m)); [reflexivity|].
      rewrite Hnone. destruct (mousePressed m); reflexivity.
    + rewrite Hout. reflexivity.
Qed.

End TextMover.

Lemma text_follows_pointer_witness :
  text_mover.text_position
    (text_mover.artists
       (text_mover.on_motion
          (mover_session
             (text_mover.on_pick_event idle_mover
                {| text_mover.mouseevent := mouse_at 1 None 0 0;
                   text_mover.artist := 0%nat |})
             [mover_motion_notify_event (mouse_at 1 None 1 1);
              pick_event {| text_mover.mouseevent := mouse_at 1 None 1 1;
                            text_mover.artist := 1%nat |};
              mover_motion_notify_event (mouse_outside 1)])
          (mouse_at 1 None 2 3)))
    0%nat
  = Some (2, 3) ∧
  text_mover.artists (text_mover.on_motion idle_mover (mouse_at 1 None 2 3))
  = text_mover.artists idle_mover.
Proof.
  split.
  - apply (text_follows_pointer idle_mover
             {| text_mover.mouseevent := mouse_at 1 None 0 0;
                text_mover.artist := 0%nat |}
             [mover_motion_notify_event (mouse_at 1 None 1 1);
              pick_event {| text_mover.mouseevent := mouse_at 1 None 1 1;
                            text_mover.artist := 1%nat |};
              mover_motion_notify_event (mouse_outside 1)]
             (mouse_at 1 None 2 3));
      reflexivity.
  - apply (text_follows_pointer idle_mover
             {| text_mover.mouseevent := mouse_at 1 None 0 0;
                text_mover.artist := 0%nat |}
             [] (mouse_at 1 None 2 3)).
    left. reflexivity.
Defined.

(** C7, as the claim states it, fails while button 1 is still down.  The
    text is picked with button 1; then button 3 is released, or another
    text is picked with button 1; the motion to (2, 3) that follows,
    inside the axes, leaves the first text at (0, 0). *)
Lemma text_dropped_with_button_down :
  text_mover.text_position
    (text_mover.artists
       (mover_session idle_mover
          [pick_event {| text_mover.mouseevent := mouse_at 1 None 0 0;
                         text_mover.artist := 0%nat |};
           mover_button_release_event (mouse_at 3 None 1 1);
           mover_motion_notify_event (mouse_at 1 None 2 3)]))
    0%nat
  ≠ Some (xdata (mouse_at 1 None 2 3), ydata (mouse_at 1 None 2 3)) ∧
  text_mover.text_position
    (text_mover.artists
       (mover_session two_text_mover
          [pick_event {| text_mover.mouseevent := mouse_at 1 None 0 0;
                         text_mover.artist := 0%nat |};
           pick_event {| text_mover.mouseevent := mouse_at 1 None 1 1;
                         text_mover.artist := 1%nat |};
           mover_motion_notify_event (mouse_at 1 None 2 3)]))
    0%nat
  ≠ Some (xdata (mouse_at 1 None 2 3), ydata (mouse_at 1 None 2 3)).
Proof.
  split.
  - replace (text_mover.text_position _ _) with (Some (0, 0))
      by (vm_compute; reflexivity).
    cbn. intros [= H _]. lra.
  - replace (text_mover.text_position _ _) with (Some (0, 0))
      by (vm_compute; reflexivity).
    cbn. intros [= H _]. lra.
Qed.

(** * Dragging and drawing *)

Section Motion.

Import matplotlib_ruler.

Variable contains : Line2D → Event → bool.
Variable str_format : string → R → string.

(** [_update_artists] can only change the saved background. *)
Lemma _update_artists_value (w : Ruler) :
  ∃ bg, _update_artists w = set__background bg w.
Proof.
  destruct w as [ax0 print vis act lfmt afmt degrees blit dr keys btns
                   ox0 oy0 ox1 oy1 bg moving la lb lc oa oc omid
                   line txt ma mb mc cur out].
  destruct blit, bg as [[]|]; eexists; run_ruler; reflexivity.
Qed.

(** [_update_text] returns on a ruler whose line has its two points; it
    changes the annotation and the printed output only, and the
    annotation then reads the four measurements of the line, each through
    its format. *)
Lemma _update_text_value (w : Ruler) (p0 p1 : Point) :
  vertices (_ruler w) = [p0; p1] →
  ∃ txt out,
    _update_text str_format w
    = Some (set_stdout out (set__axes_text txt w)) ∧
    text txt
    = py.join "; "
        ["L: " +:+ str_format (length_fmt w)
                     (np.hypot (fst p1 - fst p0) (snd p0 - snd p1));
         "dx: " +:+ str_format (length_fmt w) (fst p1 - fst p0);
         "dy: " +:+ str_format (length_fmt w) (snd p1 - snd p0);
         "ang: " +:+ str_format (angle_fmt w)
                       (if angle_in_degrees w
                        then np.arctan2 (fst p1 - fst p0) (snd p1 - snd p0)
                             * 180 / np.pi
                        else np.arctan2 (fst p1 - fst p0) (snd p1 - snd p0))].
Proof.
  intros Hline.
  destruct w as [ax0 print vis act lfmt afmt degrees blit dr keys btns
                   ox0 oy0 ox1 oy1 bg moving la lb lc oa oc omid
                   [line lv lanim] txt ma mb mc cur out].
  cbn in Hline. subst line.
  destruct degrees, print; do 2 eexists; (split; [run_ruler; reflexivity|]);
    run_ruler; reflexivity.
Qed.

(** Runs the text and background updates that end [_move_ruler] and
    [_draw_ruler]. *)
Ltac finish_motion :=
  match goal with
  | |- context [_update_text _ ?W] =>
      let txt := fresh "txt" in
      let out := fresh "out" in
      let Htxt := fresh "Htxt" in
      let Hupd := fresh "Hupd" in
      destruct (_update_text_value W _ _ eq_refl)
        as (txt & out & Hupd & Htxt);
      rewrite Hupd; clear Hupd; run_gesture
  end;
  match goal with
  | |- context [_update_artists ?W] =>
      let bg := fresh "bg" in
      let Hart := fresh "Hart" in
      destruct (_update_artists_value W) as (bg & Hart);
      rewrite Hart; clear Hart; run_gesture
  end.

(** [_control_pressed], once the handler has stored the event's keys. *)
Lemma control_held_existsb (event : Event) :
  existsb (fun e => py.contains e (event_keys event)) ["ctrl"; "control"]
  = control_held event.
Proof. unfold control_held. cbn. rewrite orb_false_r. reflexivity. Qed.

(** C8, amended.  After a motion inside the axes that drags the ruler by
    its markers or draws it, marker b sits where the branch taken puts
    it.  When marker b is not locked (an endpoint drag or a drawing) it
    is set from the line: to the midpoint ((x0 + x1) / 2, (y0 + y1) / 2)
    of the endpoints the line then has.  When marker b is locked it is
    set to the recorded midpoint plus the offset of the drag, and is not
    computed again from the line.  A drag is a state with a marker
    locked and the data recorded by the press that locked it; a drawing
    is a state with the drawing flag set, no marker locked and the start
    point stored. *)
Theorem midpoint_marker_follows
    (w : Ruler) (event : Event) (p0 p1 : Point) :
  not_in_axes event (ax w) = false →
  (locked w = true ∧ recorded w p0 p1) ∨
  (locked w = false ∧ _ruler_drawing w = true ∧
   ∃ x0 y0, _x0 w = Some x0 ∧ _y0 w = Some y0) →
  ∃ w' p0' p1',
    _on_move contains str_format w event = Some w' ∧
    vertices (_ruler w') = [p0'; p1'] ∧
    vertices (_marker_b w')
    = [if _end_b_lock w then
         translate
           (mid_drag_offset (shift_held event) (control_held event) event
              (midpoint p0 p1))
           (midpoint p0 p1)
       else midpoint p0' p1'].
Proof.
  intros Hin Hstate.
  destruct w as [ax0 print vis act lfmt afmt degrees blit dr keys btns
                   ox0 oy0 ox1 oy1 bg moving la lb lc oa oc omid
                   [line lv lanim] txt [mav ? ?] [mbv ? ?] [mcv ? ?] cur out].
  destruct p0 as [x0 y0], p1 as [x1 y1].
  cbn in Hin.
  pose proof (control_held_existsb event) as Hctrl.
  assert (Hshift : py.contains "shift" (event_keys event) = shift_held event)
    by reflexivity.
  destruct (shift_held event), (control_held event);
    (destruct Hstate
      as [[Hlocked Hrec]|(Hlocked & Hdr & sx & sy & Hx0 & Hy0)];
     [ destruct Hrec
         as (Hx0 & Hy0 & Hx1 & Hy1 & Hmid & (a0 & resta & Ha)
             & (c0 & restc & Hc));
       unfold locked in Hlocked; cbn in Hlocked, Hx0, Hy0, Hx1, Hy1, Hmid, Ha, Hc;
       subst ox0 oy0 ox1 oy1 omid oa oc;
       destruct la, lb, lc; try discriminate Hlocked;
       destruct moving, blit
     | unfold locked in Hlocked; cbn in Hlocked, Hdr, Hx0, Hy0;
       subst dr ox0 oy0;
       destruct la, lb, lc; try discriminate Hlocked ]);
    unfold _on_move;
    repeat (progress (run_gesture; rewrite ?Hin, ?Hshift, ?Hctrl));
    finish_motion;
    eexists _, _, _; (split; [reflexivity|]);
    (split; [run_gesture; reflexivity|]); run_gesture; reflexivity.
Qed.

(** C5, amended.  A motion inside the axes while marker b is locked,
    on a ruler recorded from [p0] to [p1], puts the line at the two
    recorded endpoints, each with one and the same offset added: the
    event position minus the recorded midpoint, with the y component
    zeroed when shift is held and the x component zeroed when control is
    held and shift is not.  The recorded data and the lock stay. *)
Theorem mid_drag_translates (w : Ruler) (event : Event) (p0 p1 : Point) :
  not_in_axes event (ax w) = false →
  _end_b_lock w = true →
  recorded w p0 p1 →
  ∃ w',
    _on_move contains str_format w event = Some w' ∧
    let d := mid_drag_offset (shift_held event) (control_held event) event
               (midpoint p0 p1) in
    vertices (_ruler w') = [translate d p0; translate d p1] ∧
    recorded w' p0 p1 ∧
    _end_b_lock w' = true.
Proof.
  intros Hin Hlock Hrec.
  destruct w as [ax0 print vis act lfmt afmt degrees blit dr keys btns
                   ox0 oy0 ox1 oy1 bg moving la lb lc oa oc omid
                   [line lv lanim] txt [mav ? ?] [mbv ? ?] [mcv ? ?] cur out].
  destruct p0 as [x0 y0], p1 as [x1 y1].
  destruct Hrec
    as (Hx0 & Hy0 & Hx1 & Hy1 & Hmid & (a0 & resta & Ha) & (c0 & restc & Hc)).
  cbn in Hin, Hlock, Hx0, Hy0, Hx1, Hy1, Hmid, Ha, Hc.
  subst lb ox0 oy0 ox1 oy1 omid oa oc.
  pose proof (control_held_existsb event) as Hctrl.
  assert (Hshift : py.contains "shift" (event_keys event) = shift_held event)
    by reflexivity.
  destruct (shift_held event), (control_held event), la, lc, moving, blit;
    unfold _on_move;
    repeat (progress (run_gesture; rewrite ?Hin, ?Hshift, ?Hctrl));
    finish_motion;
    eexists; (split; [reflexivity|]); cbv zeta;
    (split; [run_gesture; reflexivity|]);
    (split; [unfold recorded; run_gesture; eauto 12|]);
    reflexivity.
Qed.

(** C6, amended.  A motion inside the axes while button 1 is drawing the
    ruler puts the second endpoint of the line at the pointer, with its y
    fixed at y0 when shift counts as held and its x fixed at x0 when
    control counts as held and shift does not, and in the same step sets
    the annotation to the formatted values that [ruler_length],
    [ruler_dx], [ruler_dy] and [ruler_angle] have on the line as it now
    is.  In ruler.py a key counts as held when it is among the keys of
    the motion event; in tools.py when its flag ([shift_pressed],
    [control_pressed]) is set, which only a key event with exactly that
    key does.  This holds for the ruler of ruler.py and for the ruler of
    tools.py, whose text at the line shows the length as well. *)
Theorem drawing_motion
    (w : Ruler) (t : matplotlib_tools.Ruler) (event : Event) (x0 y0 : R) :
  (not_in_axes event (ax w) = false →
   locked w = false →
   _ruler_drawing w = true →
   _x0 w = Some x0 →
   _y0 w = Some y0 →
   ∃ w' length dx dy angle,
     _on_move contains str_format w event = Some w' ∧
     vertices (_ruler w')
     = [(x0, y0);
        drawn_end (shift_held event) (control_held event) (x0, y0) event] ∧
     ruler_length w' = Some length ∧
     ruler_dx w' = Some dx ∧
     ruler_dy w' = Some dy ∧
     ruler_angle w' = Some angle ∧
     text (_axes_text w')
     = py.join "; "
         ["L: " +:+ str_format (length_fmt w') length;
          "dx: " +:+ str_format (length_fmt w') dx;
          "dy: " +:+ str_format (length_fmt w') dy;
          "ang: " +:+ str_format (angle_fmt w') angle]) ∧
  (not_in_axes event (matplotlib_tools.ax t) = false →
   matplotlib_tools.mouse1_pressed t = true →
   matplotlib_tools.x0 t = Some x0 →
   matplotlib_tools.y0 t = Some y0 →
   ∃ t' length dx dy angle,
     matplotlib_tools.on_move str_format t event = Some t' ∧
     vertices (matplotlib_tools.line t')
     = [(x0, y0);
        drawn_end (matplotlib_tools.shift_pressed t)
          (matplotlib_tools.control_pressed t) (x0, y0) event] ∧
     matplotlib_tools.ruler_length t' = Some length ∧
     matplotlib_tools.ruler_dx t' = Some dx ∧
     matplotlib_tools.ruler_dy t' = Some dy ∧
     matplotlib_tools.ruler_angle t' = Some angle ∧
     text (matplotlib_tools.detail_text t')
     = match matplotlib_tools.length_unit t' with
       | Some unit =>
           "L: " +:+ str_format "{:0.3f}" length +:+ " " +:+ unit
           +:+ "; dx: " +:+ str_format "{:0.3f}" dx +:+ " " +:+ unit
           +:+ "; dy: " +:+ str_format "{:0.3f}" dy +:+ " " +:+ unit
           +:+ "; angle: " +:+ str_format "{:0.3f}" angle +:+ " deg"
       | None =>
           "Length: " +:+ str_format "{:0.3f}" length
           +:+ "; dx: " +:+ str_format "{:0.3f}" dx
           +:+ "; dy: " +:+ str_format "{:0.3f}" dy
           +:+ "; angle: " +:+ str_format "{:0.3f}" angle +:+ " deg"
       end ∧
     text (matplotlib_tools.line_text t')
     = match matplotlib_tools.length_unit t' with
       | Some unit => str_format "{:0.3f}" length +:+ " " +:+ unit
       | None => str_format "{:0.3f}" length
       end).
Proof.
  split.
  - intros Hin Hlocked Hdr Hx0 Hy0.
    destruct w as [ax0 print vis act lfmt afmt degrees blit dr keys btns
                     ox0 oy0 ox1 oy1 bg moving la lb lc oa oc omid
                     [line lv lanim] txt [mav ? ?] [mbv ? ?] [mcv ? ?]
                     cur out].
    unfold locked in Hlocked. cbn in Hin, Hlocked, Hdr, Hx0, Hy0.
    subst dr ox0 oy0.
    pose proof (control_held_existsb event) as Hctrl.
    assert (Hshift : py.contains "shift" (event_keys event)
                     = shift_held event) by reflexivity.
    destruct (shift_held event), (control_held event), la, lb, lc;
      try discriminate Hlocked;
      unfold _on_move;
      repeat (progress (run_gesture; rewrite ?Hin, ?Hshift, ?Hctrl));
      finish_motion;
      destruct degrees, txt0; run_ruler in Htxt; subst;
      eexists _, _, _, _, _; (split; [reflexivity|]);
      (split; [run_ruler; reflexivity|]);
      (split; [run_ruler; reflexivity|]);
      (split; [run_ruler; reflexivity|]);
      (split; [run_ruler; reflexivity|]);
      (split; [run_ruler; reflexivity|]);
      run_ruler; reflexivity.
  - intros Hin Hpressed Hx0 Hy0.
    destruct t as [ax0 vis act unit aunit blit m1 m3 shift control
                     ox0 oy0 ox1 oy1 start end_ marker drawn bg
                     ltxt dtxt [line lv lanim] out].
    cbn in Hin, Hpressed, Hx0, Hy0. subst m1 ox0 oy0.
    destruct shift, control, unit,
      (String.eqb aunit "degree") eqn:Hunit;
      unfold matplotlib_tools.on_move;
      repeat (progress (run_tools; rewrite ?Hin, ?Hunit));
      eexists _, _, _, _, _; (split; [reflexivity|]);
      (split; [run_tools; reflexivity|]);
      (split; [run_tools; reflexivity|]);
      (split; [run_tools; reflexivity|]);
      (split; [run_tools; reflexivity|]);
      (split; [run_tools; rewrite ?Hunit; reflexivity|]);
      (split; run_tools; reflexivity).
Qed.

(** A button-1 press that [ignore] lets through on a marker locks the
    markers under the pointer and records the ruler as it is. *)
Lemma press_on_marker_records (w : Ruler) (event : Event) (p0 p1 : Point) :
  ignore w event = false →
  button event = 1%nat →
  any_over_marker contains w event = true →
  vertices (_ruler w) = [p0; p1] →
  vertices (_marker_a w) ≠ [] →
  vertices (_marker_c w) ≠ [] →
  ∃ w',
    _on_press contains w event = Some w' ∧
    recorded w' p0 p1 ∧
    locked w' = true ∧
    _end_b_lock w' = contains (_marker_b w) event ∧
    vertices (_ruler w') = [p0; p1].
Proof.
  intros Hign Hbutton Hover Hline Ha Hc.
  destruct w as [ax0 print vis act lfmt afmt degrees blit dr keys btns
                   ox0 oy0 ox1 oy1 bg moving la lb lc oa oc omid
                   [line lv lanim] txt [mav ? ?] [mbv ? ?] [mcv ? ?] cur out].
  cbn in Hline, Ha, Hc. subst line.
  destruct mav as [|a0 resta]; [contradiction|].
  destruct mcv as [|c0 restc]; [contradiction|].
  unfold _on_press. rewrite ignore_after_tracking, Hign, Hbutton.
  change (Nat.eqb 1 1) with true. cbv iota.
  unfold any_over_marker, _over_marker in Hover |- *.
  unfold _handle_ruler_move, _over_marker.
  run_gesture in Hover. run_gesture.
  repeat match goal with
         | |- context [contains ?m event] =>
             let c := fresh "over" in
             set (c := contains m event) in *; clearbody c
         end.
  destruct over, over0, over1; try discriminate Hover;
    run_gesture; eexists; (split; [reflexivity|]);
    unfold recorded, locked; run_gesture;
    (split;
     [ repeat (split; [reflexivity|]); split; eauto
     | repeat (split; [reflexivity|]); reflexivity ]).
Qed.

(** A button-1 press that [ignore] lets through off the markers starts a
    drawing at the pointer. *)
Lemma press_off_marker_draws (w : Ruler) (event : Event) :
  ignore w event = false →
  button event = 1%nat →
  any_over_marker contains w event = false →
  ∃ w',
    _on_press contains w event = Some w' ∧
    _ruler_drawing w' = true ∧
    _x0 w' = Some (xdata event) ∧
    _y0 w' = Some (ydata event) ∧
    locked w' = locked w.
Proof.
  intros Hign Hbutton Hover.
  destruct w as [ax0 print vis act lfmt afmt degrees blit dr keys btns
                   ox0 oy0 ox1 oy1 bg moving la lb lc oa oc omid
                   [line lv lanim] txt [mav ? ?] [mbv ? ?] [mcv ? ?] cur out].
  unfold _on_press. rewrite ignore_after_tracking, Hign, Hbutton.
  change (Nat.eqb 1 1) with true. cbv iota.
  unfold any_over_marker, _over_marker in Hover |- *.
  run_gesture in Hover. run_gesture.
  repeat match goal with
         | |- context [contains ?m event] =>
             let c := fresh "over" in
             set (c := contains m event) in *; clearbody c
         end.
  destruct over, over0, over1; try discriminate Hover;
    destruct blit; run_gesture; eexists; (split; [reflexivity|]);
    unfold locked; run_gesture; auto.
Qed.

(** A motion inside the axes leaves the gesture as it found it: the same
    markers locked, the same drawing flag, the same recorded data. *)
Lemma motion_keeps_gesture (w : Ruler) (event : Event) :
  not_in_axes event (ax w) = false →
  (locked w = true ∧ (∃ p0 p1, recorded w p0 p1)) ∨
  (locked w = false ∧ _ruler_drawing w = true ∧
   ∃ x0 y0, _x0 w = Some x0 ∧ _y0 w = Some y0) →
  ∃ w',
    _on_move contains str_format w event = Some w' ∧
    locked w' = locked w ∧
    _end_b_lock w' = _end_b_lock w ∧
    _ruler_drawing w' = _ruler_drawing w ∧
    _x0 w' = _x0 w ∧ _y0 w' = _y0 w ∧
    (locked w = true → ∀ p0 p1, recorded w p0 p1 → recorded w' p0 p1).
Proof.
  intros Hin Hstate.
  destruct w as [ax0 print vis act lfmt afmt degrees blit dr keys btns
                   ox0 oy0 ox1 oy1 bg moving la lb lc oa oc omid
                   [line lv lanim] txt [mav ? ?] [mbv ? ?] [mcv ? ?] cur out].
  cbn in Hin.
  destruct (py.contains "shift" (event_keys event)) eqn:Hshift;
    destruct (existsb (fun e => py.contains e (event_keys event))
                ["ctrl"; "control"]) eqn:Hctrl;
    (destruct Hstate
      as [[Hlocked ([x0 y0] & [x1 y1] & Hrec)]
         |(Hlocked & Hdr & x0 & y0 & Hx0 & Hy0)];
     [ destruct Hrec
         as (Hx0 & Hy0 & Hx1 & Hy1 & Hmid & (a0 & resta & Ha)
             & (c0 & restc & Hc));
       unfold locked in Hlocked; cbn in Hlocked, Hx0, Hy0, Hx1, Hy1, Hmid, Ha, Hc;
       subst ox0 oy0 ox1 oy1 omid oa oc;
       destruct la, lb, lc; try discriminate Hlocked;
       destruct moving, blit
     | unfold locked in Hlocked; cbn in Hlocked, Hdr, Hx0, Hy0;
       subst dr ox0 oy0;
       destruct la, lb, lc; try discriminate Hlocked ]);
    unfold _on_move;
    repeat (progress (run_gesture; rewrite ?Hin, ?Hshift, ?Hctrl));
    finish_motion;
    eexists; (split; [reflexivity|]);
    unfold locked, recorded; run_gesture;
    (repeat (split; [reflexivity|])); intros Hl p0 p1 H;
    first [exact H | discriminate Hl].
Qed.

End Motion.

(** The example of a grabbed ruler carries what a press records. *)
Lemma grabbed_recorded (a b c : bool) (p0 p1 : Point) :
  recorded (grabbed a b c p0 p1) p0 p1.
Proof.
  unfold recorded, grabbed. cbn.
  repeat (split; [reflexivity|]). split; eexists _, _; reflexivity.
Qed.

Lemma midpoint_marker_follows_witness :
  ∃ w' p0' p1',
    matplotlib_ruler._on_move never no_digits
      (grabbed true false false (0, 0) (2, 0)) (mouse_at 1 None 4 3)
    = Some w' ∧
    vertices (matplotlib_ruler._ruler w') = [p0'; p1'] ∧
    vertices (matplotlib_ruler._marker_b w') = [midpoint p0' p1'].
Proof.
  apply (midpoint_marker_follows never no_digits
           (grabbed true false false (0, 0) (2, 0)) (mouse_at 1 None 4 3)
           (0, 0) (2, 0)).
  - reflexivity.
  - left. split; [reflexivity|]. apply grabbed_recorded.
Defined.

(** C5, as the claim states it, fails when shift and control are both
    held: the line is shifted along x although control is held. *)
Lemma mid_drag_with_shift_and_control :
  shift_held shift_control_motion = true ∧
  control_held shift_control_motion = true ∧
  (λ w, vertices (matplotlib_ruler._ruler w))
    <$> matplotlib_ruler._on_move never no_digits
          (grabbed false true false (0, 0) (2, 0)) shift_control_motion
  ≠ Some
      [translate
         (spec_mid_offset true true shift_control_motion
            (midpoint (0, 0) (2, 0))) (0, 0);
       translate
         (spec_mid_offset true true shift_control_motion
            (midpoint (0, 0) (2, 0))) (2, 0)].
Proof.
  split; [reflexivity|]. split; [reflexivity|].
  evaluate. intros [=]. lra.
Qed.

Lemma mid_drag_translates_witness :
  not_in_axes shift_control_motion
    (matplotlib_ruler.ax (grabbed false true false (0, 0) (2, 0))) = false ∧
  matplotlib_ruler._end_b_lock (grabbed false true false (0, 0) (2, 0))
  = true ∧
  ∃ w',
    matplotlib_ruler._on_move never no_digits
      (grabbed false true false (0, 0) (2, 0)) shift_control_motion
    = Some w' ∧
    vertices (matplotlib_ruler._ruler w')
    = [translate (4 - (0 + 2) / 2, 0) (0, 0);
       translate (4 - (0 + 2) / 2, 0) (2, 0)].
Proof.
  split; [reflexivity|]. split; [reflexivity|].
  destruct (mid_drag_translates never no_digits
              (grabbed false true false (0, 0) (2, 0)) shift_control_motion
              (0, 0) (2, 0) eq_refl eq_refl
              (grabbed_recorded false true false (0, 0) (2, 0)))
    as (w' & Hmove & Hline & _).
  exists w'. split; [exact Hmove|exact Hline].
Defined.

(** The line and marker b of the two statements above are what the
    arithmetic of the midpoint drag gives on the reals: the statements
    follow the additions of the handler one by one. *)
Lemma mid_drag_on_reals (shift control : bool) (p0 p1 : Point)
    (event : Event) :
  real_mid_drag shift control p0 p1 (xdata event) (ydata event)
  = let d := mid_drag_offset shift control event (midpoint p0 p1) in
    (translate d p0, translate d p1, translate d (midpoint p0 p1)).
Proof.
  destruct p0 as [x0 y0], p1 as [x1 y1].
  destruct shift, control; reflexivity.
Qed.

Section Doubles.

Import PrimFloat.

(** The same arithmetic on doubles, where the conclusion that C5 draws
    from the common offset fails as well: a midpoint drag need not keep
    [ruler_dx].  A line from (0.1, 0) to (0.3, 0) is grabbed at marker b
    and dragged to x = 1.15: [ruler_dx] was 0.19999999999999998 and is
    0.19999999999999996 after the move, the two sums having been rounded
    apart. *)
Lemma mid_drag_changes_dx_in_doubles :
  let p0 := (float64.decimal 1 10, 0%float) in
  let p1 := (float64.decimal 3 10, 0%float) in
  let '(q0, q1, _) :=
    float64.mid_drag false false p0 p1 (float64.decimal 115 100) 0%float in
  PrimFloat.ltb (float64.ruler_dx q0 q1) (float64.ruler_dx p0 p1) = true.
Proof. vm_compute. reflexivity. Qed.

(** C8, as the claim states it, fails for the midpoint drag on doubles:
    the line from (0, 0) to (1, 0) is grabbed at marker b and dragged to
    x = 0.6; marker b is put at 0.6, strictly left of the midpoint
    0.6000000000000001 of the endpoints the line then has. *)
Lemma midpoint_marker_off_in_doubles :
  let '(q0, q1, b) :=
    float64.mid_drag false false (0%float, 0%float) (1%float, 0%float)
      (float64.decimal 6 10) 0%float in
  PrimFloat.ltb (fst b) (fst (float64.midline_coords q0 q1)) = true.
Proof. vm_compute. reflexivity. Qed.

End Doubles.

(** In tools.py only a key event whose key is exactly 'shift', or
    exactly 'control', sets the flag of that key: a key pressed while
    another is held arrives as 'ctrl+shift' and sets neither. *)
Lemma tools_flags_follow_exact_keys
    (t : matplotlib_tools.Ruler) (event : Event) :
  matplotlib_tools.shift_pressed (matplotlib_tools.on_key_press t event)
  = key_is event "shift" || matplotlib_tools.shift_pressed t ∧
  matplotlib_tools.control_pressed (matplotlib_tools.on_key_press t event)
  = key_is event "control" || matplotlib_tools.control_pressed t.
Proof.
  destruct t as [ax0 vis act unit aunit blit m1 m3 shift control
                   ox0 oy0 ox1 oy1 start end_ marker drawn bg
                   ltxt dtxt line out].
  unfold matplotlib_tools.on_key_press, matplotlib_tools.toggle_ruler,
    matplotlib_tools.toggle_ruler_visibility.
  destruct (key_is event "shift"), (key_is event "control"),
    (key_is event "m"), (key_is event "ctrl+m"), act, vis; split; reflexivity.
Qed.

(** C6, as the claim states it, fails when shift and control are both
    held.  In ruler.py the second endpoint takes the pointer's x
    although control is held.  In tools.py, with control pressed first
    and shift second (the key events 'control' and 'ctrl+shift'), the
    shift flag is not set and the second endpoint takes the pointer's y
    although shift is held. *)
Lemma drawing_with_shift_and_control :
  shift_held shift_control_motion = true ∧
  control_held shift_control_motion = true ∧
  (λ w, vertices (matplotlib_ruler._ruler w))
    <$> matplotlib_ruler._on_move never no_digits
          (drawing (0, 0) (1, 1)) shift_control_motion
  ≠ Some [(0, 0); spec_drawn_end true true (0, 0) shift_control_motion] ∧
  (λ t, vertices (matplotlib_tools.line t))
    <$> matplotlib_tools.on_move no_digits
          (matplotlib_tools.on_key_press
             (matplotlib_tools.on_key_press (tools_drawing (0, 0) (1, 1))
                (mouse_at 0 (Some "control") 0 0))
             (mouse_at 0 (Some "ctrl+shift") 0 0))
          shift_control_motion
  ≠ Some [(0, 0); spec_drawn_end true true (0, 0) shift_control_motion].
Proof.
  split; [reflexivity|]. split; [reflexivity|]. split.
  - evaluate. intros [=]. lra.
  - evaluate. intros [=]. lra.
Qed.

Lemma drawing_motion_witness :
  (∃ w' length dx dy angle,
     matplotlib_ruler._on_move never no_digits (drawing (0, 0) (1, 1))
       (mouse_at 1 (Some "shift") 4 3) = Some w' ∧
     vertices (matplotlib_ruler._ruler w')
     = [(0, 0);
        drawn_end (shift_held (mouse_at 1 (Some "shift") 4 3))
          (control_held (mouse_at 1 (Some "shift") 4 3)) (0, 0)
          (mouse_at 1 (Some "shift") 4 3)] ∧
     matplotlib_ruler.ruler_length w' = Some length ∧
     matplotlib_ruler.ruler_dx w' = Some dx ∧
     matplotlib_ruler.ruler_dy w' = Some dy ∧
     matplotlib_ruler.ruler_angle w' = Some angle ∧
     text (matplotlib_ruler._axes_text w')
     = py.join "; "
         ["L: " +:+ no_digits (matplotlib_ruler.length_fmt w') length;
          "dx: " +:+ no_digits (matplotlib_ruler.length_fmt w') dx;
          "dy: " +:+ no_digits (matplotlib_ruler.length_fmt w') dy;
          "ang: " +:+ no_digits (matplotlib_ruler.angle_fmt w') angle]) ∧
  (∃ t' length dx dy angle,
     matplotlib_tools.on_move no_digits (tools_drawing (0, 0) (1, 1))
       (mouse_at 1 None 4 3) = Some t' ∧
     vertices (matplotlib_tools.line t')
     = [(0, 0); drawn_end false false (0, 0) (mouse_at 1 None 4 3)] ∧
     matplotlib_tools.ruler_length t' = Some length ∧
     matplotlib_tools.ruler_dx t' = Some dx ∧
     matplotlib_tools.ruler_dy t' = Some dy ∧
     matplotlib_tools.ruler_angle t' = Some angle ∧
     text (matplotlib_tools.detail_text t')
     = match matplotlib_tools.length_unit t' with
       | Some unit =>
           "L: " +:+ no_digits "{:0.3f}" length +:+ " " +:+ unit
           +:+ "; dx: " +:+ no_digits "{:0.3f}" dx +:+ " " +:+ unit
           +:+ "; dy: " +:+ no_digits "{:0.3f}" dy +:+ " " +:+ unit
           +:+ "; angle: " +:+ no_digits "{:0.3f}" angle +:+ " deg"
       | None =>
           "Length: " +:+ no_digits "{:0.3f}" length
           +:+ "; dx: " +:+ no_digits "{:0.3f}" dx
           +:+ "; dy: " +:+ no_digits "{:0.3f}" dy
           +:+ "; angle: " +:+ no_digits "{:0.3f}" angle +:+ " deg"
       end ∧
     text (matplotlib_tools.line_text t')
     = match matplotlib_tools.length_unit t' with
       | Some unit => no_digits "{:0.3f}" length +:+ " " +:+ unit
       | None => no_digits "{:0.3f}" length
       end).
Proof.
  split.
  - apply (drawing_motion never no_digits (drawing (0, 0) (1, 1))
             (tools_drawing (0, 0) (1, 1)) (mouse_at 1 (Some "shift") 4 3)
             0 0); reflexivity.
  - apply (drawing_motion never no_digits (drawing (0, 0) (1, 1))
             (tools_drawing (0, 0) (1, 1)) (mouse_at 1 None 4 3) 0 0);
      reflexivity.
Defined.

(** * More on the measurements *)

Section MoreMeasurements.

Import matplotlib_ruler.

Lemma hypot_nonneg (a b : R) : 0 <= np.hypot a b.
Proof. apply sqrt_pos. Qed.

Lemma hypot_zero (a b : R) : np.hypot a b = 0 ↔ a = 0 ∧ b = 0.
Proof.
  unfold np.hypot. split.
  - intros H. apply sqrt_eq_0 in H; [|nra]. split; nra.
  - intros [-> ->]. replace (0 * 0 + 0 * 0) with 0 by ring. apply sqrt_0.
Qed.

(** X1. The length of the ruler is never negative, and it is zero exactly
    when the two endpoints of the line coincide. *)
Theorem ruler_length_zero_iff_same_point (w : Ruler) (x0 y0 x1 y1 : R) :
  vertices (_ruler w) = [(x0, y0); (x1, y1)] →
  ∃ length,
    ruler_length w = Some length ∧
    0 <= length ∧
    (length = 0 ↔ (x0, y0) = (x1, y1)).
Proof.
  intros Hline. unfold ruler_length. rewrite Hline. cbn.
  eexists. split; [reflexivity|]. split; [apply hypot_nonneg|].
  rewrite hypot_zero. split.
  - intros [Hx Hy]. f_equal; lra.
  - intros [= -> ->]. split; lra.
Qed.

Lemma ruler_length_zero_iff_same_point_witness :
  ∃ length,
    ruler_length (measured (1, 2) (1, 2)) = Some length ∧
    0 <= length ∧
    (length = 0 ↔ (1, 2) = (1, 2)).
Proof.
  apply (ruler_length_zero_iff_same_point (measured (1, 2) (1, 2)) 1 2 1 2).
  reflexivity.
Defined.

(** X3. Measuring the same segment from its other end keeps the length
    and, in ruler.py, flips the sign of both deltas. *)
Theorem reversed_ruler (w w' : Ruler) (p0 p1 : Point) :
  vertices (_ruler w) = [p0; p1] →
  vertices (_ruler w') = [p1; p0] →
  ∃ length dx dy,
    ruler_length w = Some length ∧ ruler_length w' = Some length ∧
    ruler_dx w = Some dx ∧ ruler_dx w' = Some (- dx) ∧
    ruler_dy w = Some dy ∧ ruler_dy w' = Some (- dy).
Proof.
  intros Hw Hw'. destruct p0 as [x0 y0], p1 as [x1 y1].
  unfold ruler_length, ruler_dx, ruler_dy. rewrite Hw, Hw'. cbn.
  eexists _, _, _. split; [reflexivity|].
  split; [|repeat split; f_equal; ring].
  unfold np.hypot. do 2 f_equal. ring.
Qed.

Lemma reversed_ruler_witness :
  ∃ length dx dy,
    ruler_length (measured (0, 0) (3, 4)) = Some length ∧
    ruler_length (measured (3, 4) (0, 0)) = Some length ∧
    ruler_dx (measured (0, 0) (3, 4)) = Some dx ∧
    ruler_dx (measured (3, 4) (0, 0)) = Some (- dx) ∧
    ruler_dy (measured (0, 0) (3, 4)) = Some dy ∧
    ruler_dy (measured (3, 4) (0, 0)) = Some (- dy).
Proof.
  apply (reversed_ruler (measured (0, 0) (3, 4)) (measured (3, 4) (0, 0))
           (0, 0) (3, 4)); reflexivity.
Defined.

End MoreMeasurements.

(** * More on presses, drags and drawings *)

(** Runs the text and background updates at the end of a motion. *)
Ltac finish_update :=
  match goal with
  | |- context [matplotlib_ruler._update_text ?f ?W] =>
      let txt := fresh "txt" in
      let out := fresh "out" in
      let Htxt := fresh "Htxt" in
      let Hupd := fresh "Hupd" in
      destruct (_update_text_value f W _ _ eq_refl)
        as (txt & out & Hupd & Htxt);
      rewrite Hupd; clear Hupd; run_gesture
  end;
  match goal with
  | |- context [matplotlib_ruler._update_artists ?W] =>
      let bg := fresh "bg" in
      let Hart := fresh "Hart" in
      destruct (_update_artists_value W) as (bg & Hart);
      rewrite Hart; clear Hart; run_gesture
  end.

(** Names the three hit tests of a press. *)
Ltac name_hits contains event :=
  repeat match goal with
         | |- context [contains ?m event] =>
             let c := fresh "over" in
             set (c := contains m event) in *; clearbody c
         end.

(** Closes a case that contradicts a computed hypothesis. *)
Ltac prune H := try solve [exfalso; vm_compute in H; discriminate H].

Section MoreGestures.

Import matplotlib_ruler.

Variable contains : Line2D → Event → bool.
Variable str_format : string → R → string.

(** X10. A button-1 press that [ignore] lets through on a marker locks
    exactly the markers under the pointer and records the midpoint of
    the line and the positions of markers a and c.  It starts no
    drawing and moves no artist: the ruler stays where it is until the
    pointer moves. *)
Theorem press_on_marker_locks (w : Ruler) (event : Event) (p0 p1 : Point) :
  ignore w event = false →
  button event = 1%nat →
  any_over_marker contains w event = true →
  vertices (_ruler w) = [p0; p1] →
  ∃ w',
    _on_press contains w event = Some w' ∧
    (_end_a_lock w', _end_b_lock w', _end_c_lock w')
    = _over_marker contains w event ∧
    _old_marker_a_coords w' = Some (vertices (_marker_a w)) ∧
    _old_marker_c_coords w' = Some (vertices (_marker_c w)) ∧
    _old_mid_coords w' = Some (midpoint p0 p1) ∧
    _ruler_drawing w' = _ruler_drawing w ∧
    (_axes_text w', _ruler w', _marker_a w', _marker_b w', _marker_c w')
    = (_axes_text w, _ruler w, _marker_a w, _marker_b w, _marker_c w).
Proof.
  intros Hign Hbutton Hover Hline.
  destruct w as [ax0 print vis act lfmt afmt degrees blit dr keys btns
                   ox0 oy0 ox1 oy1 bg moving la lb lc oa oc omid
                   [line lv lanim] txt [mav ? ?] [mbv ? ?] [mcv ? ?] cur out].
  cbn in Hline. subst line.
  unfold _on_press. rewrite ignore_after_tracking, Hign, Hbutton.
  change (Nat.eqb 1 1) with true. cbv iota.
  unfold any_over_marker, _over_marker in Hover |- *.
  unfold _handle_ruler_move, _over_marker.
  run_gesture in Hover. run_gesture. name_hits contains event.
  destruct over, over0, over1; try discriminate Hover;
    run_gesture; eexists; (split; [reflexivity|]);
    run_gesture; repeat (split; [reflexivity|]); reflexivity.
Qed.

(** X11. A button-1 press that [ignore] lets through off the markers
    starts a drawing: the drawing flag is set, the start point is the
    pointer, marker a is shown there, the line keeps the points it had
    until the pointer moves, and no marker lock is touched.  With
    blitting, the five artists are animated and a background is
    saved. *)
Theorem press_off_marker_starts_drawing (w : Ruler) (event : Event) :
  ignore w event = false →
  button event = 1%nat →
  any_over_marker contains w event = false →
  ∃ w',
    _on_press contains w event = Some w' ∧
    _ruler_drawing w' = true ∧
    _x0 w' = Some (xdata event) ∧
    _y0 w' = Some (ydata event) ∧
    vertices (_marker_a w') = [(xdata event, ydata event)] ∧
    line_visible (_marker_a w') = true ∧
    vertices (_ruler w') = vertices (_ruler w) ∧
    (_end_a_lock w', _end_b_lock w', _end_c_lock w')
    = (_end_a_lock w, _end_b_lock w, _end_c_lock w) ∧
    (useblit w = true →
     _background w' = Some tt ∧
     [text_animated (_axes_text w'); line_animated (_ruler w');
      line_animated (_marker_a w'); line_animated (_marker_b w');
      line_animated (_marker_c w')] = [true; true; true; true; true]).
Proof.
  intros Hign Hbutton Hover.
  destruct w as [ax0 print vis act lfmt afmt degrees blit dr keys btns
                   ox0 oy0 ox1 oy1 bg moving la lb lc oa oc omid
                   [line lv lanim] txt [mav ? ?] [mbv ? ?] [mcv ? ?] cur out].
  unfold _on_press. rewrite ignore_after_tracking, Hign, Hbutton.
  change (Nat.eqb 1 1) with true. cbv iota.
  unfold any_over_marker, _over_marker in Hover |- *.
  run_gesture in Hover. run_gesture. name_hits contains event.
  destruct over, over0, over1; try discriminate Hover;
    destruct blit; run_gesture; eexists; (split; [reflexivity|]);
    unfold locked; run_gesture;
    repeat (split; [reflexivity|]);
    first [reflexivity | intros [=] | intros _; split; reflexivity].
Qed.

(** A press of another button than button 1 is only tracked. *)
Lemma press_of_other_button (w : Ruler) (event : Event) :
  button event ≠ 1%nat →
  _on_press contains w event = Some (tracked w event).
Proof.
  intros Hbutton. unfold _on_press.
  destruct (ignore _ event); [reflexivity|].
  apply Nat.eqb_neq in Hbutton. rewrite Hbutton. reflexivity.
Qed.

(** A press that [ignore] rejects is only tracked. *)
Lemma ignored_press (w : Ruler) (event : Event) :
  ignore w event = true → _on_press contains w event = Some (tracked w event).
Proof.
  intros Hign. unfold _on_press.
  rewrite ignore_after_tracking, Hign. reflexivity.
Qed.

(** X12. A press of any other button than button 1 is only tracked, on
    a marker or off it, ignored or not. *)
Theorem other_button_press_only_tracked (w : Ruler) (event : Event) :
  button event ≠ 1%nat →
  ∃ w',
    _on_press contains w event = Some w' ∧
    _pressed_keys w' = event_keys event ∧
    _mouse_buttons w' = {[button event]} ∪ _mouse_buttons w ∧
    w' = set__mouse_buttons (_mouse_buttons w')
           (set__pressed_keys (_pressed_keys w') w).
Proof.
  intros Hbutton. rewrite (press_of_other_button w event Hbutton).
  eexists. split; [reflexivity|]. repeat split.
Qed.

(** X14. A release ends every gesture: the motion that follows it, inside
    the axes or not, changes the tracked keys and the cursor and nothing
    else. *)
Theorem motion_after_release (w : Ruler) (release motion : Event) :
  _on_move contains str_format (_on_release w release) motion
  = Some (_update_cursor contains
            (set__pressed_keys (event_keys motion) (_on_release w release))
            motion).
Proof.
  unfold _on_move.
  destruct (not_in_axes motion _); reflexivity.
Qed.

(** X15. Dragging marker a alone moves the first endpoint of the line,
    and marker a with it, to the pointer (keeping y0 when shift is held,
    keeping x0 when control is held and shift is not) and leaves the
    second endpoint where the press found it; dragging marker c alone
    does the same with the second endpoint. *)
Theorem endpoint_drag (w : Ruler) (event : Event) (p0 p1 : Point) :
  not_in_axes event (ax w) = false →
  _end_b_lock w = false →
  xorb (_end_a_lock w) (_end_c_lock w) = true →
  recorded w p0 p1 →
  ∃ w',
    _on_move contains str_format w event = Some w' ∧
    if _end_a_lock w then
      vertices (_ruler w')
      = [drawn_end (shift_held event) (control_held event) p0 event; p1] ∧
      vertices (_marker_a w')
      = [drawn_end (shift_held event) (control_held event) p0 event] ∧
      vertices (_marker_c w') = vertices (_marker_c w)
    else
      vertices (_ruler w')
      = [p0; drawn_end (shift_held event) (control_held event) p1 event] ∧
      vertices (_marker_c w')
      = [drawn_end (shift_held event) (control_held event) p1 event] ∧
      vertices (_marker_a w') = vertices (_marker_a w).
Proof.
  intros Hin Hb Hac Hrec.
  destruct w as [ax0 print vis act lfmt afmt degrees blit dr keys btns
                   ox0 oy0 ox1 oy1 bg moving la lb lc oa oc omid
                   [line lv lanim] txt [mav ? ?] [mbv ? ?] [mcv ? ?] cur out].
  destruct p0 as [x0 y0], p1 as [x1 y1].
  destruct Hrec
    as (Hx0 & Hy0 & Hx1 & Hy1 & Hmid & (a0 & resta & Ha) & (c0 & restc & Hc)).
  cbn in Hin, Hb, Hac, Hx0, Hy0, Hx1, Hy1, Hmid, Ha, Hc.
  subst lb ox0 oy0 ox1 oy1 omid oa oc.
  pose proof (control_held_existsb event) as Hctrl.
  assert (Hshift : py.contains "shift" (event_keys event) = shift_held event)
    by reflexivity.
  destruct (shift_held event), (control_held event), la, lc;
    try discriminate Hac;
    destruct moving, blit;
    unfold _on_move;
    repeat (progress (run_gesture; rewrite ?Hin, ?Hshift, ?Hctrl));
    finish_update;
    eexists; (split; [reflexivity|]); run_gesture;
    repeat split; reflexivity.
Qed.

(** What a motion does to a ruler being drawn from [(x0, y0)]: the line,
    marker c at its second endpoint, marker b at its midpoint. *)
Lemma drawing_step (w : Ruler) (event : Event) (x0 y0 : R) :
  not_in_axes event (ax w) = false →
  locked w = false →
  _ruler_drawing w = true →
  _x0 w = Some x0 →
  _y0 w = Some y0 →
  ∃ w',
    _on_move contains str_format w event = Some w' ∧
    vertices (_ruler w')
    = [(x0, y0);
       drawn_end (shift_held event) (control_held event) (x0, y0) event] ∧
    vertices (_marker_c w')
    = [drawn_end (shift_held event) (control_held event) (x0, y0) event] ∧
    line_visible (_marker_c w') = true ∧
    line_visible (_marker_b w') = true ∧
    vertices (_marker_a w') = vertices (_marker_a w) ∧
    locked w' = false ∧ _ruler_drawing w' = true ∧
    _x0 w' = Some x0 ∧ _y0 w' = Some y0 ∧ ax w' = ax w.
Proof.
  intros Hin Hlocked Hdr Hx0 Hy0.
  destruct w as [ax0 print vis act lfmt afmt degrees blit dr keys btns
                   ox0 oy0 ox1 oy1 bg moving la lb lc oa oc omid
                   [line lv lanim] txt [mav ? ?] [mbv ? ?] [mcv ? ?] cur out].
  unfold locked in Hlocked. cbn in Hin, Hlocked, Hdr, Hx0, Hy0.
  subst dr ox0 oy0.
  pose proof (control_held_existsb event) as Hctrl.
  assert (Hshift : py.contains "shift" (event_keys event) = shift_held event)
    by reflexivity.
  destruct (shift_held event), (control_held event), la, lb, lc;
    try discriminate Hlocked;
    unfold _on_move;
    repeat (progress (run_gesture; rewrite ?Hin, ?Hshift, ?Hctrl));
    finish_update;
    eexists; (split; [reflexivity|]); unfold locked; run_gesture;
    repeat split; reflexivity.
Qed.

(** X16. While a ruler is drawn with shift held it stays horizontal:
    [ruler_dy] is 0 and [ruler_length] is the absolute value of
    [ruler_dx].  With control held and shift not, it stays vertical. *)
Theorem constrained_drawing (w : Ruler) (event : Event) (x0 y0 : R) :
  not_in_axes event (ax w) = false →
  locked w = false →
  _ruler_drawing w = true →
  _x0 w = Some x0 →
  _y0 w = Some y0 →
  ∃ w',
    _on_move contains str_format w event = Some w' ∧
    (shift_held event = true →
     ruler_dy w' = Some 0 ∧
     ruler_dx w' = Some (xdata event - x0) ∧
     ruler_length w' = Some (Rabs (xdata event - x0))) ∧
    (shift_held event = false → control_held event = true →
     ruler_dx w' = Some 0 ∧
     ruler_dy w' = Some (ydata event - y0) ∧
     ruler_length w' = Some (Rabs (ydata event - y0))).
Proof.
  intros Hin Hlocked Hdr Hx0 Hy0.
  destruct (drawing_step w event x0 y0 Hin Hlocked Hdr Hx0 Hy0)
    as (w' & Hmove & Hline & _).
  exists w'. split; [exact Hmove|].
  unfold ruler_dy, ruler_dx, ruler_length. rewrite Hline.
  assert (Hsq : ∀ a, np.hypot a 0 = Rabs a).
  { intros a. unfold np.hypot. replace (a * a + 0 * 0) with (Rsqr a)
      by (unfold Rsqr; ring). apply sqrt_Rsqr_abs. }
  assert (Hsq' : ∀ a, np.hypot 0 a = Rabs a).
  { intros a. unfold np.hypot. replace (0 * 0 + a * a) with (Rsqr a)
      by (unfold Rsqr; ring). apply sqrt_Rsqr_abs. }
  split.
  - intros ->. cbn. repeat split.
    + f_equal. ring.
    + replace (y0 - y0) with 0 by ring. rewrite Hsq. reflexivity.
  - intros -> ->. cbn. repeat split.
    + f_equal. ring.
    + replace (x0 - x0) with 0 by ring. rewrite Hsq'.
      f_equal. rewrite <- Rabs_Ropp. f_equal. ring.
Qed.

(** X17. Dragging marker b carries the three markers along with the
    line: each lands at its old position shifted by the offset of the
    drag, whichever other markers are locked as well. *)
Theorem mid_drag_carries_markers
    (w : Ruler) (event : Event) (p0 p1 a0 c0 : Point)
    (rest_a rest_c : list Point) :
  not_in_axes event (ax w) = false →
  _end_b_lock w = true →
  recorded w p0 p1 →
  _old_marker_a_coords w = Some (a0 :: rest_a) →
  _old_marker_c_coords w = Some (c0 :: rest_c) →
  ∃ w',
    _on_move contains str_format w event = Some w' ∧
    let d := mid_drag_offset (shift_held event) (control_held event) event
               (midpoint p0 p1) in
    vertices (_marker_a w') = [translate d a0] ∧
    vertices (_marker_b w') = [translate d (midpoint p0 p1)] ∧
    vertices (_marker_c w') = [translate d c0].
Proof.
  intros Hin Hlock Hrec Ha Hc.
  destruct w as [ax0 print vis act lfmt afmt degrees blit dr keys btns
                   ox0 oy0 ox1 oy1 bg moving la lb lc oa oc omid
                   [line lv lanim] txt [mav ? ?] [mbv ? ?] [mcv ? ?] cur out].
  destruct p0 as [x0 y0], p1 as [x1 y1], a0 as [ax ay], c0 as [cx cy].
  destruct Hrec as (Hx0 & Hy0 & Hx1 & Hy1 & Hmid & _ & _).
  cbn in Hin, Hlock, Hx0, Hy0, Hx1, Hy1, Hmid, Ha, Hc.
  subst lb ox0 oy0 ox1 oy1 omid oa oc.
  pose proof (control_held_existsb event) as Hctrl.
  assert (Hshift : py.contains "shift" (event_keys event) = shift_held event)
    by reflexivity.
  destruct (shift_held event), (control_held event), la, lc, moving, blit;
    unfold _on_move;
    repeat (progress (run_gesture; rewrite ?Hin, ?Hshift, ?Hctrl));
    finish_update;
    eexists; (split; [reflexivity|]); cbv zeta; run_gesture;
    repeat split; reflexivity.
Qed.

(** X18. The whole drawing gesture: button 1 goes down off the markers
    on a ruler with no marker locked, the pointer moves inside the axes,
    and the line runs from the press point to the pointer (constrained
    by shift and control as held during the motion), with marker a at
    its first endpoint and marker c at its second. *)
Theorem drawing_gesture_draws (w : Ruler) (press motion : Event) :
  ignore w press = false →
  button press = 1%nat →
  any_over_marker contains w press = false →
  locked w = false →
  not_in_axes motion (ax w) = false →
  ∃ w1,
    _on_press contains w press = Some w1 ∧
    ∃ w2,
    _on_move contains str_format w1 motion = Some w2 ∧
    let start := (xdata press, ydata press) in
    let stop := drawn_end (shift_held motion) (control_held motion) start
                  motion in
    vertices (_ruler w2) = [start; stop] ∧
    vertices (_marker_a w2) = [start] ∧
    vertices (_marker_c w2) = [stop].
Proof.
  intros Hign Hbutton Hover Hlocked Hin.
  destruct w as [ax0 print vis act lfmt afmt degrees blit dr keys btns
                   ox0 oy0 ox1 oy1 bg moving la lb lc oa oc omid
                   [line lv lanim] txt [mav ? ?] [mbv ? ?] [mcv ? ?] cur out].
  unfold locked in Hlocked. cbn in Hlocked, Hin.
  unfold _on_press. rewrite ignore_after_tracking, Hign, Hbutton.
  change (Nat.eqb 1 1) with true. cbv iota.
  unfold any_over_marker, _over_marker in Hover |- *.
  run_gesture in Hover. run_gesture. name_hits contains press.
  pose proof (control_held_existsb motion) as Hctrl.
  assert (Hshift : py.contains "shift" (event_keys motion)
                   = shift_held motion) by reflexivity.
  destruct over, over0, over1; try discriminate Hover;
    destruct la, lb, lc; try discriminate Hlocked;
    destruct blit, (shift_held motion), (control_held motion);
    run_gesture; eexists; (split; [reflexivity|]);
    unfold _on_move;
    repeat (progress (run_gesture; rewrite ?Hin, ?Hshift, ?Hctrl));
    finish_update;
    eexists; (split; [reflexivity|]); run_gesture;
    repeat split; reflexivity.
Qed.

End MoreGestures.

(** * Whole sessions *)

Section Callbacks.

Import matplotlib_ruler.

Variable contains : Line2D → Event → bool.
Variable str_format : string → R → string.

(** ** What every callback keeps *)

Ltac buttons_grow :=
  first [reflexivity | apply union_subseteq_r].

Lemma release_step (w : Ruler) (event : Event) :
  ready w = true →
  ready (_on_release w event) = true ∧
  settings (_on_release w event) = settings w ∧
  _mouse_buttons w ⊆ _mouse_buttons (_on_release w event).
Proof.
  intros Hready.
  destruct w as [ax0 print vis act lfmt afmt degrees blit dr keys btns
                   ox0 oy0 ox1 oy1 bg moving la lb lc oa oc omid
                   [line lv lanim] txt [mav ? ?] [mbv ? ?] [mcv ? ?] cur out].
  destruct line as [|p0 [|p1 [|p2 rest]]]; prune Hready.
  destruct mav as [|a0 resta]; prune Hready.
  destruct mcv as [|c0 restc]; prune Hready.
  split; [reflexivity|]. split; [reflexivity|]. apply union_subseteq_r.
Qed.

Lemma key_release_step (w : Ruler) (event : Event) (k : string) :
  key event = Some k →
  ready w = true →
  ∃ w',
    _on_key_release contains w event = Some w' ∧
    ready w' = true ∧ settings w' = settings w ∧
    _mouse_buttons w ⊆ _mouse_buttons w'.
Proof.
  intros Hkey Hready. unfold _on_key_release. rewrite Hkey.
  eexists. split; [reflexivity|].
  split; [exact Hready|]. split; reflexivity.
Qed.

Lemma key_press_step (w : Ruler) (event : Event) :
  ready w = true →
  ∃ w',
    _on_key_press contains str_format w event = Some w' ∧
    ready w' = true ∧ settings w' = settings w ∧
    _mouse_buttons w ⊆ _mouse_buttons w'.
Proof.
  intros Hready.
  destruct w as [ax0 print vis act lfmt afmt degrees blit dr keys btns
                   ox0 oy0 ox1 oy1 bg moving la lb lc oa oc omid
                   [line lv lanim] txt [mav ? ?] [mbv ? ?] [mcv ? ?] cur out].
  destruct line as [|p0 [|p1 [|p2 rest]]]; prune Hready.
  unfold _on_key_press.
  destruct (key_is event "m");
    [eexists; (split; [reflexivity|]);
     (split; [exact Hready|]); (split; reflexivity)|].
  destruct (key_is event "ctrl+m");
    [|eexists; (split; [reflexivity|]);
      (split; [exact Hready|]); (split; reflexivity)].
  destruct vis, degrees, print, blit, bg; run_ruler;
    eexists; (split; [reflexivity|]);
    (split; [exact Hready|]); (split; reflexivity).
Qed.

Lemma press_step (w : Ruler) (event : Event) :
  ready w = true →
  ∃ w',
    _on_press contains w event = Some w' ∧
    ready w' = true ∧ settings w' = settings w ∧
    _mouse_buttons w ⊆ _mouse_buttons w'.
Proof.
  intros Hready.
  destruct (ignore w event) eqn:Hign.
  { rewrite (ignored_press contains w event Hign).
    eexists. split; [reflexivity|]. split; [exact Hready|].
    split; [reflexivity|]. apply union_subseteq_r. }
  destruct (Nat.eqb (button event) 1) eqn:Hbutton.
  2:{ apply Nat.eqb_neq in Hbutton.
      rewrite (press_of_other_button contains w event Hbutton).
      eexists. split; [reflexivity|]. split; [exact Hready|].
      split; [reflexivity|]. apply union_subseteq_r. }
  destruct w as [ax0 print vis act lfmt afmt degrees blit dr keys btns
                   ox0 oy0 ox1 oy1 bg moving la lb lc oa oc omid
                   [line lv lanim] txt [mav ? ?] [mbv ? ?] [mcv ? ?] cur out].
  destruct line as [|p0 [|p1 [|p2 rest]]]; prune Hready.
  destruct mav as [|a0 resta]; prune Hready.
  destruct mcv as [|c0 restc]; prune Hready.
  unfold _on_press. rewrite ignore_after_tracking, Hign, Hbutton.
  cbv iota. unfold any_over_marker, _over_marker.
  run_gesture. name_hits contains event.
  destruct over, over0, over1; run_gesture.
  8:{ (* off the markers: a drawing starts, the old locks stay *)
      destruct la, lb, lc;
        [destruct ox0; prune Hready; destruct oy0; prune Hready;
         destruct ox1; prune Hready; destruct oy1; prune Hready;
         destruct omid; prune Hready;
         destruct oa as [[|? ?]|]; prune Hready;
         destruct oc as [[|? ?]|]; prune Hready ..|];
        destruct blit; run_gesture;
        eexists; (split; [reflexivity|]);
        (split; [reflexivity|]);
        (split; [reflexivity|apply union_subseteq_r]). }
  all: eexists; (split; [reflexivity|]);
    (split; [destruct dr; reflexivity|]);
    (split; [reflexivity|apply union_subseteq_r]).
Qed.

Lemma move_step (w : Ruler) (event : Event) :
  ready w = true →
  ∃ w',
    _on_move contains str_format w event = Some w' ∧
    ready w' = true ∧ settings w' = settings w ∧
    _mouse_buttons w ⊆ _mouse_buttons w'.
Proof.
  intros Hready.
  destruct w as [ax0 print vis act lfmt afmt degrees blit dr keys btns
                   ox0 oy0 ox1 oy1 bg moving la lb lc oa oc omid
                   [line lv lanim] txt [mav ? ?] [mbv ? ?] [mcv ? ?] cur out].
  destruct line as [|p0 [|p1 [|p2 rest]]]; prune Hready.
  destruct mav as [|a0 resta]; prune Hready.
  destruct mcv as [|c0 restc]; prune Hready.
  unfold _on_move.
  destruct (not_in_axes event ax0) eqn:Hin.
  { run_gesture. rewrite Hin.
    eexists. split; [reflexivity|]. split; [exact Hready|].
    split; reflexivity. }
  destruct (py.contains "shift" (event_keys event)) eqn:Hshift;
    destruct (existsb (fun e => py.contains e (event_keys event))
                ["ctrl"; "control"]) eqn:Hctrl;
    (destruct la, lb, lc;
     [ destruct ox0; prune Hready; destruct oy0; prune Hready;
       destruct ox1; prune Hready; destruct oy1; prune Hready;
       destruct omid; prune Hready;
       destruct oa as [[|? ?]|]; prune Hready;
       destruct oc as [[|? ?]|]; prune Hready;
       destruct moving, blit ..
     | destruct dr;
       [ destruct ox0; prune Hready; destruct oy0; prune Hready | ] ]);
    repeat (progress (run_gesture; rewrite ?Hin, ?Hshift, ?Hctrl));
    try finish_update;
    eexists; (split; [reflexivity|]);
    (split; [first [reflexivity | destruct dr; reflexivity]|]);
    (split; reflexivity).
Qed.

(** Every callback returns on a ready ruler, unless it is the key
    release callback handed an event without key, and leaves the ruler
    ready, its settings as they were and no tracked button dropped. *)
Lemma callback_step (w : Ruler) (ce : CanvasEvent) :
  ready w = true →
  names_key ce = true →
  ∃ w',
    ruler_callback contains str_format w ce = Some w' ∧
    ready w' = true ∧ settings w' = settings w ∧
    _mouse_buttons w ⊆ _mouse_buttons w'.
Proof.
  intros Hready Hkey. destruct ce as [event|event|event|event|event]; cbn.
  - apply press_step, Hready.
  - eexists. split; [reflexivity|]. apply release_step, Hready.
  - apply move_step, Hready.
  - apply key_press_step, Hready.
  - cbn in Hkey. destruct (key event) as [k|] eqn:Hk; [|discriminate].
    apply (key_release_step w event k Hk Hready).
Qed.

(** X19. A ruler that is ready stays so for a whole session: every
    callback returns (none raises), provided no key release event comes
    without a key; the settings the ruler was built with never change;
    and no button ever leaves the tracked set. *)
Theorem session_never_fails (w : Ruler) (events : list CanvasEvent) :
  ready w = true →
  forallb names_key events = true →
  ∃ w',
    ruler_session contains str_format w events = Some w' ∧
    ready w' = true ∧
    settings w' = settings w ∧
    _mouse_buttons w ⊆ _mouse_buttons w'.
Proof.
  revert w. induction events as [|ce events IH]; intros w Hready Hkeys.
  - exists w. repeat split; [exact Hready|reflexivity].
  - cbn in Hkeys. apply andb_prop in Hkeys as [Hkey Hkeys].
    destruct (callback_step w ce Hready Hkey)
      as (w1 & Hstep & Hready1 & Hset1 & Hbtn1).
    destruct (IH w1 Hready1 Hkeys) as (w' & Hrun & Hready' & Hset' & Hbtn').
    exists w'. cbn. rewrite Hstep. cbn. split; [exact Hrun|].
    split; [exact Hready'|]. split.
    + rewrite Hset'. exact Hset1.
    + etransitivity; eassumption.
Qed.

End Callbacks.

(** * More on keys and presses *)

Section MoreKeys.

Import matplotlib_ruler.

Variable contains : Line2D → Event → bool.
Variable str_format : string → R → string.

Lemma contains_head (x : string) (l : list string) :
  py.contains x (x :: l) = true.
Proof. unfold py.contains. cbn. rewrite String.eqb_refl. reflexivity. Qed.

Lemma contains_elem_of (x : string) (l : list string) :
  py.contains x l = true ↔ x ∈ l.
Proof.
  unfold py.contains. rewrite existsb_exists. split.
  - intros (y & Hin & Heq). apply String.eqb_eq in Heq. subst y.
    apply list_elem_of_In. exact Hin.
  - intros Hin. exists x. split; [apply list_elem_of_In; exact Hin|].
    apply String.eqb_refl.
Qed.

Lemma remove_sublist (x : string) (l : list string) :
  sublist (py.remove x l) l.
Proof.
  induction l as [|y l IH]; [constructor|].
  cbn. destruct (String.eqb y x).
  - apply sublist_cons. reflexivity.
  - apply sublist_skip. exact IH.
Qed.

Lemma remove_keeps_others (x y : string) (l : list string) :
  y ≠ x → y ∈ l → y ∈ py.remove x l.
Proof.
  intros Hne. induction l as [|z l IH]; [intros H; inversion H|].
  intros Hin. cbn. destruct (String.eqb z x) eqn:Hzx.
  - apply String.eqb_eq in Hzx. subst z.
    apply elem_of_cons in Hin as [->|Hin]; [contradiction|exact Hin].
  - apply elem_of_cons in Hin as [->|Hin].
    + apply list_elem_of_here.
    + apply list_elem_of_further, IH, Hin.
Qed.

Lemma release_all (l : list string) : foldl release_one l l = [].
Proof.
  induction l as [|x l IH]; [reflexivity|].
  cbn [foldl]. unfold release_one at 2.
  rewrite contains_head. cbn [py.remove]. rewrite String.eqb_refl.
  exact IH.
Qed.

Lemma release_one_sublist (keys : list string) (key : string) :
  sublist (release_one keys key) keys.
Proof.
  unfold release_one. destruct (py.contains key keys); [|reflexivity].
  apply remove_sublist.
Qed.

Lemma release_sublist (pieces keys : list string) :
  sublist (foldl release_one keys pieces) keys.
Proof.
  revert keys. induction pieces as [|p pieces IH]; intros keys.
  - reflexivity.
  - cbn [foldl]. etransitivity; [apply IH|apply release_one_sublist].
Qed.

Lemma release_keeps_others (pieces keys : list string) (x : string) :
  x ∉ pieces → x ∈ keys → x ∈ foldl release_one keys pieces.
Proof.
  revert keys. induction pieces as [|p pieces IH]; intros keys Hnot Hin.
  - exact Hin.
  - cbn [foldl]. apply IH.
    + intros H. apply Hnot. apply list_elem_of_further, H.
    + unfold release_one. destruct (py.contains p keys); [|exact Hin].
      apply remove_keeps_others; [|exact Hin].
      intros ->. apply Hnot. apply list_elem_of_here.
Qed.

(** [_update_text] and the visibility toggle leave the tracked keys
    alone. *)
Lemma _update_text_keeps_keys (w w' : Ruler) :
  _update_text str_format w = Some w' → _pressed_keys w' = _pressed_keys w.
Proof.
  unfold _update_text.
  destruct (detail_string str_format w) as [s|]; [|discriminate].
  cbn. destruct (_print_text _); intros [= <-]; reflexivity.
Qed.

Lemma _on_key_press_stores_keys (w w' : Ruler) (event : Event) :
  _on_key_press contains str_format w event = Some w' →
  _pressed_keys w' = event_keys event.
Proof.
  unfold _on_key_press.
  destruct (key_is event "m"); [intros [= <-]; reflexivity|].
  destruct (key_is event "ctrl+m"); [|intros [= <-]; reflexivity].
  unfold toggle_ruler_visibility.
  match goal with
  | |- context [_update_text str_format ?W] =>
      destruct (_update_text str_format W) as [w1|] eqn:Hupd;
      [|discriminate]
  end.
  cbn. intros [= <-].
  apply _update_text_keeps_keys in Hupd.
  transitivity (_pressed_keys w1).
  - unfold _update_artists.
    destruct (useblit w1); [destruct (_background w1)|]; reflexivity.
  - rewrite Hupd.
    match goal with
    | |- context [if ?c then _ else _] => destruct c
    end; reflexivity.
Qed.

(** X6. Releasing the key that was just pressed leaves no key recorded
    as pressed, whatever the key and whatever was recorded before. *)
Theorem key_press_then_release (w w1 : Ruler) (event : Event) (k : string) :
  key event = Some k →
  _on_key_press contains str_format w event = Some w1 →
  ∃ w2,
    _on_key_release contains w1 event = Some w2 ∧
    _pressed_keys w2 = [].
Proof.
  intros Hkey Hpress.
  apply _on_key_press_stores_keys in Hpress.
  unfold _on_key_release. rewrite Hkey. cbn.
  eexists. split; [reflexivity|]. cbn.
  rewrite Hpress. unfold event_keys. rewrite Hkey.
  destruct k as [|c k']; [reflexivity|].
  cbn [py.truthy]. apply release_all.
Qed.

(** X7. A key release takes out one occurrence of each key it names and
    keeps every other pressed key, in order. *)
Theorem key_release_keeps_other_keys (w : Ruler) (event : Event) (k : string) :
  key event = Some k →
  ∃ w',
    _on_key_release contains w event = Some w' ∧
    sublist (_pressed_keys w') (_pressed_keys w) ∧
    ∀ x, x ∉ py.split "+" k → x ∈ _pressed_keys w → x ∈ _pressed_keys w'.
Proof.
  intros Hkey. unfold _on_key_release. rewrite Hkey. cbn.
  eexists. split; [reflexivity|]. cbn. split.
  - apply (release_sublist (py.split "+" k) (_pressed_keys w)).
  - intros x. apply (release_keeps_others (py.split "+" k)).
Qed.

(** X13. A release event that names no key stops the handler with an
    error, while a press event that names no key is handled and clears
    the pressed keys. *)
Theorem keyless_events (w : Ruler) (event : Event) :
  key event = None →
  _on_key_release contains w event = None ∧
  ∃ w', _on_key_press contains str_format w event = Some w' ∧
        _pressed_keys w' = [].
Proof.
  intros Hkey. unfold _on_key_release, _on_key_press, key_is, event_keys.
  rewrite Hkey. split; [reflexivity|].
  eexists. split; reflexivity.
Qed.

(** X8. The key m flips [active] and nothing else of the ruler's state
    but the keys and the cursor; the cursor is chosen before the flip, so
    the press that activates the ruler still sets the plain pointer.  A
    second m restores [active]. *)
Theorem m_key_toggles (w : Ruler) (event : Event) :
  key event = Some "m" →
  ∃ w1 w2,
    _on_key_press contains str_format w event = Some w1 ∧
    w1 = set_active (negb (active w))
           (set_cursor (cursor w1) (set__pressed_keys ["m"] w)) ∧
    (active w = false → cursor w1 = POINTER) ∧
    _on_key_press contains str_format w1 event = Some w2 ∧
    active w2 = active w.
Proof.
  intros Hkey. unfold _on_key_press, key_is, event_keys. rewrite Hkey.
  destruct w as [ax0 print vis act lfmt afmt degrees blit dr keys btns
                   ox0 oy0 ox1 oy1 bg moving la lb lc oa oc omid
                   line txt ma mb mc cur out].
  cbn. eexists _, _. split; [reflexivity|]. split; [reflexivity|].
  split; [intros ->; reflexivity|].
  split; [reflexivity|]. apply negb_involutive.
Qed.

Lemma inactive_or_hidden_ignores (w : Ruler) (event : Event) :
  active w = false ∨ _visible w = false → ignore w event = true.
Proof.
  unfold ignore. intros [H|H]; rewrite H;
    destruct (negb (String.eqb (toolbar_mode (canvas event)) "")),
      (negb (widgetlock_available (canvas event))),
      (not_in_axes event (ax w)); try reflexivity.
  destruct (negb (active w)); reflexivity.
Qed.

(** X9. Once ctrl+m has hidden the ruler, and still after a second ctrl+m
    has shown it again, a button press is only tracked: no drawing
    starts and no marker is locked until m activates the ruler. *)
Theorem hidden_ruler_ignores_presses
    (w : Ruler) (hide press : Event) (p0 p1 : Point) :
  vertices (_ruler w) = [p0; p1] →
  _visible w = true →
  key hide = Some "ctrl+m" →
  ∃ w1 w2,
    _on_key_press contains str_format w hide = Some w1 ∧
    _on_press contains w1 press = Some (tracked w1 press) ∧
    _on_key_press contains str_format w1 hide = Some w2 ∧
    _visible w2 = true ∧
    _on_press contains w2 press = Some (tracked w2 press).
Proof.
  intros Hline Hvis Hkey.
  destruct w as [ax0 print vis act lfmt afmt degrees blit dr keys btns
                   ox0 oy0 ox1 oy1 bg moving la lb lc oa oc omid
                   [line lv lanim] txt ma mb mc cur out].
  cbn in Hline, Hvis. subst line vis.
  unfold _on_key_press, key_is, event_keys. rewrite Hkey.
  change (String.eqb "ctrl+m" "m") with false.
  change (String.eqb "ctrl+m" "ctrl+m") with true.
  change (py.truthy (Some "ctrl+m")) with true.
  change (py.split "+" "ctrl+m") with ["ctrl"; "m"].
  cbv iota.
  destruct degrees, print, blit, bg; do 2 eexists;
    (split; [run_ruler; reflexivity|]);
    (split; [apply (ignored_press contains), inactive_or_hidden_ignores;
             left; reflexivity|]);
    (split; [run_ruler; reflexivity|]);
    (split; [reflexivity|]);
    apply (ignored_press contains), inactive_or_hidden_ignores; left; reflexivity.
Qed.

End MoreKeys.

Lemma key_press_then_release_witness :
  key (mouse_at 0 (Some "ctrl+shift") 0 0) = Some "ctrl+shift" ∧
  ∃ w2,
    matplotlib_ruler._on_key_release never
      (matplotlib_ruler._update_cursor never
         (matplotlib_ruler.set__pressed_keys ["ctrl"; "shift"]
            (measured (0, 0) (1, 0)))
         (mouse_at 0 (Some "ctrl+shift") 0 0))
      (mouse_at 0 (Some "ctrl+shift") 0 0) = Some w2 ∧
    matplotlib_ruler._pressed_keys w2 = [].
Proof.
  split; [reflexivity|].
  apply (key_press_then_release never no_digits (measured (0, 0) (1, 0)) _
           (mouse_at 0 (Some "ctrl+shift") 0 0) "ctrl+shift");
    reflexivity.
Defined.

Lemma key_release_keeps_other_keys_witness :
  ∃ w',
    matplotlib_ruler._on_key_release never
      (matplotlib_ruler.set__pressed_keys ["ctrl"; "shift"]
         (measured (0, 0) (1, 0)))
      (mouse_at 0 (Some "shift") 0 0) = Some w' ∧
    sublist (matplotlib_ruler._pressed_keys w') ["ctrl"; "shift"] ∧
    ∀ x, x ∉ py.split "+" "shift" → x ∈ ["ctrl"; "shift"] →
         x ∈ matplotlib_ruler._pressed_keys w'.
Proof.
  apply (key_release_keeps_other_keys never
           (matplotlib_ruler.set__pressed_keys ["ctrl"; "shift"]
              (measured (0, 0) (1, 0)))
           (mouse_at 0 (Some "shift") 0 0) "shift").
  reflexivity.
Defined.

Lemma m_key_toggles_witness :
  ∃ w1 w2,
    matplotlib_ruler._on_key_press never no_digits
      (matplotlib_ruler.set_active false (measured (0, 0) (1, 0)))
      (mouse_at 0 (Some "m") 0 0) = Some w1 ∧
    w1 = matplotlib_ruler.set_active (negb false)
           (matplotlib_ruler.set_cursor (matplotlib_ruler.cursor w1)
              (matplotlib_ruler.set__pressed_keys ["m"]
                 (matplotlib_ruler.set_active false
                    (measured (0, 0) (1, 0))))) ∧
    (false = false → matplotlib_ruler.cursor w1 = POINTER) ∧
    matplotlib_ruler._on_key_press never no_digits w1
      (mouse_at 0 (Some "m") 0 0) = Some w2 ∧
    matplotlib_ruler.active w2 = false.
Proof.
  apply (m_key_toggles never no_digits
           (matplotlib_ruler.set_active false (measured (0, 0) (1, 0)))
           (mouse_at 0 (Some "m") 0 0)).
  reflexivity.
Defined.

Lemma hidden_ruler_ignores_presses_witness :
  ∃ w1 w2,
    matplotlib_ruler._on_key_press never no_digits (measured (0, 0) (1, 0))
      (mouse_at 0 (Some "ctrl+m") 0 0) = Some w1 ∧
    matplotlib_ruler._on_press never w1 (mouse_at 1 None 0 0)
    = Some (tracked w1 (mouse_at 1 None 0 0)) ∧
    matplotlib_ruler._on_key_press never no_digits w1
      (mouse_at 0 (Some "ctrl+m") 0 0) = Some w2 ∧
    matplotlib_ruler._visible w2 = true ∧
    matplotlib_ruler._on_press never w2 (mouse_at 1 None 0 0)
    = Some (tracked w2 (mouse_at 1 None 0 0)).
Proof.
  apply (hidden_ruler_ignores_presses never no_digits
           (measured (0, 0) (1, 0)) (mouse_at 0 (Some "ctrl+m") 0 0)
           (mouse_at 1 None 0 0) (0, 0) (1, 0)); reflexivity.
Defined.

(** * More on the older ruler *)

Section MoreTools.

Import matplotlib_tools.

Variable str_format : string → R → string.

(** [ignore] reads the axes and the active flag of the ruler only. *)
Lemma ignore_reads (t t' : Ruler) (event : Event) :
  ax t' = ax t → active t' = active t → ignore t' event = ignore t event.
Proof. unfold ignore. intros -> ->. reflexivity. Qed.

(** X20. The right-click measurement: the first accepted press of
    button 3 marks the start and leaves the line alone, the second draws
    the line from the first click to the second, puts the text at its
    midpoint, takes the start marker off and ends the measurement. *)
Theorem right_click_measurement (t : Ruler) (first second : Event) :
  ignore t first = false →
  ignore t second = false →
  button first = 3%nat →
  button second = 3%nat →
  line_start_coords t = None →
  ∃ t1,
    on_press str_format t first = Some t1 ∧
    line_start_coords t1 = Some (xdata first, ydata first) ∧
    mouse3_pressed t1 = true ∧
    ruler_marker_drawn t1 = true ∧
    line t1 = line t ∧
    ∃ t2,
      on_press str_format t1 second = Some t2 ∧
      vertices (line t2)
      = [(xdata first, ydata first); (xdata second, ydata second)] ∧
      position (line_text t2)
      = midpoint (xdata first, ydata first) (xdata second, ydata second) ∧
      line_start_coords t2 = None ∧
      mouse3_pressed t2 = false ∧
      ruler_marker_drawn t2 = false ∧
      detail_string str_format t2 = Some (text (detail_text t2)).
Proof.
  intros Hign1 Hign2 Hb1 Hb2 Hstart.
  destruct t as [ax0 vis act unit aunit blit m1 m3 shift control
                   ox0 oy0 ox1 oy1 start end_ marker drawn bg
                   ltxt dtxt [line lv lanim] out].
  cbn in Hstart. subst start.
  eexists. split.
  { unfold on_press. rewrite Hign1, Hb1.
    change (Nat.eqb 3 1) with false. change (Nat.eqb 3 3) with true.
    cbn [andb]. cbv iota. run_tools. reflexivity. }
  repeat (split; [reflexivity|]).
  unfold on_press.
  match goal with
  | H : ignore ?t0 second = false |- _ =>
      rewrite (ignore_reads t0) by reflexivity; rewrite H
  end.
  rewrite Hb2.
  change (Nat.eqb 3 1) with false. change (Nat.eqb 3 3) with true.
  cbn [andb]. cbv iota.
  destruct unit, (String.eqb aunit "degree") eqn:Hunit;
    repeat (progress (run_tools; rewrite ?Hunit));
    eexists; (split; [reflexivity|]);
    repeat (split; [reflexivity|]);
    run_tools; rewrite ?Hunit; reflexivity.
Qed.

(** X21. While a right-click measurement is pending, a press of button
    1 starts no drawing: the ruler is left exactly as it was. *)
Theorem pending_right_click_blocks_drawing
    (t : Ruler) (first press : Event) :
  ignore t first = false →
  button first = 3%nat →
  line_start_coords t = None →
  button press = 1%nat →
  ∃ t1,
    on_press str_format t first = Some t1 ∧
    on_press str_format t1 press = Some t1.
Proof.
  intros Hign Hb Hstart Hpress.
  destruct t as [ax0 vis act unit aunit blit m1 m3 shift control
                   ox0 oy0 ox1 oy1 start end_ marker drawn bg
                   ltxt dtxt [line lv lanim] out].
  cbn in Hstart. subst start.
  eexists. split.
  { unfold on_press. rewrite Hign, Hb.
    change (Nat.eqb 3 1) with false. change (Nat.eqb 3 3) with true.
    cbn [andb]. cbv iota. run_tools. reflexivity. }
  unfold on_press. rewrite Hpress.
  change (Nat.eqb 1 1) with true. change (Nat.eqb 1 3) with false.
  destruct (ignore _ press); reflexivity.
Qed.

(** [update_text] returns on a ruler whose line has two points, and
    changes the two texts only. *)
Lemma update_text_value (t : Ruler) (p0 p1 : Point) (rest : list Point) :
  vertices (line t) = p0 :: p1 :: rest →
  ∃ ltxt dtxt,
    update_text str_format t
    = Some (set_detail_text dtxt (set_line_text ltxt t)) ∧
    position ltxt = position (line_text t).
Proof.
  intros Hline.
  destruct t as [ax0 vis act unit aunit blit m1 m3 shift control
                   ox0 oy0 ox1 oy1 start end_ marker drawn bg
                   ltxt dtxt [line lv lanim] out].
  cbn in Hline. subst line.
  destruct unit, (String.eqb aunit "degree") eqn:Hunit;
    repeat (progress (run_tools; rewrite ?Hunit));
    eexists _, _; (split; [reflexivity|]); reflexivity.
Qed.

(** After a release no drawing is on: a motion changes nothing. *)
Lemma release_ends_drawing (t : Ruler) (release motion : Event) :
  on_move str_format (on_release t release) motion
  = Some (on_release t release).
Proof.
  unfold on_move.
  destruct (not_in_axes motion _); [reflexivity|].
  rewrite tools_release_clears_button. reflexivity.
Qed.

(** What a motion does to a line being drawn from [(px, py)]. *)
Lemma left_drag_step (t : Ruler) (motion : Event) (px py : R) :
  not_in_axes motion (ax t) = false →
  mouse1_pressed t = true →
  x0 t = Some px →
  y0 t = Some py →
  ∃ t2,
    on_move str_format t motion = Some t2 ∧
    vertices (line t2)
    = [(px, py);
       drawn_end (shift_pressed t) (control_pressed t) (px, py) motion] ∧
    position (line_text t2)
    = midpoint (px, py)
        (drawn_end (shift_pressed t) (control_pressed t) (px, py) motion).
Proof.
  intros Hin Hm1 Hx0 Hy0.
  destruct t as [ax0 vis act unit aunit blit m1 m3 shift control
                   ox0 oy0 ox1 oy1 start end_ marker drawn bg
                   ltxt dtxt [line lv lanim] out].
  cbn in Hin, Hm1, Hx0, Hy0. subst m1 ox0 oy0.
  destruct shift, control, ltxt;
    unfold on_move;
    repeat (progress (run_tools_core; rewrite ?Hin));
    match goal with
    | |- context [update_text _ ?T] =>
        destruct (update_text_value T _ _ _ eq_refl)
          as (ltxt' & dtxt' & Hupd & Hpos);
        rewrite Hupd; clear Hupd; run_tools_core
    end;
    eexists; (split; [reflexivity|]);
    (split; [run_tools_core; reflexivity|]);
    run_tools_core; run_tools_core in Hpos; exact Hpos.
Qed.

(** X22. The whole left-button gesture: an accepted press of button 1
    with no right-click measurement pending, then a motion inside the
    axes, and the line runs from the press point to the pointer
    (constrained by the shift and control flags), with the text at its
    midpoint.  After the release a motion changes nothing. *)
Theorem left_drag_draws (t : Ruler) (press motion release : Event) :
  ignore t press = false →
  button press = 1%nat →
  mouse3_pressed t = false →
  not_in_axes motion (ax t) = false →
  ∃ t1,
    on_press str_format t press = Some t1 ∧
    ∃ t2,
      on_move str_format t1 motion = Some t2 ∧
      (let start := (xdata press, ydata press) in
       let stop := drawn_end (shift_pressed t) (control_pressed t) start
                     motion in
       vertices (line t2) = [start; stop] ∧
       position (line_text t2) = midpoint start stop) ∧
      on_move str_format (on_release t2 release) motion
      = Some (on_release t2 release).
Proof.
  intros Hign Hb Hm3 Hin.
  exists (handle_button1_press t press). split.
  { unfold on_press. rewrite Hign, Hb, Hm3. reflexivity. }
  assert (Hsame : ax (handle_button1_press t press) = ax t ∧
                  shift_pressed (handle_button1_press t press)
                  = shift_pressed t ∧
                  control_pressed (handle_button1_press t press)
                  = control_pressed t ∧
                  mouse1_pressed (handle_button1_press t press) = true ∧
                  x0 (handle_button1_press t press) = Some (xdata press) ∧
                  y0 (handle_button1_press t press) = Some (ydata press)).
  { unfold handle_button1_press. cbn.
    destruct (useblit t); repeat split. }
  destruct Hsame as (Hax & Hshift & Hctrl & Hm1 & Hx0 & Hy0).
  destruct (left_drag_step (handle_button1_press t press) motion
              (xdata press) (ydata press)) as (t2 & Hmove & Hline & Hpos);
    [rewrite Hax; exact Hin|exact Hm1|exact Hx0|exact Hy0|].
  rewrite Hshift, Hctrl in Hline, Hpos.
  exists t2. split; [exact Hmove|]. split; [split; assumption|].
  apply release_ends_drawing.
Qed.

Ltac finish_tools_text :=
  match goal with
  | |- context [update_text _ ?T] =>
      let ltxt' := fresh "ltxt" in
      let dtxt' := fresh "dtxt" in
      let Hupd := fresh "Hupd" in
      destruct (update_text_value T _ _ _ eq_refl)
        as (ltxt' & dtxt' & Hupd & _);
      rewrite Hupd; clear Hupd; run_tools_core
  end.

(** Every callback of the older ruler returns on a ready ruler and
    leaves it ready, with the settings it was built with. *)
Lemma tools_callback_step (t : Ruler) (ce : CanvasEvent) :
  tools_ready t = true →
  ∃ t',
    tools_callback str_format t ce = Some t' ∧
    tools_ready t' = true ∧ tools_settings t' = tools_settings t.
Proof.
  intros Hready.
  destruct t as [ax0 vis act unit aunit blit m1 m3 shift control
                   ox0 oy0 ox1 oy1 start end_ marker drawn bg
                   ltxt dtxt [line lv lanim] out].
  destruct line as [|p0 [|p1 rest]]; prune Hready.
  destruct ce as [event|event|event|event|event]; cbn [tools_callback].
  - (* press *)
    unfold on_press.
    match goal with
    | |- context [ignore ?T event] => destruct (ignore T event)
    end; [eexists; split; [reflexivity|]; split; [exact Hready|reflexivity]|].
    destruct (button event) as [|[|[|[|n]]]]; cbn [Nat.eqb andb negb];
      try (eexists; split; [reflexivity|];
           split; [exact Hready|reflexivity]).
    + (* button 1 *)
      destruct m3; cbn [andb negb];
        [eexists; split; [reflexivity|];
         split; [exact Hready|reflexivity]|].
      destruct start as [s0|];
        [destruct m1, ox0, oy0, marker; prune Hready|];
        destruct blit; run_tools_core;
        eexists; (split; [reflexivity|]); (split; reflexivity).
    + (* button 3 *)
      destruct start as [s0|].
      * destruct m1, ox0, oy0, marker; prune Hready;
          run_tools_core; finish_tools_text;
          eexists; (split; [reflexivity|]); (split; reflexivity).
      * run_tools_core. eexists. split; [reflexivity|].
        split; [destruct m1; reflexivity|reflexivity].
  - (* release *)
    unfold on_release.
    destruct (not_in_axes event _), blit; run_tools_core;
      eexists; (split; [reflexivity|]);
      (split; [destruct m1, start, ox0, oy0, marker; prune Hready;
               reflexivity
              |reflexivity]).
  - (* motion *)
    unfold on_move.
    destruct (not_in_axes event ax0) eqn:Hin;
      [run_tools_core; rewrite Hin; eexists; split; [reflexivity|];
       split; [exact Hready|reflexivity]|].
    destruct m1;
      [|run_tools_core; rewrite Hin; eexists; split; [reflexivity|];
        split; [exact Hready|reflexivity]].
    destruct ox0; prune Hready. destruct oy0; prune Hready.
    destruct start as [s0|]; [destruct marker; prune Hready|];
      destruct shift, control;
      repeat (progress (run_tools_core; rewrite ?Hin));
      finish_tools_text;
      eexists; (split; [reflexivity|]); (split; reflexivity).
  - (* key press *)
    unfold on_key_press, toggle_ruler, toggle_ruler_visibility.
    destruct (key_is event "shift"), (key_is event "control"),
      (key_is event "m"), (key_is event "ctrl+m"), act, vis;
      eexists; (split; [reflexivity|]); (split; [exact Hready|reflexivity]).
  - (* key release *)
    unfold on_key_release.
    destruct (key_is event "shift"), (key_is event "control");
      eexists; (split; [reflexivity|]); (split; [exact Hready|reflexivity]).
Qed.

(** X23. The older ruler, once ready, gets through a whole session:
    every callback returns (none raises), the ruler stays ready and its
    axes, units and blitting setting never change. *)
Theorem tools_session_never_fails (t : Ruler) (events : list CanvasEvent) :
  tools_ready t = true →
  ∃ t',
    tools_session str_format t events = Some t' ∧
    tools_ready t' = true ∧
    tools_settings t' = tools_settings t.
Proof.
  revert t. induction events as [|ce events IH]; intros t Hready.
  - exists t. repeat split. exact Hready.
  - destruct (tools_callback_step t ce Hready) as (t1 & Hstep & Hready1 & Hset1).
    destruct (IH t1 Hready1) as (t' & Hrun & Hready' & Hset').
    exists t'. cbn. rewrite Hstep. cbn. split; [exact Hrun|].
    split; [exact Hready'|]. rewrite Hset'. exact Hset1.
Qed.

(** X24. The shift and control flags follow their keys: a press of the
    key sets the flag and its release clears it again, leaving the rest
    of the ruler as it was before the press. *)
Theorem modifier_flags_follow_keys (t : Ruler) (event : Event) :
  (key event = Some "shift" →
   shift_pressed (on_key_press t event) = true ∧
   on_key_release (on_key_press t event) event = set_shift_pressed false t) ∧
  (key event = Some "control" →
   control_pressed (on_key_press t event) = true ∧
   on_key_release (on_key_press t event) event
   = set_control_pressed false t).
Proof.
  destruct t as [ax0 vis act unit aunit blit m1 m3 shift control
                   ox0 oy0 ox1 oy1 start end_ marker drawn bg
                   ltxt dtxt line out].
  split; intros Hkey; unfold on_key_press, on_key_release, key_is;
    rewrite Hkey; cbn; split; reflexivity.
Qed.

(** A ruler that is switched off handles no press. *)
Lemma inactive_press (t : Ruler) (press : Event) :
  active t = false → on_press str_format t press = Some t.
Proof.
  intros Hact. unfold on_press, ignore. rewrite Hact.
  destruct (negb (widgetlock_available (canvas press))),
    (not_in_axes press (ax t)); reflexivity.
Qed.

Lemma ctrl_m_toggles_visibility (t : Ruler) (event : Event) :
  key event = Some "ctrl+m" →
  on_key_press t event = toggle_ruler_visibility t.
Proof.
  intros Hkey. unfold on_key_press, key_is. rewrite Hkey. reflexivity.
Qed.

Lemma m_toggles_active (t : Ruler) (event : Event) :
  key event = Some "m" →
  on_key_press t event = toggle_ruler t.
Proof.
  intros Hkey. unfold on_key_press, key_is. rewrite Hkey. reflexivity.
Qed.

(** X25. ctrl+m on a visible ruler hides its three artists and switches
    the ruler off, so that presses are ignored; a second ctrl+m shows the
    artists again but presses are still ignored, until m switches the
    ruler on. *)
Theorem tools_hidden_ruler_ignores_presses
    (t : Ruler) (hide press on : Event) :
  visible t = true →
  key hide = Some "ctrl+m" →
  key on = Some "m" →
  let t1 := on_key_press t hide in
  let t2 := on_key_press t1 hide in
  let t3 := on_key_press t2 on in
  on_press str_format t1 press = Some t1 ∧
  tools_artists_visible t1 = [false; false; false] ∧
  on_press str_format t2 press = Some t2 ∧
  tools_artists_visible t2 = [true; true; true] ∧
  active t3 = true ∧ visible t3 = true.
Proof.
  intros Hvis Hhide Hon t1 t2 t3.
  assert (H1 : active t1 = false ∧ visible t1 = false ∧
               tools_artists_visible t1 = [false; false; false]).
  { subst t1. rewrite (ctrl_m_toggles_visibility t hide Hhide).
    unfold toggle_ruler_visibility. rewrite Hvis. repeat split. }
  destruct H1 as (Hact1 & Hvis1 & Hart1).
  assert (H2 : active t2 = false ∧ visible t2 = true ∧
               tools_artists_visible t2 = [true; true; true]).
  { subst t2. rewrite (ctrl_m_toggles_visibility t1 hide Hhide).
    unfold toggle_ruler_visibility. rewrite Hvis1.
    cbn. rewrite Hact1. repeat split. }
  destruct H2 as (Hact2 & Hvis2 & Hart2).
  split; [apply inactive_press, Hact1|]. split; [exact Hart1|].
  split; [apply inactive_press, Hact2|]. split; [exact Hart2|].
  subst t3. rewrite (m_toggles_active t2 on Hon).
  unfold toggle_ruler. rewrite Hact2. cbn. split; [reflexivity|exact Hvis2].
Qed.

End MoreTools.

(** * More on the text mover *)

Section MoreMover.

Import text_mover.

(** With no text selected a motion changes nothing at all. *)
Lemma on_motion_without_selection (m : TextMover) (event : Event) :
  selectedText m = None → on_motion m event = m.
Proof.
  intros Hnone. unfold on_motion.
  destruct (not_in_axes event (ax m)); [reflexivity|].
  rewrite Hnone. destruct (mousePressed m); reflexivity.
Qed.

Lemma motions_without_selection (moves : list Event) (m : TextMover) :
  selectedText m = None → foldl on_motion m moves = m.
Proof.
  intros Hnone. induction moves as [|event moves IH]; [reflexivity|].
  cbn [foldl]. rewrite on_motion_without_selection by exact Hnone.
  exact IH.
Qed.

(** X26. A pick is dropped when the mover is inactive, when the button
    is not button 1 or when the picked artist is not a text: the mover
    is left as it was, and if it held nothing, the motions that follow
    move nothing. *)
Theorem rejected_pick_moves_nothing
    (m : TextMover) (pick : PickEvent) (moves : list Event) :
  active m = false ∨ button (mouseevent pick) ≠ 1%nat
  ∨ is_text (artists m !! artist pick) = false →
  on_pick_event m pick = m ∧
  (selectedText m = None →
   foldl on_motion (on_pick_event m pick) moves = m).
Proof.
  intros Hrej.
  assert (Hpick : on_pick_event m pick = m).
  { unfold on_pick_event. destruct Hrej as [H|[H|H]].
    - rewrite H. reflexivity.
    - apply Nat.eqb_neq in H. rewrite H.
      destruct (negb (active m)); reflexivity.
    - rewrite H.
      destruct (negb (active m)),
        (negb (Nat.eqb (button (mouseevent pick)) 1)); reflexivity. }
  split; [exact Hpick|].
  intros Hnone. rewrite Hpick. apply motions_without_selection, Hnone.
Qed.

(** X27. The release ends the drag: nothing is selected, the button
    counts as up, the saved background is dropped, the text stops being
    animated and stays where the drag left it; the motions that follow
    move nothing. *)
Theorem release_drops_text
    (m : TextMover) (i : nat) (t : Text) (release : Event)
    (moves : list Event) :
  selectedText m = Some i →
  artists m !! i = Some (TextArtist t) →
  ∃ m',
    on_release m release = m' ∧
    selectedText m' = None ∧
    mousePressed m' = false ∧
    background m' = None ∧
    artists m' = <[i := TextArtist (text_set_animated false t)]> (artists m) ∧
    foldl on_motion m' moves = m'.
Proof.
  intros Hsel Htext. eexists. split; [reflexivity|].
  unfold on_release. rewrite Hsel. cbn.
  repeat (split; [reflexivity|]). split.
  - apply map_eq. intros j. destruct (decide (i = j)) as [->|Hne].
    + rewrite lookup_alter_eq, lookup_insert_eq, Htext. reflexivity.
    + rewrite lookup_alter_ne, lookup_insert_ne by exact Hne. reflexivity.
  - apply motions_without_selection. reflexivity.
Qed.

(** X28. A motion inside the axes changes the position of the held
    text and nothing else: its string and flags stay, and so does every
    other artist. *)
Theorem motion_moves_only_held_text
    (m : TextMover) (event : Event) (i : nat) (t : Text) :
  mousePressed m = true →
  selectedText m = Some i →
  artists m !! i = Some (TextArtist t) →
  not_in_axes event (ax m) = false →
  artists (on_motion m event)
  = <[i := TextArtist (set_position (xdata event, ydata event) t)]>
      (artists m) ∧
  selectedText (on_motion m event) = Some i ∧
  mousePressed (on_motion m event) = true ∧
  background (on_motion m event) = background m.
Proof.
  intros Hpressed Hsel Htext Hin. unfold on_motion.
  rewrite Hin, Hpressed, Hsel. cbn.
  split; [|split; [exact Hsel|split; [exact Hpressed|reflexivity]]].
  apply map_eq. intros j. destruct (decide (i = j)) as [->|Hne].
  - rewrite lookup_alter_eq, lookup_insert_eq, Htext. reflexivity.
  - rewrite lookup_alter_ne, lookup_insert_ne by exact Hne. reflexivity.
Qed.

End MoreMover.

Lemma rejected_pick_moves_nothing_witness :
  text_mover.on_pick_event idle_mover
    {| text_mover.mouseevent := mouse_at 1 None 0 0;
       text_mover.artist := 1%nat |} = idle_mover ∧
  (text_mover.selectedText idle_mover = None →
   foldl text_mover.on_motion
     (text_mover.on_pick_event idle_mover
        {| text_mover.mouseevent := mouse_at 1 None 0 0;
           text_mover.artist := 1%nat |})
     [mouse_at 1 None 2 3] = idle_mover).
Proof.
  apply (rejected_pick_moves_nothing idle_mover
           {| text_mover.mouseevent := mouse_at 1 None 0 0;
              text_mover.artist := 1%nat |} [mouse_at 1 None 2 3]).
  right. right. reflexivity.
Defined.

(** The mover of the examples while it holds its text. *)
Lemma release_drops_text_witness :
  ∃ m',
    text_mover.on_release holding_mover (mouse_at 1 None 2 3) = m' ∧
    text_mover.selectedText m' = None ∧
    text_mover.mousePressed m' = false ∧
    text_mover.background m' = None ∧
    text_mover.artists m'
    = <[0%nat := text_mover.TextArtist
                   (text_set_animated false
                      (text_set_animated true (plain_text "label")))]>
        (text_mover.artists holding_mover) ∧
    foldl text_mover.on_motion m' [mouse_at 1 None 5 5] = m'.
Proof.
  apply (release_drops_text holding_mover 0
           (text_set_animated true (plain_text "label"))
           (mouse_at 1 None 2 3) [mouse_at 1 None 5 5]); reflexivity.
Defined.

Lemma motion_moves_only_held_text_witness :
  text_mover.artists (text_mover.on_motion holding_mover (mouse_at 1 None 2 3))
  = <[0%nat := text_mover.TextArtist
                 (set_position (2, 3)
                    (text_set_animated true (plain_text "label")))]>
      (text_mover.artists holding_mover) ∧
  text_mover.selectedText (text_mover.on_motion holding_mover
                             (mouse_at 1 None 2 3)) = Some 0%nat ∧
  text_mover.mousePressed (text_mover.on_motion holding_mover
                             (mouse_at 1 None 2 3)) = true ∧
  text_mover.background (text_mover.on_motion holding_mover
                           (mouse_at 1 None 2 3))
  = text_mover.background holding_mover.
Proof.
  apply (motion_moves_only_held_text holding_mover (mouse_at 1 None 2 3) 0
           (text_set_animated true (plain_text "label"))); reflexivity.
Defined.

(** * The statements above on the example states *)

Lemma press_on_marker_locks_witness :
  ∃ w',
    matplotlib_ruler._on_press always (measured (0, 0) (2, 0))
      (mouse_at 1 None 1 0) = Some w' ∧
    (matplotlib_ruler._end_a_lock w', matplotlib_ruler._end_b_lock w',
     matplotlib_ruler._end_c_lock w') = (true, true, true) ∧
    matplotlib_ruler._old_mid_coords w' = Some (midpoint (0, 0) (2, 0)).
Proof.
  destruct (press_on_marker_locks always (measured (0, 0) (2, 0))
              (mouse_at 1 None 1 0) (0, 0) (2, 0)
              eq_refl eq_refl eq_refl eq_refl)
    as (w' & Hpress & Hlocks & _ & _ & Hmid & _).
  exists w'. split; [exact Hpress|]. split; [exact Hlocks|exact Hmid].
Defined.

Lemma press_off_marker_starts_drawing_witness :
  ∃ w',
    matplotlib_ruler._on_press never (measured (0, 0) (2, 0))
      (mouse_at 1 None 4 3) = Some w' ∧
    matplotlib_ruler._ruler_drawing w' = true ∧
    matplotlib_ruler._x0 w' = Some 4 ∧
    matplotlib_ruler._y0 w' = Some 3 ∧
    vertices (matplotlib_ruler._marker_a w') = [(4, 3)].
Proof.
  destruct (press_off_marker_starts_drawing never (measured (0, 0) (2, 0))
              (mouse_at 1 None 4 3) eq_refl eq_refl eq_refl)
    as (w' & Hpress & Hdr & Hx0 & Hy0 & Ha & _).
  exists w'. repeat (split; [assumption|]). exact Ha.
Defined.

Lemma other_button_press_only_tracked_witness :
  ∃ w',
    matplotlib_ruler._on_press always (measured (0, 0) (2, 0))
      (mouse_at 3 (Some "shift") 1 0) = Some w' ∧
    matplotlib_ruler._pressed_keys w' = ["shift"] ∧
    matplotlib_ruler._mouse_buttons w' = {[3%nat]} ∪ ∅.
Proof.
  destruct (other_button_press_only_tracked always (measured (0, 0) (2, 0))
              (mouse_at 3 (Some "shift") 1 0))
    as (w' & Hpress & Hkeys & Hbuttons & _).
  - cbn. discriminate.
  - exists w'. split; [exact Hpress|]. split; [exact Hkeys|exact Hbuttons].
Defined.

Lemma endpoint_drag_witness :
  ∃ w',
    matplotlib_ruler._on_move never no_digits
      (grabbed true false false (0, 0) (2, 0)) (mouse_at 1 None 4 3)
    = Some w' ∧
    vertices (matplotlib_ruler._ruler w') = [(4, 3); (2, 0)] ∧
    vertices (matplotlib_ruler._marker_a w') = [(4, 3)].
Proof.
  destruct (endpoint_drag never no_digits
              (grabbed true false false (0, 0) (2, 0)) (mouse_at 1 None 4 3)
              (0, 0) (2, 0) eq_refl eq_refl eq_refl
              (grabbed_recorded true false false (0, 0) (2, 0)))
    as (w' & Hmove & Hline & Ha & _).
  exists w'. split; [exact Hmove|]. split; [exact Hline|exact Ha].
Defined.

Lemma constrained_drawing_witness :
  ∃ w',
    matplotlib_ruler._on_move never no_digits (drawing (0, 0) (1, 1))
      (mouse_at 1 (Some "shift") 4 3) = Some w' ∧
    matplotlib_ruler.ruler_dy w' = Some 0 ∧
    matplotlib_ruler.ruler_dx w' = Some (4 - 0) ∧
    matplotlib_ruler.ruler_length w' = Some (Rabs (4 - 0)).
Proof.
  destruct (constrained_drawing never no_digits (drawing (0, 0) (1, 1))
              (mouse_at 1 (Some "shift") 4 3) 0 0
              eq_refl eq_refl eq_refl eq_refl eq_refl)
    as (w' & Hmove & Hshift & _).
  exists w'. split; [exact Hmove|]. exact (Hshift eq_refl).
Defined.

Lemma mid_drag_carries_markers_witness :
  ∃ w',
    matplotlib_ruler._on_move never no_digits
      (grabbed false true false (0, 0) (2, 0)) (mouse_at 1 None 4 3)
    = Some w' ∧
    vertices (matplotlib_ruler._marker_a w')
    = [translate (4 - (0 + 2) / 2, 3 - (0 + 0) / 2) (0, 0)] ∧
    vertices (matplotlib_ruler._marker_b w')
    = [translate (4 - (0 + 2) / 2, 3 - (0 + 0) / 2)
         (midpoint (0, 0) (2, 0))] ∧
    vertices (matplotlib_ruler._marker_c w')
    = [translate (4 - (0 + 2) / 2, 3 - (0 + 0) / 2) (2, 0)].
Proof.
  destruct (mid_drag_carries_markers never no_digits
              (grabbed false true false (0, 0) (2, 0)) (mouse_at 1 None 4 3)
              (0, 0) (2, 0) (0, 0) (2, 0) [] [] eq_refl eq_refl
              (grabbed_recorded false true false (0, 0) (2, 0))
              eq_refl eq_refl)
    as (w' & Hmove & Hmarkers).
  exists w'. split; [exact Hmove|exact Hmarkers].
Defined.

Lemma drawing_gesture_draws_witness :
  ∃ w1,
    matplotlib_ruler._on_press never (measured (0, 0) (2, 0))
      (mouse_at 1 None 1 1) = Some w1 ∧
    ∃ w2,
      matplotlib_ruler._on_move never no_digits w1 (mouse_at 1 None 4 3)
      = Some w2 ∧
      vertices (matplotlib_ruler._ruler w2) = [(1, 1); (4, 3)] ∧
      vertices (matplotlib_ruler._marker_a w2) = [(1, 1)] ∧
      vertices (matplotlib_ruler._marker_c w2) = [(4, 3)].
Proof.
  destruct (drawing_gesture_draws never no_digits (measured (0, 0) (2, 0))
              (mouse_at 1 None 1 1) (mouse_at 1 None 4 3)
              eq_refl eq_refl eq_refl eq_refl eq_refl)
    as (w1 & Hpress & w2 & Hmove & Hdrawn).
  exists w1. split; [exact Hpress|]. exists w2. split; [exact Hmove|].
  exact Hdrawn.
Defined.

Lemma session_never_fails_witness :
  ∃ w',
    ruler_session always no_digits (measured (0, 0) (2, 0))
      [button_press_event (mouse_at 1 None 1 0);
       motion_notify_event (mouse_at 1 (Some "shift") 4 3);
       button_release_event (mouse_at 1 None 4 3);
       key_press_event (mouse_at 0 (Some "ctrl+m") 0 0);
       key_release_event (mouse_at 0 (Some "ctrl+m") 0 0);
       button_press_event (mouse_outside 3)] = Some w' ∧
    ready w' = true ∧
    settings w' = settings (measured (0, 0) (2, 0)) ∧
    matplotlib_ruler._mouse_buttons (measured (0, 0) (2, 0))
    ⊆ matplotlib_ruler._mouse_buttons w'.
Proof.
  apply (session_never_fails always no_digits (measured (0, 0) (2, 0))
           [button_press_event (mouse_at 1 None 1 0);
            motion_notify_event (mouse_at 1 (Some "shift") 4 3);
            button_release_event (mouse_at 1 None 4 3);
            key_press_event (mouse_at 0 (Some "ctrl+m") 0 0);
            key_release_event (mouse_at 0 (Some "ctrl+m") 0 0);
            button_press_event (mouse_outside 3)]);
    reflexivity.
Defined.

Lemma keyless_events_witness :
  matplotlib_ruler._on_key_release never (measured (0, 0) (2, 0))
    (mouse_at 0 None 0 0) = None ∧
  ∃ w',
    matplotlib_ruler._on_key_press never no_digits (measured (0, 0) (2, 0))
      (mouse_at 0 None 0 0) = Some w' ∧
    matplotlib_ruler._pressed_keys w' = [].
Proof.
  apply (keyless_events never no_digits (measured (0, 0) (2, 0))
           (mouse_at 0 None 0 0)).
  reflexivity.
Defined.

Lemma right_click_measurement_witness :
  ∃ t1,
    matplotlib_tools.on_press no_digits (tools_measured (0, 0) (1, 1))
      (mouse_at 3 None 1 1) = Some t1 ∧
    matplotlib_tools.line_start_coords t1 = Some (1, 1) ∧
    ∃ t2,
      matplotlib_tools.on_press no_digits t1 (mouse_at 3 None 4 5)
      = Some t2 ∧
      vertices (matplotlib_tools.line t2) = [(1, 1); (4, 5)] ∧
      position (matplotlib_tools.line_text t2)
      = midpoint (1, 1) (4, 5).
Proof.
  destruct (right_click_measurement no_digits (tools_measured (0, 0) (1, 1))
              (mouse_at 3 None 1 1) (mouse_at 3 None 4 5)
              eq_refl eq_refl eq_refl eq_refl eq_refl)
    as (t1 & Hfirst & Hstart & _ & _ & _ & t2 & Hsecond & Hline & Hpos & _).
  exists t1. split; [exact Hfirst|]. split; [exact Hstart|].
  exists t2. split; [exact Hsecond|]. split; [exact Hline|exact Hpos].
Defined.

Lemma pending_right_click_blocks_drawing_witness :
  ∃ t1,
    matplotlib_tools.on_press no_digits (tools_measured (0, 0) (1, 1))
      (mouse_at 3 None 1 1) = Some t1 ∧
    matplotlib_tools.on_press no_digits t1 (mouse_at 1 None 2 2) = Some t1.
Proof.
  apply (pending_right_click_blocks_drawing no_digits
           (tools_measured (0, 0) (1, 1)) (mouse_at 3 None 1 1)
           (mouse_at 1 None 2 2)); reflexivity.
Defined.

Lemma left_drag_draws_witness :
  ∃ t1,
    matplotlib_tools.on_press no_digits (tools_measured (0, 0) (1, 1))
      (mouse_at 1 None 1 1) = Some t1 ∧
    ∃ t2,
      matplotlib_tools.on_move no_digits t1 (mouse_at 1 None 4 3) = Some t2 ∧
      vertices (matplotlib_tools.line t2) = [(1, 1); (4, 3)] ∧
      position (matplotlib_tools.line_text t2) = midpoint (1, 1) (4, 3).
Proof.
  destruct (left_drag_draws no_digits (tools_measured (0, 0) (1, 1))
              (mouse_at 1 None 1 1) (mouse_at 1 None 4 3)
              (mouse_at 1 None 4 3) eq_refl eq_refl eq_refl eq_refl)
    as (t1 & Hpress & t2 & Hmove & Hdrawn & _).
  exists t1. split; [exact Hpress|]. exists t2. split; [exact Hmove|].
  exact Hdrawn.
Defined.

Lemma tools_session_never_fails_witness :
  ∃ t',
    tools_session no_digits (tools_measured (0, 0) (1, 1))
      [button_press_event (mouse_at 3 None 1 1);
       key_press_event (mouse_at 0 (Some "shift") 0 0);
       button_press_event (mouse_at 1 None 2 2);
       motion_notify_event (mouse_at 1 None 4 3);
       button_press_event (mouse_at 3 None 4 5);
       button_release_event (mouse_outside 1);
       key_release_event (mouse_at 0 None 0 0)] = Some t' ∧
    tools_ready t' = true ∧
    tools_settings t' = tools_settings (tools_measured (0, 0) (1, 1)).
Proof.
  apply (tools_session_never_fails no_digits (tools_measured (0, 0) (1, 1))
           [button_press_event (mouse_at 3 None 1 1);
            key_press_event (mouse_at 0 (Some "shift") 0 0);
            button_press_event (mouse_at 1 None 2 2);
            motion_notify_event (mouse_at 1 None 4 3);
            button_press_event (mouse_at 3 None 4 5);
            button_release_event (mouse_outside 1);
            key_release_event (mouse_at 0 None 0 0)]).
  reflexivity.
Defined.

Lemma modifier_flags_follow_keys_witness :
  matplotlib_tools.shift_pressed
    (matplotlib_tools.on_key_press (tools_measured (0, 0) (1, 1))
       (mouse_at 0 (Some "shift") 0 0)) = true ∧
  matplotlib_tools.on_key_release
    (matplotlib_tools.on_key_press (tools_measured (0, 0) (1, 1))
       (mouse_at 0 (Some "shift") 0 0))
    (mouse_at 0 (Some "shift") 0 0)
  = matplotlib_tools.set_shift_pressed false (tools_measured (0, 0) (1, 1)).
Proof.
  apply (modifier_flags_follow_keys (tools_measured (0, 0) (1, 1))
           (mouse_at 0 (Some "shift") 0 0)).
  reflexivity.
Defined.

Lemma tools_hidden_ruler_ignores_presses_witness :
  matplotlib_tools.on_press no_digits
    (matplotlib_tools.on_key_press (tools_measured (0, 0) (1, 1))
       (mouse_at 0 (Some "ctrl+m") 0 0))
    (mouse_at 1 None 1 1)
  = Some (matplotlib_tools.on_key_press (tools_measured (0, 0) (1, 1))
            (mouse_at 0 (Some "ctrl+m") 0 0)) ∧
  tools_artists_visible
    (matplotlib_tools.on_key_press (tools_measured (0, 0) (1, 1))
       (mouse_at 0 (Some "ctrl+m") 0 0))
  = [false; false; false].
Proof.
  destruct (tools_hidden_ruler_ignores_presses no_digits
              (tools_measured (0, 0) (1, 1)) (mouse_at 0 (Some "ctrl+m") 0 0)
              (mouse_at 1 None 1 1) (mouse_at 0 (Some "m") 0 0)
              eq_refl eq_refl eq_refl)
    as (Hpress & Hhidden & _).
  split; [exact Hpress|exact Hhidden].
Defined.
